(** * EOS Energy Optimizer: sensor updates, price normalisation, request
      building, control state, savings and the EV charging controller,
      embedded in Rocq

    The Python sources modelled here are [api.py] (class [EOSApiClient]),
    [coordinator.py] (class [EOSDataUpdateCoordinator]) and [const.py].

    Conventions of the embedding.
    - Python numbers ([int] and [float]) are rationals [Q]: arithmetic is
      exact, comparison is [Qle_bool] and friends.  Equalities between
      computed numbers are stated with [==] ([Qeq]) where arithmetic is
      involved and with [=] where the code only moves values around.
      This reading serves where rounding does not change what is said.
      Where it does, in the amounts and the threshold of
      [_update_savings], the numbers are the binary64 floats of
      [PrimFloat] (module [Float64]).
    - An exception is known by the [isinstance] tests that the [except]
      clauses perform on it; what no clause takes goes on to the caller.
    - Python lists are [list]; [l[:n]] is [take n l], [[x] * n] is
      [replicate n x], [l[i] = x] is [<[i:=x]> l] guarded by the range test
      the code performs, [l[i]] is [l !! i].
    - Python dicts are stdpp [gmap]s.
    - A [while] loop is a function defined by well-founded recursion on
      the quantity that the loop decreases.
    - A dataclass is a record inside a module of the same name, so that
      fields keep their source names ([ControlState.mode], ...). *)

From Stdlib Require Import QArith Qabs Qround Lqa Lia ZArith Floats.
From stdpp Require Import gmap list strings.
From Equations Require Import Equations.

Set Default Proof Using "Type".
(* A decimal literal denotes the nearest float, as it does in Python. *)
Set Warnings "-inexact-float".

(** ** Python primitives *)

(** [x if x else d], on lists: the truth value of a list is its
    non-emptiness. *)
Definition list_truthy {A} (l : list A) : bool :=
  match l with [] => false | _ :: _ => true end.

(** [int(x)] on a float: truncation towards zero. *)
Definition py_int (x : Q) : Z := Z.quot (Qnum x) (Zpos (Qden x)).

(** [a < b] on numbers. *)
Definition Qlt_bool (a b : Q) : bool := negb (Qle_bool b a).

(** [sum(l)]: starts from 0 and adds from the left. *)
Definition py_sum (l : list Q) : Q := foldl Qplus 0%Q l.

(** [sum(l) / len(l)] *)
Definition mean (l : list Q) : Q := (py_sum l / inject_Z (Z.of_nat (length l)))%Q.

(** [while len(l) < n: l.append(next(l))] *)
Equations? append_while {A} (n : nat) (next : list A -> A) (l : list A) : list A
  by wf (n - length l) lt :=
  append_while n next l with decide (length l < n) => {
    | left _ := append_while n next (l ++ [next l]);
    | right _ := l }.
Proof. rewrite length_app; simpl; lia. Qed.

(** [config.get(key, default)] on the numeric settings. *)
Definition config_get (config : gmap string Q) (key : string) (dflt : Q) : Q :=
  default dflt (config !! key).

(** ** const.py *)

Definition CONF_BATTERY_CAPACITY : string := "battery_capacity_wh".
Definition CONF_BATTERY_CHARGE_EFFICIENCY : string := "battery_charge_efficiency".
Definition CONF_BATTERY_DISCHARGE_EFFICIENCY : string := "battery_discharge_efficiency".
Definition CONF_BATTERY_MAX_CHARGE_POWER : string := "battery_max_charge_power_w".
Definition CONF_BATTERY_MIN_SOC : string := "battery_min_soc".
Definition CONF_BATTERY_MAX_SOC : string := "battery_max_soc".
Definition CONF_FEED_IN_PRICE : string := "feed_in_price".
Definition CONF_MAX_GRID_CHARGE_RATE : string := "max_grid_charge_rate".
Definition CONF_MAX_PV_CHARGE_RATE : string := "max_pv_charge_rate".
Definition CONF_CHARGING_CURVE_ENABLED : string := "charging_curve_enabled".
Definition CONF_REFRESH_TIME : string := "refresh_time".

Definition DEFAULT_REFRESH_TIME : Q := 3.
Definition DEFAULT_BATTERY_CAPACITY : Q := 10000.
Definition DEFAULT_BATTERY_EFFICIENCY : Q := 0.93.
Definition DEFAULT_BATTERY_MAX_CHARGE : Q := 5000.
Definition DEFAULT_BATTERY_MIN_SOC : Q := 5.
Definition DEFAULT_BATTERY_MAX_SOC : Q := 95.
Definition DEFAULT_FEED_IN_PRICE : Q := 0.08.

Definition EVCC_BATTERY_HOLD : string := "hold".
Definition EVCC_BATTERY_NORMAL : string := "normal".
Definition EVCC_BATTERY_CHARGE : string := "charge".

Inductive InverterMode : Set :=
| AUTO
| STARTUP
| CHARGE_FROM_GRID
| AVOID_DISCHARGE
| DISCHARGE_ALLOWED.

Definition InverterMode_value (m : InverterMode) : Z :=
  match m with
  | AUTO => -2
  | STARTUP => -1
  | CHARGE_FROM_GRID => 0
  | AVOID_DISCHARGE => 1
  | DISCHARGE_ALLOWED => 2
  end.

Global Instance InverterMode_eq_dec : EqDecision InverterMode.
Proof. solve_decision. Defined.

(** ** api.py: data classes *)

(** EOS optimization request duration (48 hours) *)
Definition EOS_TGT_DURATION : nat := 48.

(** The default price of 0.30 EUR/kWh and the default load of 400 W that
    the code writes as literals. *)
Definition DEFAULT_PRICE : Q := 0.30.
Definition DEFAULT_LOAD : Q := 400.

Module OptimizationResult.
Record t : Type := mk {
  ac_charge : list Q;
  dc_charge : list Q;
  discharge_allowed : list bool;
  soc_forecast : list Q;
  cost_total : Q;
  losses_total : Q;
  grid_import : list Q;
  grid_export : list Q;
  load_forecast : list Q;
  home_appliance_start_hour : option Z;
  timestamp : option Q
}.
(** [OptimizationResult()] *)
Definition new : t := mk [] [] [] [] 0 0 [] [] [] None None.
End OptimizationResult.

Module ControlState.
Record t : Type := mk {
  mode : InverterMode;
  ac_charge_demand : Q;
  dc_charge_demand : Q;
  discharge_allowed : bool;
  override_active : bool;
  override_end_time : option Q;
  override_power : Q
}.
Definition new : t := mk AUTO 0 0 true false None 0.

Definition set_mode (v : InverterMode) (c : t) : t :=
  mk v (ac_charge_demand c) (dc_charge_demand c) (discharge_allowed c)
     (override_active c) (override_end_time c) (override_power c).
Definition set_ac_charge_demand (v : Q) (c : t) : t :=
  mk (mode c) v (dc_charge_demand c) (discharge_allowed c)
     (override_active c) (override_end_time c) (override_power c).
Definition set_dc_charge_demand (v : Q) (c : t) : t :=
  mk (mode c) (ac_charge_demand c) v (discharge_allowed c)
     (override_active c) (override_end_time c) (override_power c).
Definition set_discharge_allowed (v : bool) (c : t) : t :=
  mk (mode c) (ac_charge_demand c) (dc_charge_demand c) v
     (override_active c) (override_end_time c) (override_power c).
End ControlState.

Module BatteryState.
Record t : Type := mk {
  soc : Q;
  usable_energy_wh : Q;
  dynamic_max_charge_power : Q;
  capacity_wh : Q;
  min_soc : Q;
  max_soc : Q
}.
Definition new : t := mk 0 0 0 0 0 100.
End BatteryState.

Module SavingsTracker.
Record t : Type := mk {
  total_savings_eur : Q;
  total_grid_cost_eur : Q;
  total_feed_in_revenue_eur : Q;
  total_charged_kwh : Q;
  total_discharged_kwh : Q;
  total_grid_import_kwh : Q;
  total_grid_export_kwh : Q;
  total_pv_charged_kwh : Q;
  total_grid_charged_kwh : Q;
  session_savings_eur : Q;
  session_charged_kwh : Q;
  session_discharged_kwh : Q;
  session_pv_charged_kwh : Q;
  session_grid_charged_kwh : Q;
  avg_charge_price : Q;
  avg_discharge_price : Q;
  today_savings_eur : Q;
  today_grid_cost_eur : Q;
  today_pv_charged_kwh : Q;
  today_grid_charged_kwh : Q;
  today_date : string
}.
Definition new : t :=
  mk 0 0 0 0 0 0 0 0 0 0 0 0 0 0 0 0 0 0 0 0 "".
End SavingsTracker.

(** [EOSData], without the fields that none of the methods below reads or
    writes ([evcc], [last_update], [eos_version]). *)
Module EOSData.
Record t : Type := mk {
  control : ControlState.t;
  battery : BatteryState.t;
  optimization : OptimizationResult.t;
  savings : SavingsTracker.t;
  pv_forecast : list Q;
  prices : list Q;
  prices_15min : list Q;
  load_profile : list Q;
  last_optimization : option Q;
  next_optimization : option Q;
  optimization_state : string;
  last_start_solution : option (list Q);
  home_appliance_released : bool;
  home_appliance_start_hour : option Z
}.
Definition new : t :=
  mk ControlState.new BatteryState.new OptimizationResult.new
     SavingsTracker.new [] [] [] [] None None "unknown" None false None.

Definition set_control (v : ControlState.t) (d : t) : t :=
  mk v (battery d) (optimization d) (savings d) (pv_forecast d) (prices d)
     (prices_15min d) (load_profile d) (last_optimization d)
     (next_optimization d) (optimization_state d) (last_start_solution d)
     (home_appliance_released d) (home_appliance_start_hour d).
Definition set_battery (v : BatteryState.t) (d : t) : t :=
  mk (control d) v (optimization d) (savings d) (pv_forecast d) (prices d)
     (prices_15min d) (load_profile d) (last_optimization d)
     (next_optimization d) (optimization_state d) (last_start_solution d)
     (home_appliance_released d) (home_appliance_start_hour d).
Definition set_optimization (v : OptimizationResult.t) (d : t) : t :=
  mk (control d) (battery d) v (savings d) (pv_forecast d) (prices d)
     (prices_15min d) (load_profile d) (last_optimization d)
     (next_optimization d) (optimization_state d) (last_start_solution d)
     (home_appliance_released d) (home_appliance_start_hour d).
Definition set_savings (v : SavingsTracker.t) (d : t) : t :=
  mk (control d) (battery d) (optimization d) v (pv_forecast d) (prices d)
     (prices_15min d) (load_profile d) (last_optimization d)
     (next_optimization d) (optimization_state d) (last_start_solution d)
     (home_appliance_released d) (home_appliance_start_hour d).
Definition set_last_optimization (v : option Q) (d : t) : t :=
  mk (control d) (battery d) (optimization d) (savings d) (pv_forecast d)
     (prices d) (prices_15min d) (load_profile d) v
     (next_optimization d) (optimization_state d) (last_start_solution d)
     (home_appliance_released d) (home_appliance_start_hour d).
Definition set_next_optimization (v : option Q) (d : t) : t :=
  mk (control d) (battery d) (optimization d) (savings d) (pv_forecast d)
     (prices d) (prices_15min d) (load_profile d) (last_optimization d)
     v (optimization_state d) (last_start_solution d)
     (home_appliance_released d) (home_appliance_start_hour d).
Definition set_optimization_state (v : string) (d : t) : t :=
  mk (control d) (battery d) (optimization d) (savings d) (pv_forecast d)
     (prices d) (prices_15min d) (load_profile d) (last_optimization d)
     (next_optimization d) v (last_start_solution d)
     (home_appliance_released d) (home_appliance_start_hour d).
Definition set_last_start_solution (v : option (list Q)) (d : t) : t :=
  mk (control d) (battery d) (optimization d) (savings d) (pv_forecast d)
     (prices d) (prices_15min d) (load_profile d) (last_optimization d)
     (next_optimization d) (optimization_state d) v
     (home_appliance_released d) (home_appliance_start_hour d).
Definition set_home_appliance (released : bool) (hour : option Z) (d : t) : t :=
  mk (control d) (battery d) (optimization d) (savings d) (pv_forecast d)
     (prices d) (prices_15min d) (load_profile d) (last_optimization d)
     (next_optimization d) (optimization_state d) (last_start_solution d)
     released hour.
End EOSData.

(** ** api.py: price expansion *)

(** [_expand_hourly_to_15min]: each of the first 48 hourly prices four
    times, then 0.30 until 192 slots are filled. *)
Definition _expand_hourly_to_15min (hourly_prices : list Q) : list Q :=
  let prices_15min :=
    foldl (fun acc price => acc ++ replicate 4 price) [] (take 48 hourly_prices) in
  let prices_15min := append_while 192 (fun _ => DEFAULT_PRICE) prices_15min in
  take 192 prices_15min.

(** ** api.py: the optimization request *)

Module Ems.
Record t : Type := mk {
  pv_prognose_wh : list Q;
  strompreis_euro_pro_wh : list Q;
  einspeiseverguetung_euro_pro_wh : list Q;
  gesamtlast : list Q
}.
End Ems.

Module PvAkku.
Record t : Type := mk {
  device_id : option string;
  capacity_wh : Q;
  charging_efficiency : Q;
  discharging_efficiency : Q;
  max_charge_power_w : Q;
  initial_soc_percentage : Z;
  min_soc_percentage : Q;
  max_soc_percentage : Q
}.
End PvAkku.

Module Inverter.
Record t : Type := mk {
  device_id : option string;
  max_power_wh : Q;
  battery_id : option string
}.
End Inverter.

Module Request.
Record t : Type := mk {
  ems : Ems.t;
  pv_akku : PvAkku.t;
  inverter : Inverter.t;
  start_solution : option (list Q)
}.
End Request.

(** [round(x)] on a float: to the nearest integer, ties to the even one. *)
Definition py_round (x : Q) : Z :=
  let f := Qfloor x in
  let r := (x - inject_Z f)%Q in
  if Qlt_bool r 0.5 then f
  else if Qlt_bool 0.5 r then (f + 1)%Z
  else if Z.even f then f else (f + 1)%Z.

Section BuildRequest.
(** [self.config] and the answer of [is_eos_version_at_least("0.0.2")],
    which rests on the [packaging] library. *)
Variable config : gmap string Q.
Variable eos_at_least_0_0_2 : bool.

Definition _build_optimization_request (data : EOSData.t) : Request.t :=
  let capacity := config_get config CONF_BATTERY_CAPACITY DEFAULT_BATTERY_CAPACITY in
  let charge_eff := config_get config CONF_BATTERY_CHARGE_EFFICIENCY DEFAULT_BATTERY_EFFICIENCY in
  let discharge_eff := config_get config CONF_BATTERY_DISCHARGE_EFFICIENCY DEFAULT_BATTERY_EFFICIENCY in
  let max_charge := config_get config CONF_BATTERY_MAX_CHARGE_POWER DEFAULT_BATTERY_MAX_CHARGE in
  let min_soc := config_get config CONF_BATTERY_MIN_SOC DEFAULT_BATTERY_MIN_SOC in
  let max_soc := config_get config CONF_BATTERY_MAX_SOC DEFAULT_BATTERY_MAX_SOC in
  let feed_in := config_get config CONF_FEED_IN_PRICE DEFAULT_FEED_IN_PRICE in
  let max_pv_charge := config_get config CONF_MAX_PV_CHARGE_RATE max_charge in
  (* Ensure we have enough data points *)
  let pv_forecast :=
    if list_truthy (EOSData.pv_forecast data)
    then take EOS_TGT_DURATION (EOSData.pv_forecast data)
    else replicate EOS_TGT_DURATION 0%Q in
  let prices :=
    if list_truthy (EOSData.prices data)
    then take EOS_TGT_DURATION (EOSData.prices data)
    else replicate EOS_TGT_DURATION DEFAULT_PRICE in
  let load_profile :=
    if list_truthy (EOSData.load_profile data)
    then take EOS_TGT_DURATION (EOSData.load_profile data)
    else replicate EOS_TGT_DURATION DEFAULT_LOAD in
  (* Pad arrays if needed *)
  let pv_forecast := append_while EOS_TGT_DURATION (fun _ => 0%Q) pv_forecast in
  let prices :=
    append_while EOS_TGT_DURATION (fun l => List.last l DEFAULT_PRICE) prices in
  let load_profile :=
    append_while EOS_TGT_DURATION (fun l => List.last l DEFAULT_LOAD) load_profile in
  let ems :=
    Ems.mk pv_forecast
           ((fun p => p / 1000)%Q <$> prices)
           (replicate EOS_TGT_DURATION (feed_in / 1000)%Q)
           load_profile in
  let pv_akku :=
    PvAkku.mk (if eos_at_least_0_0_2 then Some "battery1" else None)
              capacity charge_eff discharge_eff max_charge
              (py_round (BatteryState.soc (EOSData.battery data)))
              min_soc max_soc in
  let inverter :=
    Inverter.mk (if eos_at_least_0_0_2 then Some "inverter1" else None)
                max_pv_charge
                (if eos_at_least_0_0_2 then Some "battery1" else None) in
  Request.mk ems pv_akku inverter
    (match EOSData.last_start_solution data with
     | Some (x :: l) => Some (x :: l)
     | _ => None
     end).
End BuildRequest.

(** ** api.py: battery and control state *)

Section ControlAndBattery.
Variable config : gmap string Q.
(** [self.config.get(CONF_CHARGING_CURVE_ENABLED, False)], the one
    setting that is not a number. *)
Variable charging_curve_enabled : bool.

Definition _update_battery_state (data : EOSData.t) : EOSData.t :=
  let capacity := config_get config CONF_BATTERY_CAPACITY DEFAULT_BATTERY_CAPACITY in
  let min_soc := config_get config CONF_BATTERY_MIN_SOC DEFAULT_BATTERY_MIN_SOC in
  let max_soc := config_get config CONF_BATTERY_MAX_SOC DEFAULT_BATTERY_MAX_SOC in
  let max_charge := config_get config CONF_BATTERY_MAX_CHARGE_POWER DEFAULT_BATTERY_MAX_CHARGE in
  let current_soc := BatteryState.soc (EOSData.battery data) in
  let usable :=
    if Qlt_bool min_soc current_soc
    then (capacity * ((current_soc - min_soc) / 100))%Q
    else 0%Q in
  let dynamic :=
    if charging_curve_enabled then
      if Qlt_bool current_soc 80 then max_charge
      else if Qlt_bool current_soc 90 then (max_charge * 0.7)%Q
      else if Qlt_bool current_soc 95 then (max_charge * 0.5)%Q
      else (max_charge * 0.3)%Q
    else max_charge in
  EOSData.set_battery
    (BatteryState.mk current_soc usable dynamic capacity min_soc max_soc) data.

(** [_update_control_state]: the three schedules must all be non-empty,
    otherwise the method returns at once. *)
Definition _update_control_state (data : EOSData.t) : EOSData.t :=
  let opt := EOSData.optimization data in
  if negb (list_truthy (OptimizationResult.ac_charge opt))
     || negb (list_truthy (OptimizationResult.dc_charge opt))
     || negb (list_truthy (OptimizationResult.discharge_allowed opt))
  then data
  else
    let max_grid_charge :=
      config_get config CONF_MAX_GRID_CHARGE_RATE DEFAULT_BATTERY_MAX_CHARGE in
    let max_pv_charge :=
      config_get config CONF_MAX_PV_CHARGE_RATE DEFAULT_BATTERY_MAX_CHARGE in
    let control := EOSData.control data in
    let control :=
      match OptimizationResult.ac_charge opt with
      | x :: _ => ControlState.set_ac_charge_demand (x * max_grid_charge)%Q control
      | [] => control
      end in
    let control :=
      match OptimizationResult.dc_charge opt with
      | x :: _ => ControlState.set_dc_charge_demand (x * max_pv_charge)%Q control
      | [] => control
      end in
    let control :=
      match OptimizationResult.discharge_allowed opt with
      | x :: _ => ControlState.set_discharge_allowed x control
      | [] => control
      end in
    let control :=
      if negb (ControlState.override_active control) then
        if Qlt_bool 0 (ControlState.ac_charge_demand control)
        then ControlState.set_mode CHARGE_FROM_GRID control
        else if negb (ControlState.discharge_allowed control)
        then ControlState.set_mode AVOID_DISCHARGE control
        else ControlState.set_mode DISCHARGE_ALLOWED control
      else control in
    EOSData.set_control control data.
End ControlAndBattery.

(** ** api.py: the optimization response *)

(** The JSON object that the optimizer answers with, key by key; a key
    that is absent is [None]. *)
Module Response.
Record details : Type := mk_details {
  akku_soc_pro_stunde : option (list Q);
  Gesamtkosten_Euro : option Q;
  Gesamt_Verluste : option Q;
  Netzbezug_Wh_pro_Stunde : option (list Q);
  Netzeinspeisung_Wh_pro_Stunde : option (list Q);
  Last_Wh_pro_Stunde : option (list Q)
}.
Record t : Type := mk {
  error : option string;
  ac_charge : option (list Q);
  dc_charge : option (list Q);
  discharge_allowed : option (list Q);
  result : option details;
  start_solution : option (list Q);
  washingstart : option Z
}.
End Response.

(** [bool(x)] on a number *)
Definition py_bool (x : Q) : bool := negb (Qeq_bool x 0).

(** [_parse_optimization_response]; [now] and [current_hour] are the two
    readings of the clock it takes.  The method returns the result and
    updates [self._data] in passing. *)
Definition _parse_optimization_response (now : Q) (current_hour : Z)
    (response : Response.t) (data : EOSData.t) : OptimizationResult.t * EOSData.t :=
  match Response.error response with
  | Some _ => (OptimizationResult.new, data)
  | None =>
    let ac := default (replicate EOS_TGT_DURATION 0%Q) (Response.ac_charge response) in
    let dc := default (replicate EOS_TGT_DURATION 1%Q) (Response.dc_charge response) in
    let da :=
      py_bool <$> default (replicate EOS_TGT_DURATION 1%Q)
                          (Response.discharge_allowed response) in
    let res := Response.result response in
    let soc_forecast :=
      match res with Some r => default [] (Response.akku_soc_pro_stunde r) | None => [] end in
    let cost_total :=
      match res with Some r => default 0%Q (Response.Gesamtkosten_Euro r) | None => 0%Q end in
    let losses_total :=
      match res with Some r => default 0%Q (Response.Gesamt_Verluste r) | None => 0%Q end in
    let grid_import :=
      match res with Some r => default [] (Response.Netzbezug_Wh_pro_Stunde r) | None => [] end in
    let grid_export :=
      match res with Some r => default [] (Response.Netzeinspeisung_Wh_pro_Stunde r) | None => [] end in
    let load_forecast :=
      match res with Some r => default [] (Response.Last_Wh_pro_Stunde r) | None => [] end in
    let data :=
      match Response.start_solution response with
      | Some s => if decide (1 < length s) then EOSData.set_last_start_solution (Some s) data
                  else data
      | None => data
      end in
    let data :=
      match Response.washingstart response with
      | Some h => EOSData.set_home_appliance (bool_decide (h = current_hour)) (Some h) data
      | None => data
      end in
    (OptimizationResult.mk ac dc da soc_forecast cost_total losses_total
       grid_import grid_export load_forecast (Response.washingstart response)
       (Some now), data)
  end.

(** ** api.py: running an optimization *)

(** An exception, seen through the three tests that the [except] clauses
    of the client perform on it: [isinstance(e, asyncio.TimeoutError)],
    [isinstance(e, aiohttp.ClientError)] and [isinstance(e, Exception)].
    The last test fails for what derives from [BaseException] only:
    [asyncio.CancelledError], raised at an [await] when the task is
    cancelled, [KeyboardInterrupt] and [SystemExit]. *)
Module Exn.
Record t : Type := mk {
  is_timeout_error : bool;
  is_client_error : bool;
  is_exception : bool
}.
End Exn.

Inductive outcome (A : Type) : Type :=
| Return (a : A)
| Raise (e : Exn.t).
Arguments Return {A} a.
Arguments Raise {A} e.

(** A method of the client: it reads and mutates [self._data], and either
    returns or raises.  What it wrote before raising stays written. *)
Definition M (A : Type) : Type := EOSData.t → outcome A * EOSData.t.

Global Instance M_ret : MRet M := λ A a d, (Return a, d).
Global Instance M_bind : MBind M := λ A B f m d,
  match m d with
  | (Return a, d') => f a d'
  | (Raise e, d') => (Raise e, d')
  end.

(** [self._data = f(self._data)] *)
Definition modify (f : EOSData.t → EOSData.t) : M unit := λ d, (Return (), f d).
(** reading [self._data] *)
Definition gets {A} (f : EOSData.t → A) : M A := λ d, (Return (f d), d).
(** a call that does not touch [self._data] *)
Definition lift {A} (o : outcome A) : M A := λ d, (o, d).
(** [try: body except ...: handler(e)]; the handler stands for all the
    [except] clauses of the statement and raises again what none of them
    takes. *)
Definition try_except {A} (body : M A) (handler : Exn.t → M A) : M A := λ d,
  match body d with
  | (Return a, d') => (Return a, d')
  | (Raise e, d') => handler e d'
  end.

(** What [session.post] hands back: the status, and what [await
    resp.json()] and [await resp.text()] would give. *)
Module HttpResponse.
Record t : Type := mk {
  status : Z;
  json : outcome Response.t;
  text : outcome string
}.
End HttpResponse.

Section RunOptimization.
Variable config : gmap string Q.
Variable charging_curve_enabled : bool.
Variable eos_at_least_0_0_2 : bool.

(** The four methods that read the sensors of the host platform. *)
Variable _update_battery_soc : M unit.
Variable _update_load_data : M unit.
Variable _update_pv_forecast : M unit.
Variable _update_prices : M unit.
(** [self._get_session()] *)
Variable _get_session : outcome unit.
(** [dt_util.now()], in seconds, and [dt_util.now().hour] *)
Variable now : Q.
Variable current_hour : Z.
(** [session.post(url, json=request_data, ...)] with
    [url = .../optimize?start_hour=current_hour] *)
Variable post : Request.t → Z → outcome HttpResponse.t.
(** [self.hass.bus.async_fire(...)] *)
Variable _fire_control_event : EOSData.t → outcome unit.

(** The body of the [try] statement, up to the point at which the
    request is sent. *)
Definition run_optimization_prepare : M Request.t :=
  _update_battery_soc ;;
  _update_load_data ;;
  _update_pv_forecast ;;
  _update_prices ;;
  modify (_update_battery_state config charging_curve_enabled) ;;
  request_data ← gets (_build_optimization_request config eos_at_least_0_0_2) ;
  lift _get_session ;;
  mret request_data.

(** The body of the [try] statement. *)
Definition run_optimization_try : M unit :=
  request_data ← run_optimization_prepare ;
  resp ← lift (post request_data current_hour) ;
  if bool_decide (HttpResponse.status resp = 200%Z) then
    response_data ← lift (HttpResponse.json resp) ;
    modify (λ d,
      let '(opt, d) := _parse_optimization_response now current_hour response_data d in
      EOSData.set_optimization opt d) ;;
    modify (_update_control_state config) ;;
    modify (EOSData.set_last_optimization (Some now)) ;;
    modify (EOSData.set_next_optimization
              (Some (now + 60 * config_get config CONF_REFRESH_TIME DEFAULT_REFRESH_TIME)%Q)) ;;
    modify (EOSData.set_optimization_state "ok") ;;
    d ← gets id ;
    lift (_fire_control_event d)
  else
    lift (HttpResponse.text resp) ;;
    modify (EOSData.set_optimization_state "error").

(** The three [except] clauses, in the order in which they are tried; an
    exception that none of them takes goes on to the caller. *)
Definition run_optimization_except (e : Exn.t) : M unit :=
  if Exn.is_timeout_error e then
    modify (EOSData.set_optimization_state "timeout")
  else if Exn.is_client_error e then
    modify (EOSData.set_optimization_state "connection_error")
  else if Exn.is_exception e then
    modify (EOSData.set_optimization_state "error")
  else
    lift (Raise e).

(** [async_run_optimization], inside the lock. *)
Definition async_run_optimization : M OptimizationResult.t :=
  try_except run_optimization_try run_optimization_except ;;
  gets EOSData.optimization.

(** The body of [async_update], inside the lock. *)
Definition async_update : M EOSData.t :=
  try_except
    (_update_battery_soc ;;
     _update_load_data ;;
     _update_pv_forecast ;;
     _update_prices ;;
     modify (_update_battery_state config charging_curve_enabled) ;;
     modify (EOSData.set_optimization_state "ok"))
    (λ e, if Exn.is_exception e
          then modify (EOSData.set_optimization_state "error")
          else lift (Raise e)) ;;
  gets id.
End RunOptimization.

(** ** api.py: price parsers *)

(** What a sensor attribute may hold under a key of a price entry.
    [VTime t] is a string that [datetime.fromisoformat] reads as the
    instant [t], counted in seconds on the axis on which [now] is counted;
    [VStr s] is any other string, which neither [fromisoformat] nor
    [float] accepts. *)
Inductive value : Type :=
| VNone
| VNum (x : Q)
| VTime (t : Q)
| VStr (s : string).

(** The truth value of a Python object. *)
Definition truthy (v : value) : bool :=
  match v with
  | VNone => false
  | VNum x => negb (Qeq_bool x 0)
  | VTime _ => true
  | VStr s => negb (String.eqb s "")
  end.

(** [a or b] *)
Definition py_or (a b : value) : value := if truthy a then a else b.

(** [entry.get(key)] *)
Definition entry_get (entry : gmap string value) (key : string) : value :=
  default VNone (entry !! key).

(** [datetime.fromisoformat(str(v).replace("Z", "+00:00"))]; [None] stands
    for the [ValueError] that the loop catches. *)
Definition fromisoformat (v : value) : option Q :=
  match v with VTime t => Some t | _ => None end.

(** [float(n)] raises [OverflowError] on an int that rounds to no finite
    float: the ints from [2^1024 - 2^970] on, and their negatives.  A
    number of that size is an int, every finite float being smaller. *)
Definition float_overflows (x : Q) : bool :=
  Qle_bool (inject_Z (2 ^ 1024 - 2 ^ 970)) (Qabs x).

(** [float(v)]; [None] stands for the exception that the loop catches: a
    [TypeError], a [ValueError] or an [OverflowError]. *)
Definition py_float (v : value) : option Q :=
  match v with
  | VNum x => if float_overflows x then None else Some x
  | _ => None
  end.

Definition is_VNone (v : value) : bool :=
  match v with VNone => true | _ => false end.

(** The two dictionaries that both parsers fill: prices per hour index and
    the price per 15-minute slot index. *)
Definition price_dicts : Type := gmap Z (list Q) * gmap Z Q.

(** [hourly_prices[hour_idx]] is created empty when missing. *)
Definition setdefault_empty (hour_idx : Z) (hourly_prices : gmap Z (list Q))
    : gmap Z (list Q) :=
  match hourly_prices !! hour_idx with
  | Some _ => hourly_prices
  | None => <[hour_idx := []]> hourly_prices
  end.

(** One turn of the loop of [_parse_tibber_prices_dual]. *)
Definition tibber_entry (now : Q) (dicts : price_dicts) (entry : gmap string value)
    : price_dicts :=
  let '(hourly_prices, prices_15min_dict) := dicts in
  let from_str := py_or (entry_get entry "from") (entry_get entry "startsAt") in
  let price := py_or (entry_get entry "price") (entry_get entry "total") in
  if negb (truthy from_str) || is_VNone price then dicts
  else
    match fromisoformat from_str with
    | None => dicts
    | Some from_time =>
      let total_minutes_diff := ((from_time - now) / 60)%Q in
      let slot_15min := py_int (total_minutes_diff / 15) in
      let slots :=
        if bool_decide (-4 ≤ slot_15min)%Z && bool_decide (slot_15min < 192)%Z then
          let slot_idx := Z.max 0 slot_15min in
          if bool_decide (slot_idx < 192)%Z then
            p ← py_float price; Some (<[slot_idx := p]> prices_15min_dict)
          else Some prices_15min_dict
        else Some prices_15min_dict in
      match slots with
      | None => dicts
      | Some prices_15min_dict =>
        let hours_diff := (total_minutes_diff / 60)%Q in
        if Qle_bool (-1) hours_diff && Qlt_bool hours_diff 48 then
          let hour_idx := Z.max 0 (py_int hours_diff) in
          if bool_decide (hour_idx < 48)%Z then
            let hourly_prices := setdefault_empty hour_idx hourly_prices in
            match py_float price with
            | Some p => (alter (λ l, l ++ [p]) hour_idx hourly_prices, prices_15min_dict)
            | None => (hourly_prices, prices_15min_dict)
            end
          else (hourly_prices, prices_15min_dict)
        else (hourly_prices, prices_15min_dict)
      end
    end.

(** The loops that turn the dictionaries into the two series.  Every key
    is visited once and writes to a slot of its own, so that the order of
    the visit does not show in the result. *)
Definition build_hourly (hourly_prices : gmap Z (list Q)) : list Q :=
  map_fold (λ hour_idx price_list prices_hourly,
      if bool_decide (0 ≤ hour_idx)%Z && bool_decide (hour_idx < 48)%Z
         && list_truthy price_list
      then <[Z.to_nat hour_idx := mean price_list]> prices_hourly
      else prices_hourly)
    (replicate 48 DEFAULT_PRICE) hourly_prices.

Definition build_15min (prices_15min_dict : gmap Z Q) : list Q :=
  map_fold (λ slot_idx price prices_15min,
      if bool_decide (0 ≤ slot_idx)%Z && bool_decide (slot_idx < 192)%Z
      then <[Z.to_nat slot_idx := price]> prices_15min
      else prices_15min)
    (replicate 192 DEFAULT_PRICE) prices_15min_dict.

Definition finish_prices_dual (dicts : price_dicts) : list Q * list Q :=
  let '(hourly_prices, prices_15min_dict) := dicts in
  let prices_hourly := build_hourly hourly_prices in
  let prices_15min := build_15min prices_15min_dict in
  let prices_15min :=
    if bool_decide (size prices_15min_dict = 0)
    then _expand_hourly_to_15min prices_hourly
    else prices_15min in
  (prices_hourly, prices_15min).

Definition _parse_tibber_prices_dual (prices_data : list (gmap string value)) (now : Q)
    : list Q * list Q :=
  finish_prices_dual (foldl (tibber_entry now) (∅, ∅) prices_data).

(** One turn of the loop of [_parse_entsoe_prices_dual]. *)
Definition entsoe_price_value (price_value : Q) : Q :=
  if Qlt_bool 1 price_value then (price_value / 1000)%Q else price_value.

Definition entsoe_entry (now : Q) (dicts : price_dicts) (entry : gmap string value)
    : price_dicts :=
  let '(hourly_prices, prices_15min_dict) := dicts in
  let time_str :=
    py_or (py_or (entry_get entry "time") (entry_get entry "start"))
          (entry_get entry "datetime") in
  let price := py_or (entry_get entry "price") (entry_get entry "value") in
  if negb (truthy time_str) || is_VNone price then dicts
  else
    match fromisoformat time_str with
    | None => dicts
    | Some entry_time =>
      let total_minutes_diff := ((entry_time - now) / 60)%Q in
      match py_float price with
      | None => dicts
      | Some price_value =>
        let price_value := entsoe_price_value price_value in
        let slot_15min := py_int (total_minutes_diff / 15) in
        let prices_15min_dict :=
          if bool_decide (-4 ≤ slot_15min)%Z && bool_decide (slot_15min < 192)%Z then
            let slot_idx := Z.max 0 slot_15min in
            if bool_decide (slot_idx < 192)%Z
            then <[slot_idx := price_value]> prices_15min_dict
            else prices_15min_dict
          else prices_15min_dict in
        let hours_diff := (total_minutes_diff / 60)%Q in
        if Qle_bool (-1) hours_diff && Qlt_bool hours_diff 48 then
          let hour_idx := Z.max 0 (py_int hours_diff) in
          if bool_decide (hour_idx < 48)%Z then
            let hourly_prices := setdefault_empty hour_idx hourly_prices in
            (alter (λ l, l ++ [price_value]) hour_idx hourly_prices, prices_15min_dict)
          else (hourly_prices, prices_15min_dict)
        else (hourly_prices, prices_15min_dict)
      end
    end.

Definition _parse_entsoe_prices_dual (data : list (gmap string value)) (now : Q)
    : list Q * list Q :=
  finish_prices_dual (foldl (entsoe_entry now) (∅, ∅) data).

(** ** coordinator.py: savings *)

(** The coordinator's own fields that the methods below read and write. *)
Module Coordinator.
Record t : Type := mk {
  _last_evcc_mode : option string;
  _last_soc : option Q;
  _battery_capacity_wh : Q;
  _feed_in_price : Q;
  _refinement_15min_enabled : bool
}.
Definition set_last_soc (v : option Q) (c : t) : t :=
  mk (_last_evcc_mode c) v (_battery_capacity_wh c) (_feed_in_price c)
     (_refinement_15min_enabled c).
Definition set_last_evcc_mode (v : option string) (c : t) : t :=
  mk v (_last_soc c) (_battery_capacity_wh c) (_feed_in_price c)
     (_refinement_15min_enabled c).
End Coordinator.

(** The day change at the head of [_update_savings]: today's counters
    start again from zero. *)
Definition reset_today (today : string) (s : SavingsTracker.t) : SavingsTracker.t :=
  if bool_decide (SavingsTracker.today_date s = today) then s
  else
    SavingsTracker.mk
      (SavingsTracker.total_savings_eur s) (SavingsTracker.total_grid_cost_eur s)
      (SavingsTracker.total_feed_in_revenue_eur s) (SavingsTracker.total_charged_kwh s)
      (SavingsTracker.total_discharged_kwh s) (SavingsTracker.total_grid_import_kwh s)
      (SavingsTracker.total_grid_export_kwh s) (SavingsTracker.total_pv_charged_kwh s)
      (SavingsTracker.total_grid_charged_kwh s) (SavingsTracker.session_savings_eur s)
      (SavingsTracker.session_charged_kwh s) (SavingsTracker.session_discharged_kwh s)
      (SavingsTracker.session_pv_charged_kwh s) (SavingsTracker.session_grid_charged_kwh s)
      (SavingsTracker.avg_charge_price s) (SavingsTracker.avg_discharge_price s)
      0 0 0 0 today.

(** The branch [energy_kwh > 0] of [_update_savings]. *)
Definition savings_charged (eos_mode : InverterMode) (current_price feed_in_price energy_kwh : Q)
    (s : SavingsTracker.t) : SavingsTracker.t :=
  let grid := bool_decide (eos_mode = CHARGE_FROM_GRID) in
  let charge_price := if grid then current_price else feed_in_price in
  let add_grid (x : Q) := if grid then (x + energy_kwh)%Q else x in
  let add_pv (x : Q) := if grid then x else (x + energy_kwh)%Q in
  let add_cost (x : Q) := if grid then (x + energy_kwh * current_price)%Q else x in
  let total_charged_kwh := (SavingsTracker.total_charged_kwh s + energy_kwh)%Q in
  let old_total := (total_charged_kwh - energy_kwh)%Q in
  let avg_charge_price :=
    if Qlt_bool 0 old_total
    then ((SavingsTracker.avg_charge_price s * old_total + charge_price * energy_kwh)
          / total_charged_kwh)%Q
    else charge_price in
  SavingsTracker.mk
    (SavingsTracker.total_savings_eur s)
    (add_cost (SavingsTracker.total_grid_cost_eur s))
    (SavingsTracker.total_feed_in_revenue_eur s)
    total_charged_kwh
    (SavingsTracker.total_discharged_kwh s)
    (add_grid (SavingsTracker.total_grid_import_kwh s))
    (SavingsTracker.total_grid_export_kwh s)
    (add_pv (SavingsTracker.total_pv_charged_kwh s))
    (add_grid (SavingsTracker.total_grid_charged_kwh s))
    (SavingsTracker.session_savings_eur s)
    (SavingsTracker.session_charged_kwh s + energy_kwh)%Q
    (SavingsTracker.session_discharged_kwh s)
    (add_pv (SavingsTracker.session_pv_charged_kwh s))
    (add_grid (SavingsTracker.session_grid_charged_kwh s))
    avg_charge_price
    (SavingsTracker.avg_discharge_price s)
    (SavingsTracker.today_savings_eur s)
    (add_cost (SavingsTracker.today_grid_cost_eur s))
    (add_pv (SavingsTracker.today_pv_charged_kwh s))
    (add_grid (SavingsTracker.today_grid_charged_kwh s))
    (SavingsTracker.today_date s).

(** The [else] branch of [_update_savings]: the battery discharged. *)
Definition savings_discharged (current_price energy_kwh : Q) (s : SavingsTracker.t)
    : SavingsTracker.t :=
  let discharged_kwh := Qabs energy_kwh in
  let price_diff := (current_price - SavingsTracker.avg_charge_price s)%Q in
  let savings := (price_diff * discharged_kwh)%Q in
  let add_savings (x : Q) :=
    if Qlt_bool 0 (SavingsTracker.avg_charge_price s) then (x + savings)%Q else x in
  SavingsTracker.mk
    (add_savings (SavingsTracker.total_savings_eur s))
    (SavingsTracker.total_grid_cost_eur s)
    (SavingsTracker.total_feed_in_revenue_eur s)
    (SavingsTracker.total_charged_kwh s)
    (SavingsTracker.total_discharged_kwh s + discharged_kwh)%Q
    (SavingsTracker.total_grid_import_kwh s)
    (SavingsTracker.total_grid_export_kwh s)
    (SavingsTracker.total_pv_charged_kwh s)
    (SavingsTracker.total_grid_charged_kwh s)
    (add_savings (SavingsTracker.session_savings_eur s))
    (SavingsTracker.session_charged_kwh s)
    (SavingsTracker.session_discharged_kwh s + discharged_kwh)%Q
    (SavingsTracker.session_pv_charged_kwh s)
    (SavingsTracker.session_grid_charged_kwh s)
    (SavingsTracker.avg_charge_price s)
    current_price
    (add_savings (SavingsTracker.today_savings_eur s))
    (SavingsTracker.today_grid_cost_eur s)
    (SavingsTracker.today_pv_charged_kwh s)
    (SavingsTracker.today_grid_charged_kwh s)
    (SavingsTracker.today_date s).

(** [_update_savings]; [today] is [dt_util.now().strftime("%Y-%m-%d")].
    The method works on the coordinator and on [self.api_client.data].
    The numbers are rationals here, which tells what the method does to a
    change that is clearly below the threshold and how it goes together
    with the cycle; [Float64._update_savings] below has the floats. *)
Definition _update_savings (today : string) (st : Coordinator.t * EOSData.t)
    : Coordinator.t * EOSData.t :=
  let '(self, data) := st in
  match EOSData.prices data with
  | [] => st
  | current_price :: _ =>
    let current_soc := BatteryState.soc (EOSData.battery data) in
    let eos_mode := ControlState.mode (EOSData.control data) in
    let savings := reset_today today (EOSData.savings data) in
    match Coordinator._last_soc self with
    | None =>
      (Coordinator.set_last_soc (Some current_soc) self, EOSData.set_savings savings data)
    | Some last_soc =>
      let soc_change := (current_soc - last_soc)%Q in
      let energy_wh := ((soc_change / 100) * Coordinator._battery_capacity_wh self)%Q in
      let energy_kwh := (energy_wh / 1000)%Q in
      if Qlt_bool (Qabs energy_kwh) 0.01 then
        (Coordinator.set_last_soc (Some current_soc) self, EOSData.set_savings savings data)
      else
        let savings :=
          if Qlt_bool 0 energy_kwh
          then savings_charged eos_mode current_price (Coordinator._feed_in_price self)
                               energy_kwh savings
          else savings_discharged current_price energy_kwh savings in
        (Coordinator.set_last_soc (Some current_soc) self, EOSData.set_savings savings data)
    end
  end.

(** ** coordinator.py: savings, with the floats of the interpreter *)

(** The numbers of [_update_savings] are Python floats, that is IEEE 754
    binary64 numbers, each operation rounding to the nearest: the floats
    of [PrimFloat].  Whether a change is booked or skipped hangs on the
    last bit of [energy_kwh], and the sums of the tracker are rounded one
    by one; so the method is read a second time, with these numbers in
    place of the rationals.  Python's [/] raises on a divisor equal to
    zero where [PrimFloat.div] returns an infinity or a NaN; the divisors
    of the method are the constants 100 and 1000 and a total that is
    tested before. *)
Module Float64.

Module SavingsTracker.
Record t : Type := mk {
  total_savings_eur : float;
  total_grid_cost_eur : float;
  total_feed_in_revenue_eur : float;
  total_charged_kwh : float;
  total_discharged_kwh : float;
  total_grid_import_kwh : float;
  total_grid_export_kwh : float;
  total_pv_charged_kwh : float;
  total_grid_charged_kwh : float;
  session_savings_eur : float;
  session_charged_kwh : float;
  session_discharged_kwh : float;
  session_pv_charged_kwh : float;
  session_grid_charged_kwh : float;
  avg_charge_price : float;
  avg_discharge_price : float;
  today_savings_eur : float;
  today_grid_cost_eur : float;
  today_pv_charged_kwh : float;
  today_grid_charged_kwh : float;
  today_date : string
}.
Definition new : t :=
  mk 0 0 0 0 0 0 0 0 0 0 0 0 0 0 0 0 0 0 0 0 "".
End SavingsTracker.

(** What the method reads and writes of [self.api_client.data]:
    [data.battery.soc], [data.prices], [data.control.mode] and
    [data.savings]. *)
Module EOSData.
Record t : Type := mk {
  soc : float;
  prices : list float;
  mode : InverterMode;
  savings : SavingsTracker.t
}.
Definition set_savings (v : SavingsTracker.t) (d : t) : t :=
  mk (soc d) (prices d) (mode d) v.
End EOSData.

(** What the method reads and writes of the coordinator. *)
Module Coordinator.
Record t : Type := mk {
  _last_soc : option float;
  _battery_capacity_wh : float;
  _feed_in_price : float
}.
Definition set_last_soc (v : option float) (c : t) : t :=
  mk v (_battery_capacity_wh c) (_feed_in_price c).
End Coordinator.

(** The day change at the head of [_update_savings]. *)
Definition reset_today (today : string) (s : SavingsTracker.t) : SavingsTracker.t :=
  if bool_decide (SavingsTracker.today_date s = today) then s
  else
    SavingsTracker.mk
      (SavingsTracker.total_savings_eur s) (SavingsTracker.total_grid_cost_eur s)
      (SavingsTracker.total_feed_in_revenue_eur s) (SavingsTracker.total_charged_kwh s)
      (SavingsTracker.total_discharged_kwh s) (SavingsTracker.total_grid_import_kwh s)
      (SavingsTracker.total_grid_export_kwh s) (SavingsTracker.total_pv_charged_kwh s)
      (SavingsTracker.total_grid_charged_kwh s) (SavingsTracker.session_savings_eur s)
      (SavingsTracker.session_charged_kwh s) (SavingsTracker.session_discharged_kwh s)
      (SavingsTracker.session_pv_charged_kwh s) (SavingsTracker.session_grid_charged_kwh s)
      (SavingsTracker.avg_charge_price s) (SavingsTracker.avg_discharge_price s)
      0 0 0 0 today.

(** The branch [energy_kwh > 0] of [_update_savings]. *)
Definition savings_charged (eos_mode : InverterMode)
    (current_price feed_in_price energy_kwh : float) (s : SavingsTracker.t)
    : SavingsTracker.t :=
  let grid := bool_decide (eos_mode = CHARGE_FROM_GRID) in
  let charge_price := if grid then current_price else feed_in_price in
  let add_grid (x : float) := if grid then (x + energy_kwh)%float else x in
  let add_pv (x : float) := if grid then x else (x + energy_kwh)%float in
  let add_cost (x : float) :=
    if grid then (x + energy_kwh * current_price)%float else x in
  let total_charged_kwh := (SavingsTracker.total_charged_kwh s + energy_kwh)%float in
  let old_total := (total_charged_kwh - energy_kwh)%float in
  let avg_charge_price :=
    if (0 <? old_total)%float
    then ((SavingsTracker.avg_charge_price s * old_total + charge_price * energy_kwh)
          / total_charged_kwh)%float
    else charge_price in
  SavingsTracker.mk
    (SavingsTracker.total_savings_eur s)
    (add_cost (SavingsTracker.total_grid_cost_eur s))
    (SavingsTracker.total_feed_in_revenue_eur s)
    total_charged_kwh
    (SavingsTracker.total_discharged_kwh s)
    (add_grid (SavingsTracker.total_grid_import_kwh s))
    (SavingsTracker.total_grid_export_kwh s)
    (add_pv (SavingsTracker.total_pv_charged_kwh s))
    (add_grid (SavingsTracker.total_grid_charged_kwh s))
    (SavingsTracker.session_savings_eur s)
    (SavingsTracker.session_charged_kwh s + energy_kwh)%float
    (SavingsTracker.session_discharged_kwh s)
    (add_pv (SavingsTracker.session_pv_charged_kwh s))
    (add_grid (SavingsTracker.session_grid_charged_kwh s))
    avg_charge_price
    (SavingsTracker.avg_discharge_price s)
    (SavingsTracker.today_savings_eur s)
    (add_cost (SavingsTracker.today_grid_cost_eur s))
    (add_pv (SavingsTracker.today_pv_charged_kwh s))
    (add_grid (SavingsTracker.today_grid_charged_kwh s))
    (SavingsTracker.today_date s).

(** The [else] branch of [_update_savings]: the battery discharged. *)
Definition savings_discharged (current_price energy_kwh : float) (s : SavingsTracker.t)
    : SavingsTracker.t :=
  let discharged_kwh := PrimFloat.abs energy_kwh in
  let price_diff := (current_price - SavingsTracker.avg_charge_price s)%float in
  let savings := (price_diff * discharged_kwh)%float in
  let add_savings (x : float) :=
    if (0 <? SavingsTracker.avg_charge_price s)%float then (x + savings)%float else x in
  SavingsTracker.mk
    (add_savings (SavingsTracker.total_savings_eur s))
    (SavingsTracker.total_grid_cost_eur s)
    (SavingsTracker.total_feed_in_revenue_eur s)
    (SavingsTracker.total_charged_kwh s)
    (SavingsTracker.total_discharged_kwh s + discharged_kwh)%float
    (SavingsTracker.total_grid_import_kwh s)
    (SavingsTracker.total_grid_export_kwh s)
    (SavingsTracker.total_pv_charged_kwh s)
    (SavingsTracker.total_grid_charged_kwh s)
    (add_savings (SavingsTracker.session_savings_eur s))
    (SavingsTracker.session_charged_kwh s)
    (SavingsTracker.session_discharged_kwh s + discharged_kwh)%float
    (SavingsTracker.session_pv_charged_kwh s)
    (SavingsTracker.session_grid_charged_kwh s)
    (SavingsTracker.avg_charge_price s)
    current_price
    (add_savings (SavingsTracker.today_savings_eur s))
    (SavingsTracker.today_grid_cost_eur s)
    (SavingsTracker.today_pv_charged_kwh s)
    (SavingsTracker.today_grid_charged_kwh s)
    (SavingsTracker.today_date s).

(** [_update_savings]; [today] is [dt_util.now().strftime("%Y-%m-%d")]. *)
Definition _update_savings (today : string) (st : Coordinator.t * EOSData.t)
    : Coordinator.t * EOSData.t :=
  let '(self, data) := st in
  match EOSData.prices data with
  | [] => st
  | current_price :: _ =>
    let current_soc := EOSData.soc data in
    let eos_mode := EOSData.mode data in
    let savings := reset_today today (EOSData.savings data) in
    match Coordinator._last_soc self with
    | None =>
      (Coordinator.set_last_soc (Some current_soc) self, EOSData.set_savings savings data)
    | Some last_soc =>
      let soc_change := (current_soc - last_soc)%float in
      let energy_wh := ((soc_change / 100) * Coordinator._battery_capacity_wh self)%float in
      let energy_kwh := (energy_wh / 1000)%float in
      if (PrimFloat.abs energy_kwh <? 0.01)%float then
        (Coordinator.set_last_soc (Some current_soc) self, EOSData.set_savings savings data)
      else
        let savings :=
          if (0 <? energy_kwh)%float
          then savings_charged eos_mode current_price (Coordinator._feed_in_price self)
                               energy_kwh savings
          else savings_discharged current_price energy_kwh savings in
        (Coordinator.set_last_soc (Some current_soc) self, EOSData.set_savings savings data)
    end
  end.
End Float64.

(** ** coordinator.py: the battery mode of the EV charging controller *)

(** What [await self.api_client.async_set_evcc_battery_mode(evcc_mode)]
    may do: return [True], return [False], or raise. *)
Inductive api_answer : Set := ApiTrue | ApiFalse | ApiRaises.

(** One call of the API, as the controller sees it. *)
Definition api_call : Type := string * api_answer.

(** [_set_evcc_mode_if_changed]; [answer] is what the API would answer,
    were it called, and the list is the log of the calls made so far. *)
Definition _set_evcc_mode_if_changed (evcc_mode : string) (answer : api_answer)
    (st : Coordinator.t * list api_call) : Coordinator.t * list api_call :=
  let '(self, calls) := st in
  if bool_decide (Some evcc_mode = Coordinator._last_evcc_mode self) then st
  else
    let calls := calls ++ [(evcc_mode, answer)] in
    match answer with
    | ApiTrue => (Coordinator.set_last_evcc_mode (Some evcc_mode) self, calls)
    | ApiFalse => (self, calls)
    | ApiRaises => (self, calls)
    end.

(** [_sync_evcc_battery_mode]: the mode of the inverter decides that of
    the battery. *)
Definition evcc_mode_of (mode : InverterMode) : string :=
  match mode with
  | CHARGE_FROM_GRID => EVCC_BATTERY_CHARGE
  | AVOID_DISCHARGE => EVCC_BATTERY_HOLD
  | _ => EVCC_BATTERY_NORMAL
  end.

Definition _sync_evcc_battery_mode (mode : InverterMode) (answer : api_answer)
    (st : Coordinator.t * list api_call) : Coordinator.t * list api_call :=
  if Coordinator._refinement_15min_enabled st.1 then st
  else _set_evcc_mode_if_changed (evcc_mode_of mode) answer st.

(** A sequence of sync cycles, each with the mode it computed and the
    answer that the API has in store. *)
Definition sync_cycles (cycles : list (string * api_answer))
    (st : Coordinator.t * list api_call) : Coordinator.t * list api_call :=
  foldl (λ st c, _set_evcc_mode_if_changed c.1 c.2 st) st cycles.

(** The modes of the calls that succeeded, in order. *)
Definition successful_modes (calls : list api_call) : list string :=
  omap (λ c : api_call, match c.2 with ApiTrue => Some c.1 | _ => None end) calls.

(** ** api.py: the lock of the client *)

(** A coroutine of the client between two points at which the event loop
    may switch to another task: entering [async with self._lock], an
    [await] inside the block, and leaving the block. *)
Inductive action : Set :=
| Acquire
| Await (callee : string)
| Release.

Global Instance action_eq_dec : EqDecision action.
Proof. solve_decision. Defined.

(** [async with self._lock: body], where [body] awaits the callees listed. *)
Definition with_lock (body : list string) : list action :=
  Acquire :: (Await <$> body) ++ [Release].

Definition async_update_program : list action :=
  with_lock ["_update_battery_soc"; "_update_load_data"; "_update_pv_forecast";
             "_update_prices"].

Definition async_run_optimization_program : list action :=
  with_lock ["_update_battery_soc"; "_update_load_data"; "_update_pv_forecast";
             "_update_prices"; "_build_optimization_request"; "_get_session";
             "session.post"; "resp.json"].

(** The one lock of the client, [self._lock], and what is left to do for
    each of the calls of [async_update] and [async_run_optimization] that
    are under way. *)
Record sched : Type := mk_sched {
  locked : bool;
  tasks : list (list action)
}.

(** An exception inside the block leaves what remains of the body; the
    handlers do not await, and the lock is released on the way out. *)
Fixpoint unwind (p : list action) : list action :=
  match p with
  | Await _ :: p' => unwind p'
  | _ => p
  end.

(** One step of the event loop: task [i] runs up to its next switching
    point.  Only [Acquire] looks at the lock. *)
Inductive step : sched → nat * action → sched → Prop :=
| step_acquire s i p :
    tasks s !! i = Some (Acquire :: p) →
    locked s = false →
    step s (i, Acquire) (mk_sched true (<[i := p]> (tasks s)))
| step_await s i c p :
    tasks s !! i = Some (Await c :: p) →
    step s (i, Await c) (mk_sched (locked s) (<[i := p]> (tasks s)))
| step_raise s i c p :
    tasks s !! i = Some (Await c :: p) →
    step s (i, Await c) (mk_sched (locked s) (<[i := unwind p]> (tasks s)))
| step_release s i p :
    tasks s !! i = Some (Release :: p) →
    step s (i, Release) (mk_sched false (<[i := p]> (tasks s))).

(** A run of the event loop and its trace. *)
Inductive run : sched → list (nat * action) → sched → Prop :=
| run_nil s : run s [] s
| run_cons s e s' tr s'' : step s e s' → run s' tr s'' → run s (e :: tr) s''.

(** The client at rest: the lock is free and every task is a call of one
    of the two methods that has not started. *)
Definition initial (s : sched) : Prop :=
  locked s = false ∧
  ∀ i p, tasks s !! i = Some p →
         p = async_update_program ∨ p = async_run_optimization_program.

(** A task is inside its block when it has acquired the lock and not yet
    released it. *)
Definition inside (p : list action) : bool :=
  match p with
  | Await _ :: _ | Release :: _ => true
  | _ => false
  end.

(** ** api.py: manual control *)

(** [async_set_mode], the event that it fires aside. *)
Definition async_set_mode (mode : InverterMode) (data : EOSData.t) : EOSData.t :=
  EOSData.set_control (ControlState.set_mode mode (EOSData.control data)) data.

(** [async_set_override]; [now] is [dt_util.now()] in seconds and the
    duration is given in minutes. *)
Definition async_set_override (now : Q) (mode : InverterMode)
    (duration_minutes charge_power : Q) (data : EOSData.t) : EOSData.t :=
  let control := EOSData.control data in
  let ac_charge_demand :=
    if bool_decide (mode = CHARGE_FROM_GRID) && Qlt_bool 0 charge_power
    then charge_power
    else ControlState.ac_charge_demand control in
  EOSData.set_control
    (ControlState.mk mode ac_charge_demand (ControlState.dc_charge_demand control)
       (ControlState.discharge_allowed control) true
       (Some (now + 60 * duration_minutes)%Q) charge_power)
    data.

(** The three assignments at the head of [async_clear_override]. *)
Definition clear_override_fields (data : EOSData.t) : EOSData.t :=
  let control := EOSData.control data in
  EOSData.set_control
    (ControlState.mk (ControlState.mode control) (ControlState.ac_charge_demand control)
       (ControlState.dc_charge_demand control) (ControlState.discharge_allowed control)
       false None 0)
    data.

(** [async_set_soc_limits]: the two limits are written into [self.config]
    and the battery state is computed anew. *)
Definition async_set_soc_limits (charging_curve_enabled : bool) (min_soc max_soc : Q)
    (st : gmap string Q * EOSData.t) : gmap string Q * EOSData.t :=
  let config := <[CONF_BATTERY_MAX_SOC := max_soc]> (<[CONF_BATTERY_MIN_SOC := min_soc]> st.1) in
  (config, _update_battery_state config charging_curve_enabled st.2).

Section ClearOverride.
Variable config : gmap string Q.
Variable charging_curve_enabled : bool.
Variable eos_at_least_0_0_2 : bool.
Variable _update_battery_soc : M unit.
Variable _update_load_data : M unit.
Variable _update_pv_forecast : M unit.
Variable _update_prices : M unit.
Variable _get_session : outcome unit.
Variable now : Q.
Variable current_hour : Z.
Variable post : Request.t → Z → outcome HttpResponse.t.
Variable _fire_control_event : EOSData.t → outcome unit.

(** [async_clear_override]: the override is dropped and an optimization is
    run at once. *)
Definition async_clear_override : M bool :=
  modify clear_override_fields ;;
  async_run_optimization config charging_curve_enabled eos_at_least_0_0_2
    _update_battery_soc _update_load_data _update_pv_forecast _update_prices
    _get_session now current_hour post _fire_control_event ;;
  mret true.
End ClearOverride.

(** ** api.py: forecasts and prices read from the sensors *)

(** An element of a list found among the attributes of a sensor: a dict,
    or anything else. *)
Inductive elem : Type :=
| EDict (d : gmap string value)
| EVal (v : value).

(** An attribute of a sensor: a list, a dict given by its items in their
    order, or a scalar ([AVal VNone] is Python's [None]). *)
Inductive attr : Type :=
| AList (l : list elem)
| ADict (items : list (value * value))
| AVal (v : value).

Definition attr_truthy (a : attr) : bool :=
  match a with
  | AList l => list_truthy l
  | ADict items => list_truthy items
  | AVal v => truthy v
  end.

(** [a or b] on attributes *)
Definition attr_or (a b : attr) : attr := if attr_truthy a then a else b.

(** [attrs.get(key)] and [attrs.get(key, default)] *)
Definition attr_get (attrs : gmap string attr) (key : string) : attr :=
  default (AVal VNone) (attrs !! key).
Definition attr_get_default (attrs : gmap string attr) (key : string) (dflt : attr) : attr :=
  default dflt (attrs !! key).

(** [entry.get(key, default)] *)
Definition entry_get_default (entry : gmap string value) (key : string) (dflt : value)
    : value :=
  default dflt (entry !! key).

(** The state of an entity is a string: one that [float] reads as a
    number, or any other text. *)
Inductive state_text : Type :=
| SNumeric (x : Q)
| SText (s : string).

Module State.
Record t : Type := mk {
  state : state_text;
  attributes : gmap string attr
}.
End State.

(** [state.state not in ("unknown", "unavailable")] *)
Definition state_known (s : state_text) : bool :=
  match s with
  | SNumeric _ => true
  | SText s => negb (String.eqb s "unknown" || String.eqb s "unavailable")
  end.

(** [float(state.state)]; [None] stands for the [ValueError]. *)
Definition state_float (s : state_text) : option Q :=
  match s with SNumeric x => Some x | SText _ => None end.

Definition CONF_BATTERY_SOC_SENSOR : string := "battery_soc_sensor".
Definition CONF_LOAD_SENSOR : string := "load_sensor".
Definition CONF_PRICE_SOURCE : string := "price_source".
Definition CONF_PV_FORECAST_ENTITY : string := "pv_forecast_entity".
Definition CONF_PRICE_ENTITY : string := "price_entity".
Definition CONF_FIXED_PRICE : string := "fixed_price".
Definition PRICE_SOURCE_HA_SENSOR : string := "ha_sensor".
Definition PRICE_SOURCE_FIXED : string := "fixed_24h".

(** [x = config.get(key)] followed by [if x:], on the settings that are
    strings: the setting, unless it is missing or empty. *)
Definition config_entity (config_str : gmap string string) (key : string) : option string :=
  match config_str !! key with
  | Some s => if String.eqb s "" then None else Some s
  | None => None
  end.

Definition set_soc (v : Q) (data : EOSData.t) : EOSData.t :=
  let b := EOSData.battery data in
  EOSData.set_battery
    (BatteryState.mk v (BatteryState.usable_energy_wh b)
       (BatteryState.dynamic_max_charge_power b) (BatteryState.capacity_wh b)
       (BatteryState.min_soc b) (BatteryState.max_soc b)) data.

Definition set_pv_forecast (v : list Q) (d : EOSData.t) : EOSData.t :=
  EOSData.mk (EOSData.control d) (EOSData.battery d) (EOSData.optimization d)
    (EOSData.savings d) v (EOSData.prices d) (EOSData.prices_15min d)
    (EOSData.load_profile d) (EOSData.last_optimization d) (EOSData.next_optimization d)
    (EOSData.optimization_state d) (EOSData.last_start_solution d)
    (EOSData.home_appliance_released d) (EOSData.home_appliance_start_hour d).

Definition set_prices (hourly quarter_hourly : list Q) (d : EOSData.t) : EOSData.t :=
  EOSData.mk (EOSData.control d) (EOSData.battery d) (EOSData.optimization d)
    (EOSData.savings d) (EOSData.pv_forecast d) hourly quarter_hourly
    (EOSData.load_profile d) (EOSData.last_optimization d) (EOSData.next_optimization d)
    (EOSData.optimization_state d) (EOSData.last_start_solution d)
    (EOSData.home_appliance_released d) (EOSData.home_appliance_start_hour d).

Definition set_load_profile (v : list Q) (d : EOSData.t) : EOSData.t :=
  EOSData.mk (EOSData.control d) (EOSData.battery d) (EOSData.optimization d)
    (EOSData.savings d) (EOSData.pv_forecast d) (EOSData.prices d)
    (EOSData.prices_15min d) v (EOSData.last_optimization d) (EOSData.next_optimization d)
    (EOSData.optimization_state d) (EOSData.last_start_solution d)
    (EOSData.home_appliance_released d) (EOSData.home_appliance_start_hour d).

(** The hour of a forecast period: [hours_diff = seconds / 3600], the
    test [0 <= hours_diff < 48] and [int(hours_diff)]. *)
Definition forecast_hour (now t : Q) : option nat :=
  let hours_diff := ((t - now) / 3600)%Q in
  if Qle_bool 0 hours_diff && Qlt_bool hours_diff 48
  then Some (Z.to_nat (py_int hours_diff))
  else None.

(** [forecast[hour_idx] += power] *)
Definition add_power (forecast : list Q) (slot : option (nat * Q)) : list Q :=
  match slot with
  | Some (hour_idx, power) => alter (λ x, (x + power)%Q) hour_idx forecast
  | None => forecast
  end.

(** One turn of the loop of [_parse_solcast_forecast], up to the update:
    the hour and the power to add, or [None] when the turn ends without an
    update, by [continue], by a test that fails or by an exception. *)
Definition solcast_period (now : Q) (period : elem) : option (nat * Q) :=
  match period with
  | EVal _ => None
  | EDict period =>
    let period_start_str := entry_get period "period_start" in
    if negb (truthy period_start_str) then None
    else
      period_start ← fromisoformat period_start_str;
      hour_idx ← forecast_hour now period_start;
      let power :=
        py_or (entry_get_default period "pv_estimate" (VNum 0))
              (entry_get_default period "pv_estimate50" (VNum 0)) in
      if truthy power then p ← py_float power; Some (hour_idx, p) else None
  end.

Definition _parse_solcast_forecast (detailed : list elem) (now : Q) : list Q :=
  foldl (λ forecast period, add_power forecast (solcast_period now period))
        (replicate 48 0%Q) detailed.

(** One turn of the loop of [_parse_generic_forecast]. *)
Definition generic_period (now : Q) (period : elem) : option (nat * Q) :=
  match period with
  | EVal _ => None
  | EDict period =>
    let period_start_str :=
      py_or (py_or (py_or (entry_get period "period_start") (entry_get period "datetime"))
                   (entry_get period "start"))
            (entry_get period "time") in
    if negb (truthy period_start_str) then None
    else
      period_start ← fromisoformat period_start_str;
      hour_idx ← forecast_hour now period_start;
      let power :=
        py_or (py_or (py_or (py_or (entry_get period "pv_estimate")
                                   (entry_get period "power"))
                            (entry_get period "watt_hours"))
                     (entry_get period "value"))
              (VNum 0) in
      p ← py_float power; Some (hour_idx, p)
  end.

Definition _parse_generic_forecast (forecast_data : list elem) (now : Q) : list Q :=
  foldl (λ forecast period, add_power forecast (generic_period now period))
        (replicate 48 0%Q) forecast_data.

(** One turn of the loop of [_parse_watt_hours_forecast], over the items
    of the dict. *)
Definition watt_hours_item (now : Q) (item : value * value) : option (nat * Q) :=
  timestamp ← fromisoformat item.1;
  hour_idx ← forecast_hour now timestamp;
  p ← py_float item.2; Some (hour_idx, p).

Definition _parse_watt_hours_forecast (wh_data : list (value * value)) (now : Q) : list Q :=
  foldl (λ forecast item, add_power forecast (watt_hours_item now item))
        (replicate 48 0%Q) wh_data.

(** [_parse_nordpool_prices].  What [float(...)] of an element of the list
    comes to: a number; a [ValueError] or [TypeError], which the loop
    passes over; or the [OverflowError] of an int beyond the floats, which
    the [except (ValueError, TypeError)] of the loop does not take. *)
Inductive converted : Type :=
| Number (x : Q)
| PassedOver
| Overflow.

Definition nordpool_float (price : elem) : converted :=
  let float (v : value) : converted :=
    match v with
    | VNum x => if float_overflows x then Overflow else Number x
    | _ => PassedOver
    end in
  match price with
  | EDict d =>
      float (entry_get_default d "value"
               (entry_get_default d "price" (VNum DEFAULT_PRICE)))
  | EVal VNone => Number DEFAULT_PRICE
  | EVal v => float v
  end.

(** [prices[hour_idx] = ...], inside [if 0 <= hour_idx < 48] and [try];
    [None] stands for the [OverflowError] that leaves the method. *)
Definition nordpool_set (hour_idx : Z) (price : elem) (prices : list Q)
    : option (list Q) :=
  if bool_decide (0 ≤ hour_idx)%Z && bool_decide (hour_idx < 48)%Z then
    match nordpool_float price with
    | Number x => Some (<[Z.to_nat hour_idx := x]> prices)
    | PassedOver => Some prices
    | Overflow => None
    end
  else Some prices.

(** [for i, price in enumerate(l)], with [hour_idx = first_hour + i];
    anything but a list is left alone. *)
Definition nordpool_day (first_hour : Z) (day : attr) (prices : list Q)
    : option (list Q) :=
  match day with
  | AList l =>
      foldl (λ acc ip, prices ← acc;
                       nordpool_set (first_hour + Z.of_nat ip.1) ip.2 prices)
            (Some prices) (imap pair l)
  | _ => Some prices
  end.

(** [None] stands for the [OverflowError] that the method raises. *)
Definition _parse_nordpool_prices (today tomorrow : attr) (current_hour : Z)
    : option (list Q) :=
  let prices := replicate 48 DEFAULT_PRICE in
  prices ← nordpool_day (- current_hour) today prices;
  let hours_until_midnight := (24 - current_hour)%Z in
  nordpool_day hours_until_midnight tomorrow prices.

(** The dicts of a list; an element that is not a dict raises at the
    first [entry.get] of the loops of the two price parsers and is passed
    over. *)
Definition dicts_of (l : list elem) : list (gmap string value) :=
  omap (λ e, match e with EDict d => Some d | EVal _ => None end) l.

Section Sensors.
(** [self.hass.states], the settings of [self.config] that are strings and
    those that are numbers, and the clock. *)
Variable states : gmap string State.t.
Variable config_str : gmap string string.
Variable config : gmap string Q.
Variable now : Q.
Variable current_hour : Z.

Definition _update_battery_soc (data : EOSData.t) : EOSData.t :=
  match config_entity config_str CONF_BATTERY_SOC_SENSOR with
  | None => data
  | Some sensor_id =>
    match states !! sensor_id with
    | None => data
    | Some state =>
      if state_known (State.state state) then
        match state_float (State.state state) with
        | Some soc => set_soc soc data
        | None => data
        end
      else data
    end
  end.

Definition _update_load_data (data : EOSData.t) : EOSData.t :=
  match config_entity config_str CONF_LOAD_SENSOR with
  | None => set_load_profile (replicate 48 DEFAULT_LOAD) data
  | Some sensor_id =>
    match states !! sensor_id with
    | None => set_load_profile (replicate 48 DEFAULT_LOAD) data
    | Some state =>
      if state_known (State.state state) then
        match state_float (State.state state) with
        | Some current_power => set_load_profile (replicate 48 current_power) data
        | None => set_load_profile (replicate 48 DEFAULT_LOAD) data
        end
      else set_load_profile (replicate 48 DEFAULT_LOAD) data
    end
  end.

Definition _update_pv_forecast (data : EOSData.t) : EOSData.t :=
  match config_entity config_str CONF_PV_FORECAST_ENTITY with
  | None => set_pv_forecast (replicate 48 0%Q) data
  | Some entity_id =>
    match states !! entity_id with
    | None => set_pv_forecast (replicate 48 0%Q) data
    | Some state =>
      let forecast := replicate 48 0%Q in
      let attrs := State.attributes state in
      let detailed :=
        attr_or (attr_or (attr_get attrs "DetailedForecast") (attr_get attrs "detailedHourly"))
                (attr_get attrs "detailed_forecast") in
      let forecast :=
        match detailed with
        | AList (p :: l) => _parse_solcast_forecast (p :: l) now
        | _ =>
          if bool_decide (is_Some (attrs !! "forecast")) then
            match attr_get_default attrs "forecast" (AList []) with
            | AList forecast_data => _parse_generic_forecast forecast_data now
            | _ => forecast
            end
          else if bool_decide (is_Some (attrs !! "watt_hours"))
                  || bool_decide (is_Some (attrs !! "watts")) then
            match attr_or (attr_get attrs "watt_hours")
                          (attr_get_default attrs "watts" (ADict [])) with
            | ADict wh_data => _parse_watt_hours_forecast wh_data now
            | _ => forecast
            end
          else
            match state_float (State.state state) with
            | Some current_power => <[0 := current_power]> forecast
            | None => forecast
            end
        end in
      set_pv_forecast forecast data
    end
  end.

Definition _update_prices (data : EOSData.t) : EOSData.t :=
  let source := default PRICE_SOURCE_HA_SENSOR (config_str !! CONF_PRICE_SOURCE) in
  if String.eqb source PRICE_SOURCE_FIXED then
    let fixed_price := config_get config CONF_FIXED_PRICE DEFAULT_PRICE in
    set_prices (replicate 48 fixed_price) (replicate 192 fixed_price) data
  else
    match config_entity config_str CONF_PRICE_ENTITY with
    | None => set_prices (replicate 48 DEFAULT_PRICE) (replicate 192 DEFAULT_PRICE) data
    | Some entity_id =>
      match states !! entity_id with
      | None => set_prices (replicate 48 DEFAULT_PRICE) (replicate 192 DEFAULT_PRICE) data
      | Some state =>
        let prices := replicate 48 DEFAULT_PRICE in
        let prices_15min := replicate 192 DEFAULT_PRICE in
        let attrs := State.attributes state in
        let '(prices, prices_15min) :=
          if bool_decide (is_Some (attrs !! "prices")) then
            match attr_get_default attrs "prices" (AList []) with
            | AList (e :: l) => _parse_tibber_prices_dual (dicts_of (e :: l)) now
            | _ => (prices, prices_15min)
            end
          else if bool_decide (is_Some (attrs !! "prices_today"))
                  || bool_decide (is_Some (attrs !! "raw_today")) then
            let today :=
              attr_or (attr_get attrs "prices_today")
                      (attr_get_default attrs "raw_today" (AList [])) in
            let tomorrow :=
              attr_or (attr_get attrs "prices_tomorrow")
                      (attr_get_default attrs "raw_tomorrow" (AList [])) in
            match _parse_nordpool_prices today tomorrow current_hour with
            | Some prices => (prices, _expand_hourly_to_15min prices)
            | None => (prices, prices_15min)
            end
          else if bool_decide (is_Some (attrs !! "data")) then
            match attr_get_default attrs "data" (AList []) with
            | AList data => _parse_entsoe_prices_dual (dicts_of data) now
            | _ => (prices, prices_15min)
            end
          else
            match state_float (State.state state) with
            | Some current_price =>
                (replicate 48 current_price, replicate 192 current_price)
            | None => (prices, prices_15min)
            end in
        set_prices prices prices_15min data
      end
    end.
End Sensors.

(** ** api.py: the state of the EV charging controller *)

Module EVCCLoadpoint.
Record t : Type := mk {
  connected : bool;
  charging : bool;
  mode : string;
  charge_duration : Z;
  charge_remaining_duration : Z;
  charged_energy : Q;
  charge_remaining_energy : Q;
  session_energy : Q;
  vehicle_soc : Q;
  vehicle_range : Z;
  vehicle_name : string;
  smart_cost_active : bool;
  plan_active : bool
}.
End EVCCLoadpoint.

Module EVCCState.
Record t : Type := mk {
  enabled : bool;
  connected : bool;
  version : string;
  charging_state : bool;
  charging_mode : string;
  battery_mode : string;
  loadpoints : list EVCCLoadpoint.t
}.
(** [EVCCState()] *)
Definition new : t := mk false false "" false "off" "normal" [].
End EVCCState.

(** A loadpoint as the controller reports it: a JSON object, key by key;
    a key that is absent is [None]. *)
Module LoadpointJson.
Record t : Type := mk {
  connected : option bool;
  charging : option bool;
  mode : option string;
  chargeDuration : option Z;
  chargeRemainingDuration : option Z;
  chargedEnergy : option Q;
  chargeRemainingEnergy : option Q;
  sessionEnergy : option Q;
  vehicleSoc : option Q;
  vehicleRange : option Z;
  vehicleName : option string;
  smartCostActive : option bool;
  planActive : option bool
}.
End LoadpointJson.

(** [mode_priority.get(mode, 0)] *)
Definition mode_priority (mode : string) : nat :=
  if String.eqb mode "off" then 0
  else if String.eqb mode "pv" then 1
  else if String.eqb mode "minpv" then 2
  else if String.eqb mode "now" then 3
  else 0.

(** What the loop of [_parse_evcc_state] carries along. *)
Record evcc_loop : Type := mk_evcc_loop {
  loop_loadpoints : list EVCCLoadpoint.t;
  loop_charging_state : bool;
  loop_charging_mode : string;
  loop_highest_mode_priority : nat
}.

(** One turn of the loop; [vehicles] maps the name of a vehicle to its
    title, if it has one. *)
Definition evcc_loadpoint (vehicles : gmap string (option string))
    (acc : evcc_loop) (lp : LoadpointJson.t) : evcc_loop :=
  let vehicle_name :=
    default "" (default None (vehicles !! default "" (LoadpointJson.vehicleName lp))) in
  let mode := default "off" (LoadpointJson.mode lp) in
  let charging := default false (LoadpointJson.charging lp) in
  let raised := charging && bool_decide (loop_highest_mode_priority acc < mode_priority mode) in
  let loadpoint :=
    EVCCLoadpoint.mk
      (default false (LoadpointJson.connected lp)) charging mode
      (default 0%Z (LoadpointJson.chargeDuration lp))
      (default 0%Z (LoadpointJson.chargeRemainingDuration lp))
      (default 0%Q (LoadpointJson.chargedEnergy lp))
      (default 0%Q (LoadpointJson.chargeRemainingEnergy lp))
      (default 0%Q (LoadpointJson.sessionEnergy lp))
      (default 0%Q (LoadpointJson.vehicleSoc lp))
      (default 0%Z (LoadpointJson.vehicleRange lp))
      vehicle_name
      (default false (LoadpointJson.smartCostActive lp))
      (default false (LoadpointJson.planActive lp)) in
  mk_evcc_loop
    (loop_loadpoints acc ++ [loadpoint])
    (loop_charging_state acc || charging)
    (if raised then mode else loop_charging_mode acc)
    (if raised then mode_priority mode else loop_highest_mode_priority acc).

(** [_parse_evcc_state] *)
Definition _parse_evcc_state (loadpoints : list LoadpointJson.t)
    (vehicles : gmap string (option string)) (evcc : EVCCState.t) : EVCCState.t :=
  let acc := foldl (evcc_loadpoint vehicles) (mk_evcc_loop [] false "off" 0) loadpoints in
  let charging_mode :=
    if loop_charging_state acc then loop_charging_mode acc
    else match loadpoints with
         | lp :: _ => default "off" (LoadpointJson.mode lp)
         | [] => "off"
         end in
  EVCCState.mk (EVCCState.enabled evcc) (EVCCState.connected evcc) (EVCCState.version evcc)
    (loop_charging_state acc) charging_mode (EVCCState.battery_mode evcc)
    (loop_loadpoints acc).

(** [async_set_evcc_battery_mode].  [_get_session] is awaited first, inside
    the [try] statement; [post] is [session.post] seen from the method:
    the status of the answer, or an exception.  The handler takes the
    instances of [Exception]; anything else goes on to the caller.  The
    method hands back its verdict or the exception, the state of the
    controller as the client knows it, and the addresses at which it has
    tried to post. *)
Definition async_set_evcc_battery_mode (evcc_enabled : bool) (evcc_url : string)
    (_get_session : outcome unit) (post : string → outcome Z) (mode : string)
    (evcc : EVCCState.t)
    : outcome bool * EVCCState.t * list string :=
  if negb evcc_enabled || String.eqb evcc_url "" then (Return false, evcc, [])
  else
    let endpoint :=
      if String.eqb mode EVCC_BATTERY_HOLD then Some (evcc_url ++ "/api/batterymode/hold")%string
      else if String.eqb mode EVCC_BATTERY_NORMAL then Some (evcc_url ++ "/api/batterymode/normal")%string
      else if String.eqb mode EVCC_BATTERY_CHARGE then Some (evcc_url ++ "/api/batterymode/charge")%string
      else None in
    match endpoint with
    | None => (Return false, evcc, [])
    | Some url =>
      let except (e : Exn.t) : outcome bool :=
        if Exn.is_exception e then Return false else Raise e in
      match _get_session with
      | Raise e => (except e, evcc, [])
      | Return _ =>
        match post url with
        | Return status =>
          if bool_decide (status = 200%Z) then
            (Return true,
             EVCCState.mk (EVCCState.enabled evcc) (EVCCState.connected evcc)
               (EVCCState.version evcc) (EVCCState.charging_state evcc)
               (EVCCState.charging_mode evcc) mode (EVCCState.loadpoints evcc),
             [url])
          else (Return false, evcc, [url])
        | Raise e => (except e, evcc, [url])
        end
      end
    end.

(** ** coordinator.py: the refinement by quarters of an hour *)

(** [min(l)] and [max(l)] on a non-empty list: the first smallest and the
    first greatest element. *)
Definition py_min (x : Q) (l : list Q) : Q :=
  foldl (λ m y, if Qlt_bool y m then y else m) x l.
Definition py_max (x : Q) (l : list Q) : Q :=
  foldl (λ m y, if Qlt_bool m y then y else m) x l.

(** [l[a:b]] *)
Definition py_slice {A} (a b : nat) (l : list A) : list A := take (b - a) (drop a l).

(** The first part of [_sync_evcc_battery_mode_15min]: the mode for the
    battery, or [None] when the method returns without one.  [hour] and
    [minute] are those of [dt_util.now()]. *)
Definition refined_evcc_mode (hour minute : nat) (data : EOSData.t) : option string :=
  let current_hour := hour in
  let current_15min_slot := current_hour * 4 + minute `div` 15 in
  let prices_15min := EOSData.prices_15min data in
  let prices_hourly := EOSData.prices data in
  match prices_15min !! current_15min_slot with
  | None => None
  | Some current_15min_price =>
    let hourly_avg := default current_15min_price (prices_hourly !! current_hour) in
    let hour_start_slot := current_hour * 4 in
    let hour_prices :=
      if bool_decide (hour_start_slot + 4 ≤ length prices_15min)
      then py_slice hour_start_slot (hour_start_slot + 4) prices_15min
      else [] in
    let hour_min :=
      match hour_prices with p :: l => py_min p l | [] => current_15min_price end in
    let hour_max :=
      match hour_prices with p :: l => py_max p l | [] => current_15min_price end in
    let eos_mode := ControlState.mode (EOSData.control data) in
    Some
      (match eos_mode with
       | AVOID_DISCHARGE => EVCC_BATTERY_HOLD
       | CHARGE_FROM_GRID =>
         if Qle_bool current_15min_price hourly_avg
            || Qeq_bool current_15min_price hour_min
         then EVCC_BATTERY_CHARGE else EVCC_BATTERY_HOLD
       | DISCHARGE_ALLOWED =>
         if Qle_bool hourly_avg current_15min_price
            || Qeq_bool current_15min_price hour_max
         then EVCC_BATTERY_NORMAL else EVCC_BATTERY_HOLD
       | _ =>
         if Qle_bool current_15min_price (hour_min * 1.1)%Q then EVCC_BATTERY_CHARGE
         else if Qle_bool (hour_max * 0.9)%Q current_15min_price then EVCC_BATTERY_NORMAL
         else EVCC_BATTERY_HOLD
       end)
  end.

(** [_sync_evcc_battery_mode_15min] on the coordinator and the log of its
    calls. *)
Definition _sync_evcc_battery_mode_15min (hour minute : nat) (data : EOSData.t)
    (answer : api_answer) (st : Coordinator.t * list api_call)
    : Coordinator.t * list api_call :=
  match refined_evcc_mode hour minute data with
  | None => st
  | Some evcc_mode => _set_evcc_mode_if_changed evcc_mode answer st
  end.

(** [_async_15min_update]; [evcc_enabled] is [self._evcc_enabled]. *)
Definition _async_15min_update (evcc_enabled : bool) (hour minute : nat) (data : EOSData.t)
    (answer : api_answer) (st : Coordinator.t * list api_call)
    : Coordinator.t * list api_call :=
  if negb (Coordinator._refinement_15min_enabled st.1) then st
  else if negb evcc_enabled then st
  else _sync_evcc_battery_mode_15min hour minute data answer st.

(** [self._15min_unsub is not None], and the number of interval timers
    that the coordinator has running on the host. *)
Record refinement_timer : Type := mk_refinement_timer {
  _15min_unsub : bool;
  live_timers : nat
}.

Definition set_refinement_15min_enabled (v : bool) (c : Coordinator.t) : Coordinator.t :=
  Coordinator.mk (Coordinator._last_evcc_mode c) (Coordinator._last_soc c)
    (Coordinator._battery_capacity_wh c) (Coordinator._feed_in_price c) v.

(** [async_set_15min_refinement]: switching on starts a timer, unless one
    is running, and runs a first update at once; switching off stops the
    timer, if there is one. *)
Definition async_set_15min_refinement (evcc_enabled : bool) (hour minute : nat)
    (data : EOSData.t) (answer : api_answer) (enabled : bool)
    (st : Coordinator.t * list api_call * refinement_timer)
    : Coordinator.t * list api_call * refinement_timer :=
  let '(self, calls, timer) := st in
  let self := set_refinement_15min_enabled enabled self in
  if enabled then
    if negb (_15min_unsub timer) then
      (_async_15min_update evcc_enabled hour minute data answer (self, calls),
       mk_refinement_timer true (S (live_timers timer)))
    else (self, calls, timer)
  else
    if _15min_unsub timer
    then (self, calls, mk_refinement_timer false (pred (live_timers timer)))
    else (self, calls, timer).

(** ** api.py: the cycle with the sensor updates in place *)

(** [async_run_optimization] and [async_update] with the four update
    methods of the client.  Each method reads the clock for itself. *)
Module EOSClient.
Section Cycle.
Variable states : gmap string State.t.
Variable config_str : gmap string string.
Variable config : gmap string Q.
Variable charging_curve_enabled : bool.
Variable eos_at_least_0_0_2 : bool.
(** [dt_util.now()] in [_update_pv_forecast] and in [_update_prices], and
    [now.hour] in [_parse_nordpool_prices]. *)
Variable now_pv : Q.
Variable now_prices : Q.
Variable hour_prices : Z.
Variable _get_session : outcome unit.
Variable now : Q.
Variable current_hour : Z.
Variable post : Request.t → Z → outcome HttpResponse.t.
Variable _fire_control_event : EOSData.t → outcome unit.

Definition run_optimization_prepare : M Request.t :=
  run_optimization_prepare config charging_curve_enabled eos_at_least_0_0_2
    (modify (_update_battery_soc states config_str))
    (modify (_update_load_data states config_str))
    (modify (_update_pv_forecast states config_str now_pv))
    (modify (_update_prices states config_str config now_prices hour_prices))
    _get_session.

Definition async_run_optimization : M OptimizationResult.t :=
  async_run_optimization config charging_curve_enabled eos_at_least_0_0_2
    (modify (_update_battery_soc states config_str))
    (modify (_update_load_data states config_str))
    (modify (_update_pv_forecast states config_str now_pv))
    (modify (_update_prices states config_str config now_prices hour_prices))
    _get_session now current_hour post _fire_control_event.

Definition async_update : M EOSData.t :=
  async_update config charging_curve_enabled
    (modify (_update_battery_soc states config_str))
    (modify (_update_load_data states config_str))
    (modify (_update_pv_forecast states config_str now_pv))
    (modify (_update_prices states config_str config now_prices hour_prices)).

Definition async_clear_override : M bool :=
  async_clear_override config charging_curve_enabled eos_at_least_0_0_2
    (modify (_update_battery_soc states config_str))
    (modify (_update_load_data states config_str))
    (modify (_update_pv_forecast states config_str now_pv))
    (modify (_update_prices states config_str config now_prices hour_prices))
    _get_session now current_hour post _fire_control_event.
End Cycle.
End EOSClient.

(** * Vocabulary of the properties *)

(** The first 48 elements, then zeros up to 48 elements. *)
Definition padded_with_zero (l : list Q) : list Q :=
  take 48 l ++ replicate (48 - length l) 0%Q.

(** The first 48 elements, then the last element again and again up to 48
    elements; [d] stands in for the last element of an empty list. *)
Definition padded_with_last (d : Q) (l : list Q) : list Q :=
  take 48 l ++ replicate (48 - length l) (List.last l d).

(** The state that the handlers leave for an exception: a timeout, else a
    connection error, else anything. *)
Definition state_after (e : Exn.t) : string :=
  if Exn.is_timeout_error e then "timeout"
  else if Exn.is_client_error e then "connection_error"
  else "error".

(** One of the three [except] clauses of [async_run_optimization] takes the
    exception. *)
Definition handled (e : Exn.t) : bool :=
  Exn.is_timeout_error e || Exn.is_client_error e || Exn.is_exception e.

(** What the caller of [async_run_optimization] sees when [e] is raised
    inside the [try] statement with [self._data] being [d]: the result
    held by [d], with the state that the handler wrote; or [e] itself,
    with [d] untouched, when no handler takes it. *)
Definition raised_in_try (e : Exn.t) (d : EOSData.t)
    : outcome OptimizationResult.t * EOSData.t :=
  if handled e
  then (Return (EOSData.optimization d),
        EOSData.set_optimization_state (state_after e) d)
  else (Raise e, d).

(** [asyncio.CancelledError]: no subclass of [Exception]. *)
Definition CancelledError : Exn.t := Exn.mk false false false.

(** The method's outcome shows the final state. *)
Ltac give_final := cbv beta iota; cbn [fst snd]; split; [reflexivity|].

(** Goals that follow from the equations at hand; [Hnok] says that no
    handler leaves the state ["ok"]. *)
Ltac settle Hnok :=
  repeat (intros; split_and?);
  repeat match goal with
  | H : (_, _) = (_, _) |- _ => injection H as ??
  | H : Return _ = Raise _ |- _ => discriminate H
  | H : Raise _ = Return _ |- _ => discriminate H
  end;
  subst; cbn in *; try congruence; try (exfalso; eapply Hnok; eassumption).

(** Goals made of equations between outcomes that the cases at hand
    decide. *)
Ltac finish_cases := intuition (try discriminate; try congruence).

(** No two neighbours of the list are equal. *)
Definition no_repeat (l : list string) : Prop :=
  ∀ i m m', l !! i = Some m → l !! S i = Some m' → m ≠ m'.

(** What links the coordinator to the log of its calls: the mode it
    remembers is the mode of the last call that succeeded. *)
Definition evcc_inv (st : Coordinator.t * list api_call) : Prop :=
  Coordinator._last_evcc_mode st.1 = last (successful_modes st.2) ∧
  no_repeat (successful_modes st.2).


(** What the hour [h] of the hourly series holds, given the dictionary. *)
Definition hourly_slot (hourly_prices : gmap Z (list Q)) (h : nat) : Q :=
  match hourly_prices !! Z.of_nat h with
  | Some (p :: l) => mean (p :: l)
  | _ => DEFAULT_PRICE
  end.

(** The number that an entry carries as its price when the loop gets as
    far as [float(price)]. *)
Definition entsoe_parsed (entry : gmap string value) : option Q :=
  let time_str :=
    py_or (py_or (entry_get entry "time") (entry_get entry "start"))
          (entry_get entry "datetime") in
  let price := py_or (entry_get entry "price") (entry_get entry "value") in
  if negb (truthy time_str) || is_VNone price then None
  else match fromisoformat time_str with
       | None => None
       | Some _ => py_float price
       end.

(** [x] is what the loop stores for an entry of [data]: the price over
    1000 when the price is greater than 1, the price itself otherwise. *)
Definition entsoe_stored (data : list (gmap string value)) (x : Q) : Prop :=
  ∃ entry v, entry ∈ data ∧ entsoe_parsed entry = Some v ∧
             ((1 < v)%Q → x = (v / 1000)%Q) ∧ ((v <= 1)%Q → x = v).

(** Both dictionaries hold values with the property [P] only. *)
Definition dicts_hold (P : Q → Prop) (dicts : price_dicts) : Prop :=
  (∀ k l, dicts.1 !! k = Some l → Forall P l) ∧
  (∀ k x, dicts.2 !! k = Some x → P x).

(** What a slot of one of the two series may hold. *)
Definition entsoe_series_value (data : list (gmap string value)) (x : Q) : Prop :=
  x = DEFAULT_PRICE ∨ entsoe_stored data x
  ∨ ∃ p l, Forall (entsoe_stored data) (p :: l) ∧ x = mean (p :: l).

(** Two entries, half an hour and an hour and a half from now, the first
    priced in EUR/MWh and the second in EUR/kWh. *)
Definition entsoe_example : list (gmap string value) :=
  [ {[ "time" := VTime 1800; "price" := VNum 85.3 ]};
    {[ "datetime" := VTime 5400; "value" := VNum 0.25 ]} ].

(** C5 as it is worded: no price of the two series exceeds 1. *)
Definition entsoe_prices_at_most_one (data : list (gmap string value)) (now : Q) : Prop :=
  let series := _parse_entsoe_prices_dual data now in
  ∀ x, x ∈ series.1 ∨ x ∈ series.2 → (x <= 1)%Q.

(** The reading of C6: the time of an entry is its ['from'] (or
    ['startsAt']) timestamp, its price is what it holds under ['price'],
    or under ['total'] when it has no ['price']. *)
Definition tibber_time (entry : gmap string value) : option Q :=
  fromisoformat (py_or (entry_get entry "from") (entry_get entry "startsAt")).

Definition tibber_price (entry : gmap string value) : option Q :=
  match entry_get entry "price" with
  | VNone => py_float (entry_get entry "total")
  | v => py_float v
  end.

(** The hour to which a time maps: times from one hour before [now] up to
    48 hours after it count, the full hours elapsed give the hour, and the
    hour before [now] counts as hour 0. *)
Definition hour_of (now t : Q) : option nat :=
  let seconds := (t - now)%Q in
  if Qle_bool (-3600) seconds && Qlt_bool seconds (48 * 3600)
  then Some (Z.to_nat (Qfloor (seconds / 3600)))
  else None.

(** The price that an entry adds to hour [h], if any. *)
Definition contributes (now : Q) (h : nat) (entry : gmap string value) : option Q :=
  t ← tibber_time entry;
  p ← tibber_price entry;
  h' ← hour_of now t;
  if decide (h' = h) then Some p else None.

(** The prices of the entries of hour [h], and what C6 puts into the
    slot: their arithmetic mean, or 0.30 when there are none. *)
Definition hour_prices (now : Q) (data : list (gmap string value)) (h : nat) : list Q :=
  omap (contributes now h) data.

Definition hourly_mean (now : Q) (data : list (gmap string value)) (h : nat) : Q :=
  match hour_prices now data h with
  | [] => DEFAULT_PRICE
  | p :: l => mean (p :: l)
  end.

(** An entry whose ['price'] is absent or true in the sense of Python;
    the number 0 is not. *)
Definition price_truthy (entry : gmap string value) : Prop :=
  entry_get entry "price" = VNone ∨ truthy (entry_get entry "price") = true.

(** The list that the dictionary holds for a key, empty when the key is
    missing. *)
Definition hour_list (hourly_prices : gmap Z (list Q)) (k : Z) : list Q :=
  default [] (hourly_prices !! k).

(** The 15-minute slots that the entries produced. *)
Definition tibber_slots (data : list (gmap string value)) (now : Q) : gmap Z Q :=
  (foldl (tibber_entry now) (∅, ∅) data).2.

(** One entry per quarter of the first hour, and one for the hour after. *)
Definition tibber_example : list (gmap string value) :=
  [ {[ "from" := VTime 0; "price" := VNum 0.20 ]};
    {[ "from" := VTime 900; "price" := VNum 0.30 ]};
    {[ "startsAt" := VTime 1800; "total" := VNum 0.40 ]};
    {[ "from" := VTime 2700; "price" := VNum 0.50 ]};
    {[ "from" := VTime 3600; "price" := VNum 0.10 ]} ].

(** Two entries for the current hour, priced 0.00 and 0.40. *)
Definition tibber_zero_price : list (gmap string value) :=
  [ {[ "from" := VTime 0; "price" := VNum 0 ]};
    {[ "from" := VTime 0; "price" := VNum 0.40 ]} ].

(** What is left of a call: all of it, the rest of the block and the
    release, or nothing. *)
Inductive task_state : list action → Prop :=
| task_ready body : task_state (with_lock body)
| task_inside body : task_state ((Await <$> body) ++ [Release])
| task_done : task_state [].

Record lock_inv (s : sched) : Prop := mk_lock_inv {
  inv_shape : ∀ i p, tasks s !! i = Some p → task_state p;
  inv_free : locked s = false → ∀ i p, tasks s !! i = Some p → inside p = false;
  inv_one : ∀ i j p q,
    tasks s !! i = Some p → tasks s !! j = Some q →
    inside p = true → inside q = true → i = j
}.

(** No two cycles interleave: between the step at which task [i] enters
    its block and any later step of another task, task [i] has left the
    block. *)
Definition serialized (tr : list (nat * action)) : Prop :=
  ∀ a b i j c,
    tr !! a = Some (i, Acquire) → a < b → tr !! b = Some (j, c) → j ≠ i →
    ∃ k, a < k < b ∧ tr !! k = Some (i, Release).

(** The time [t] lies in hour [h] after [now]: from [h] full hours after
    [now], up to but not including [h + 1] full hours. *)
Definition in_hour (now : Q) (h : nat) (t : Q) : Prop :=
  (3600 * inject_Z (Z.of_nat h) <= t - now)%Q ∧
  (t - now < 3600 * inject_Z (Z.of_nat (S h)))%Q.

(** The powers that the elements of a list give for slot [h], in order;
    [f] tells the slot and the power of an element. *)
Definition slot_powers {A} (f : A → option (nat * Q)) (h : nat) (l : list A) : list Q :=
  omap (λ x, hp ← f x; if decide (hp.1 = h) then Some hp.2 else None) l.

(** The price that a day of a Nordpool sensor gives for slot [h], when the
    day is a list whose entry [h - first_hour] reads as a number. *)
Definition nordpool_entry (first_hour : Z) (day : attr) (h : nat) : option Q :=
  match day with
  | AList l =>
      if bool_decide (first_hour ≤ Z.of_nat h)%Z
      then price ← l !! Z.to_nat (Z.of_nat h - first_hour);
           match nordpool_float price with Number x => Some x | _ => None end
      else None
  | _ => None
  end.

(** A day of a Nordpool sensor holds, at an entry that falls into the 48
    hours, an int beyond the floats. *)
Definition nordpool_overflow (first_hour : Z) (day : attr) : Prop :=
  ∃ l i price, day = AList l ∧ l !! i = Some price ∧
               (0 ≤ first_hour + Z.of_nat i < 48)%Z ∧
               nordpool_float price = Overflow.

(** What an override fixes in the control state. *)
Definition override_of (c : ControlState.t) : InverterMode * bool * option Q * Q :=
  (ControlState.mode c, ControlState.override_active c,
   ControlState.override_end_time c, ControlState.override_power c).

(** [energy_kwh] as [_update_savings] computes it, in floats: the change
    of the state of charge over 100, times the capacity in Wh, over
    1000. *)
Definition energy_kwh_float (self : Float64.Coordinator.t) (last_soc current_soc : float)
    : float :=
  ((current_soc - last_soc) / 100 * Float64.Coordinator._battery_capacity_wh self
   / 1000)%float.

(** The price at which a charge is booked. *)
Definition charge_price_float (self : Float64.Coordinator.t) (data : Float64.EOSData.t)
    (current_price : float) : float :=
  if bool_decide (Float64.EOSData.mode data = CHARGE_FROM_GRID)
  then current_price else Float64.Coordinator._feed_in_price self.

(** The state used below: 1 kWh charged so far at 0.20 EUR/kWh on average,
    a battery of 10 kWh last seen at [last_soc] and now at [soc], a
    current price of 0.40 EUR/kWh and the inverter charging from the
    grid. *)
Definition savings_example_float (last_soc soc : float)
    : Float64.Coordinator.t * Float64.EOSData.t :=
  let savings :=
    Float64.SavingsTracker.mk 0 0 0 1 0 0 0 0 1 0 1 0 0 1 0.2 0 0 0 0 0 "2024-05-01" in
  (Float64.Coordinator.mk (Some last_soc) 10000 0.08,
   Float64.EOSData.mk soc [0.4]%float CHARGE_FROM_GRID savings).

(** The charged energy is the sum of what came from PV and what came from
    the grid, as the floats add them. *)
Definition books_balance (s : Float64.SavingsTracker.t) : Prop :=
  Float64.SavingsTracker.total_charged_kwh s
  = (Float64.SavingsTracker.total_pv_charged_kwh s
     + Float64.SavingsTracker.total_grid_charged_kwh s)%float.

(** A run of updates on one day, one for each reading of the state of
    charge and of the mode of the inverter. *)
Definition savings_readings (today : string) (readings : list (float * InverterMode))
    (st : Float64.Coordinator.t * Float64.EOSData.t)
    : Float64.Coordinator.t * Float64.EOSData.t :=
  foldl (λ st reading,
           Float64._update_savings today
             (st.1, Float64.EOSData.mk reading.1 (Float64.EOSData.prices st.2) reading.2
                      (Float64.EOSData.savings st.2)))
        st readings.

(** A coordinator that has seen the battery of 10 kWh at 50 %, and a
    tracker in which nothing is booked yet. *)
Definition fresh_start : Float64.Coordinator.t * Float64.EOSData.t :=
  (Float64.Coordinator.mk (Some 50%float) 10000 0.08,
   Float64.EOSData.mk 50 [0.4]%float AUTO Float64.SavingsTracker.new).



(** The mode that a loadpoint reports, ["off"] when it reports none, and
    whether it reports that it is charging. *)
Definition lp_mode (lp : LoadpointJson.t) : string :=
  default "off" (LoadpointJson.mode lp).
Definition lp_charging (lp : LoadpointJson.t) : bool :=
  default false (LoadpointJson.charging lp).

(** The three battery modes that the controller knows. *)
Definition evcc_battery_modes : list string :=
  [EVCC_BATTERY_HOLD; EVCC_BATTERY_NORMAL; EVCC_BATTERY_CHARGE].

(** What happens to the coordinator: the sync at the end of an update
    cycle, a tick of an interval timer, which comes only while a timer
    runs, and the switch of the refinement. *)
Inductive coordinator_event : Type :=
| HourlySync (mode : InverterMode) (answer : api_answer)
| TimerTick (evcc_enabled : bool) (hour minute : nat) (data : EOSData.t)
    (answer : api_answer)
| SetRefinement (evcc_enabled : bool) (hour minute : nat) (data : EOSData.t)
    (answer : api_answer) (enabled : bool).

Definition coordinator_step (st : Coordinator.t * list api_call * refinement_timer)
    (e : coordinator_event) : Coordinator.t * list api_call * refinement_timer :=
  match e with
  | HourlySync mode answer => (_sync_evcc_battery_mode mode answer st.1, st.2)
  | TimerTick evcc_enabled hour minute data answer =>
      if bool_decide (live_timers st.2 = 0) then st
      else (_async_15min_update evcc_enabled hour minute data answer st.1, st.2)
  | SetRefinement evcc_enabled hour minute data answer enabled =>
      async_set_15min_refinement evcc_enabled hour minute data answer enabled st
  end.

(** The coordinator holds the handle of a timer exactly when one timer
    runs, and no timer runs otherwise. *)
Definition timer_inv (timer : refinement_timer) : Prop :=
  live_timers timer = if _15min_unsub timer then 1 else 0.

Definition is_switch (e : coordinator_event) : bool :=
  match e with SetRefinement _ _ _ _ _ _ => true | _ => false end.

(** The 15-minute slot to which a time maps: the full quarters of an hour
    elapsed since [now], from four quarters before [now] up to 48 hours
    after it; the four quarters before [now] count as slot 0. *)
Definition slot_of (now t : Q) : option Z :=
  let slot_15min := py_int ((t - now) / 60 / 15) in
  if bool_decide (-4 ≤ slot_15min)%Z && bool_decide (slot_15min < 192)%Z
  then Some (Z.max 0 slot_15min)
  else None.

(** The price that an entry of a Tibber list writes to slot [i], if any:
    the number under ['price'], or under ['total'] when Python takes the
    former for false. *)
Definition quarter_price (now : Q) (i : Z) (entry : gmap string value) : option Q :=
  t ← tibber_time entry;
  p ← py_float (py_or (entry_get entry "price") (entry_get entry "total"));
  s ← slot_of now t;
  if decide (s = i) then Some p else None.

(** The entry that wrote to slot [i] last decides. *)
Definition quarter_of (now : Q) (data : list (gmap string value)) (i : nat) : option Q :=
  last (omap (quarter_price now (Z.of_nat i)) data).

(** Prices by the hour: at [now] and one hour later. *)
Definition tibber_by_the_hour : list (gmap string value) :=
  [ {[ "from" := VTime 0; "price" := VNum 0.20 ]};
    {[ "from" := VTime 3600; "price" := VNum 0.10 ]} ].

(** The three fields that only [async_set_override] and
    [async_clear_override] write. *)
Definition override_fields (c : ControlState.t) : bool * option Q * Q :=
  (ControlState.override_active c, ControlState.override_end_time c,
   ControlState.override_power c).

(** * Properties *)

(** ** Padding loops *)

Section AppendWhile.
Context {A : Type}.
Implicit Types (l : list A) (next : list A → A).

Lemma append_while_lt n next l :
  length l < n → append_while n next l = append_while n next (l ++ [next l]).
Proof.
  intros H. rewrite append_while_equation_1.
  destruct (decide (length l < n)); [done | lia].
Qed.

Lemma append_while_ge n next l :
  n ≤ length l → append_while n next l = l.
Proof.
  intros H. rewrite append_while_equation_1.
  destruct (decide (length l < n)); [lia | done].
Qed.

(** When the appended element does not change while the loop runs, the
    loop appends that many copies of it. *)
Lemma append_while_stable n next x l :
  (∀ k, next (l ++ replicate k x) = x) →
  append_while n next l = l ++ replicate (n - length l) x.
Proof.
  remember (n - length l) as k eqn:Hk.
  revert l Hk. induction k as [|k IH]; intros l Hk Hnext.
  - rewrite append_while_ge by lia. simpl. by rewrite app_nil_r.
  - rewrite append_while_lt by lia.
    pose proof (Hnext 0) as H0. simpl in H0. rewrite app_nil_r in H0. rewrite H0.
    rewrite IH.
    + by rewrite <- app_assoc.
    + rewrite length_app. simpl. lia.
    + intros j. rewrite <- app_assoc. apply (Hnext (S j)).
Qed.

Lemma append_while_const n x l :
  append_while n (λ _, x) l = l ++ replicate (n - length l) x.
Proof. by apply append_while_stable. Qed.

Lemma last_app_replicate l k d :
  List.last (l ++ replicate k (List.last l d)) d = List.last l d.
Proof.
  induction k as [|k IH]; simpl.
  - by rewrite app_nil_r.
  - replace (l ++ List.last l d :: replicate k (List.last l d))
      with ((l ++ replicate k (List.last l d)) ++ [List.last l d]).
    + apply last_last.
    + rewrite <- app_assoc. f_equal.
      change (replicate k (List.last l d) ++ replicate 1 (List.last l d)
              = replicate (S k) (List.last l d)).
      rewrite <- replicate_add. f_equal. lia.
Qed.

Lemma append_while_last n d l :
  append_while n (λ l, List.last l d) l = l ++ replicate (n - length l) (List.last l d).
Proof. apply append_while_stable. intros k. apply last_app_replicate. Qed.

Lemma last_take_all n l d : length l ≤ n → List.last (take n l) d = List.last l d.
Proof. intros H. by rewrite take_ge. Qed.
End AppendWhile.

(** ** [_expand_hourly_to_15min] *)

Lemma extend_four_fold (acc l : list Q) :
  foldl (λ acc price, acc ++ replicate 4 price) acc l = acc ++ (l ≫= replicate 4).
Proof.
  revert acc. induction l as [|p l IH]; intros acc; simpl.
  - by rewrite app_nil_r.
  - rewrite IH. by rewrite <- app_assoc.
Qed.

Lemma length_bind_four (l : list Q) : length (l ≫= replicate 4) = 4 * length l.
Proof.
  induction l as [|p l IH]; [done|].
  change ((p :: l) ≫= replicate 4) with (replicate 4 p ++ (l ≫= replicate 4)).
  rewrite length_app, IH. simpl. lia.
Qed.

Lemma lookup_bind_four (l : list Q) (i : nat) :
  (l ≫= replicate 4) !! i = l !! (i / 4).
Proof.
  revert i. induction l as [|p l IH]; intros i.
  - done.
  - change ((p :: l) ≫= replicate 4) with (replicate 4 p ++ (l ≫= replicate 4)).
    destruct (decide (i < 4)) as [Hi|Hi].
    + rewrite lookup_app_l by (simpl; lia).
      rewrite Nat.div_small by lia. simpl.
      do 4 (destruct i as [|i]; [done|]). lia.
    + rewrite lookup_app_r by (simpl; lia). simpl length.
      rewrite IH.
      replace i with ((i - 4) + 1 * 4) at 2 by lia.
      rewrite Nat.div_add by lia.
      replace ((i - 4) / 4 + 1) with (S ((i - 4) / 4)) by lia. done.
Qed.

Lemma expand_hourly_unfold (hourly_prices : list Q) :
  _expand_hourly_to_15min hourly_prices
  = (take 48 hourly_prices ≫= replicate 4)
    ++ replicate (192 - 4 * length (take 48 hourly_prices)) DEFAULT_PRICE.
Proof.
  unfold _expand_hourly_to_15min.
  rewrite extend_four_fold, append_while_const. simpl app at 1.
  rewrite length_bind_four. apply take_ge.
  rewrite length_app, length_bind_four, length_replicate, length_take. lia.
Qed.

Lemma expand_hourly_to_15min_length (hourly_prices : list Q) :
  length (_expand_hourly_to_15min hourly_prices) = 192.
Proof.
  rewrite expand_hourly_unfold.
  rewrite length_app, length_bind_four, length_replicate, length_take. lia.
Qed.

(** C4.  [_expand_hourly_to_15min] returns 192 elements for every input.
    When the input has at least 48 elements, element [i] of the output is
    element [i / 4] of the input.  When it has fewer, the slots after the
    four-fold copies, up to slot 191, hold 0.30 (and the slots before them
    hold the copies). *)
Theorem expand_hourly_to_15min_shape (hourly_prices : list Q) :
  length (_expand_hourly_to_15min hourly_prices) = 192 ∧
  (48 ≤ length hourly_prices →
   ∀ i, i < 192 → _expand_hourly_to_15min hourly_prices !! i = hourly_prices !! (i / 4)) ∧
  (length hourly_prices < 48 →
   (∀ i, 4 * length hourly_prices ≤ i < 192 →
         _expand_hourly_to_15min hourly_prices !! i = Some DEFAULT_PRICE) ∧
   (∀ i, i < 4 * length hourly_prices →
         _expand_hourly_to_15min hourly_prices !! i = hourly_prices !! (i / 4))).
Proof.
  split; [apply expand_hourly_to_15min_length|].
  rewrite expand_hourly_unfold. split.
  - intros Hlen i Hi.
    rewrite lookup_app_l by (rewrite length_bind_four, length_take; lia).
    rewrite lookup_bind_four. apply lookup_take_lt.
    assert (i / 4 < 48); [|lia]. apply Nat.Div0.div_lt_upper_bound. lia.
  - intros Hlen. rewrite take_ge by lia. split.
    + intros i Hi.
      rewrite lookup_app_r by (rewrite length_bind_four; lia).
      apply lookup_replicate_2. rewrite length_bind_four. lia.
    + intros i Hi.
      rewrite lookup_app_l by (rewrite length_bind_four; lia).
      apply lookup_bind_four.
Qed.

Lemma expand_hourly_to_15min_shape_witness :
  _expand_hourly_to_15min [0.25; 0.31]%Q !! 5 = Some 0.31%Q ∧
  _expand_hourly_to_15min [0.25; 0.31]%Q !! 8 = Some DEFAULT_PRICE ∧
  _expand_hourly_to_15min (replicate 48 0.25%Q) !! 191 = Some 0.25%Q.
Proof.
  pose proof (expand_hourly_to_15min_shape [0.25; 0.31]%Q) as (_ & _ & Hshort).
  pose proof (expand_hourly_to_15min_shape (replicate 48 0.25%Q)) as (_ & Hlong & _).
  destruct Hshort as [Hpad Hcopy]; [simpl; lia|].
  split; [|split].
  - rewrite Hcopy by (simpl; lia). reflexivity.
  - apply Hpad. simpl. lia.
  - rewrite Hlong by (rewrite ?length_replicate; lia). reflexivity.
Defined.

(** ** [_build_optimization_request] *)

Lemma length_padded_with_zero l : length (padded_with_zero l) = 48.
Proof. unfold padded_with_zero. rewrite length_app, length_take, length_replicate. lia. Qed.

Lemma length_padded_with_last d l : length (padded_with_last d l) = 48.
Proof. unfold padded_with_last. rewrite length_app, length_take, length_replicate. lia. Qed.

Lemma pad_loop_zero (l : list Q) :
  append_while EOS_TGT_DURATION (λ _, 0%Q)
    (if list_truthy l then take EOS_TGT_DURATION l else replicate EOS_TGT_DURATION 0%Q)
  = padded_with_zero l.
Proof.
  unfold padded_with_zero, EOS_TGT_DURATION. destruct l as [|x l].
  - simpl list_truthy. cbv iota. by rewrite append_while_ge by (rewrite length_replicate; lia).
  - simpl list_truthy. cbv iota. rewrite append_while_const, length_take.
    do 2 f_equal. lia.
Qed.

Lemma pad_loop_last (d : Q) (l : list Q) :
  append_while EOS_TGT_DURATION (λ l, List.last l d)
    (if list_truthy l then take EOS_TGT_DURATION l else replicate EOS_TGT_DURATION d)
  = padded_with_last d l.
Proof.
  unfold padded_with_last, EOS_TGT_DURATION. destruct l as [|x l].
  - simpl list_truthy. cbv iota. by rewrite append_while_ge by (rewrite length_replicate; lia).
  - simpl list_truthy. cbv iota. rewrite append_while_last, length_take.
    destruct (decide (length (x :: l) ≤ 48)) as [Hle|Hgt].
    + rewrite last_take_all by done. do 2 f_equal. lia.
    + replace (48 - 48 `min` length (x :: l)) with 0 by lia.
      replace (48 - length (x :: l)) with 0 by lia. reflexivity.
Qed.

(** C1.  For every state of the client, the four arrays of the [ems]
    object have 48 elements each.  The PV forecast is cut to 48 elements
    and filled up with 0; prices and load are cut to 48 elements and filled
    up with their last element, or with 0.30 and 400 when they are empty;
    the price array of the request holds these prices divided by 1000, and
    the feed-in array holds 48 times the configured feed-in price divided
    by 1000. *)
Theorem build_optimization_request_ems
    (config : gmap string Q) (eos_at_least_0_0_2 : bool) (data : EOSData.t) :
  let ems := Request.ems (_build_optimization_request config eos_at_least_0_0_2 data) in
  let prices := padded_with_last DEFAULT_PRICE (EOSData.prices data) in
  let feed_in := config_get config CONF_FEED_IN_PRICE DEFAULT_FEED_IN_PRICE in
  (length (Ems.pv_prognose_wh ems) = 48 ∧
   length (Ems.strompreis_euro_pro_wh ems) = 48 ∧
   length (Ems.einspeiseverguetung_euro_pro_wh ems) = 48 ∧
   length (Ems.gesamtlast ems) = 48) ∧
  Ems.pv_prognose_wh ems = padded_with_zero (EOSData.pv_forecast data) ∧
  Ems.gesamtlast ems = padded_with_last DEFAULT_LOAD (EOSData.load_profile data) ∧
  (∀ i, i < 48 →
        ∃ p, prices !! i = Some p ∧
             Ems.strompreis_euro_pro_wh ems !! i = Some (p / 1000)%Q) ∧
  Ems.einspeiseverguetung_euro_pro_wh ems = replicate 48 (feed_in / 1000)%Q.
Proof.
  intros ems prices feed_in. subst ems. unfold _build_optimization_request.
  cbn [Request.ems Ems.pv_prognose_wh Ems.strompreis_euro_pro_wh
       Ems.einspeiseverguetung_euro_pro_wh Ems.gesamtlast].
  rewrite pad_loop_zero, !pad_loop_last. fold prices.
  split_and!; try done.
  - apply length_padded_with_zero.
  - rewrite length_fmap. apply length_padded_with_last.
  - apply length_padded_with_last.
  - intros i Hi.
    destruct (lookup_lt_is_Some_2 prices i) as [p Hp].
    { unfold prices. rewrite length_padded_with_last. done. }
    exists p. split; [done|]. by rewrite list_lookup_fmap, Hp.
Qed.

Lemma build_optimization_request_ems_witness :
  let data :=
    EOSData.mk ControlState.new BatteryState.new OptimizationResult.new
      SavingsTracker.new [120; 80]%Q [0.25; 0.31]%Q [] [] None None "unknown"
      None false None in
  let ems := Request.ems (_build_optimization_request ∅ false data) in
  Ems.strompreis_euro_pro_wh ems !! 1 = Some (0.31 / 1000)%Q ∧
  Ems.strompreis_euro_pro_wh ems !! 47 = Some (0.31 / 1000)%Q ∧
  Ems.pv_prognose_wh ems !! 2 = Some 0%Q ∧
  Ems.gesamtlast ems !! 0 = Some 400%Q.
Proof.
  intros data ems.
  pose proof (build_optimization_request_ems ∅ false data)
    as (_ & Hpv & Hload & Hprice & _).
  fold ems in Hpv, Hload, Hprice.
  split; [|split; [|split]].
  - destruct (Hprice 1) as (p & Hp & ->); [lia|].
    vm_compute in Hp. by injection Hp as <-.
  - destruct (Hprice 47) as (p & Hp & ->); [lia|].
    vm_compute in Hp. by injection Hp as <-.
  - rewrite Hpv. reflexivity.
  - rewrite Hload. reflexivity.
Defined.

(** ** [_update_control_state] *)

(** C3.  With the three schedules of the optimization result non-empty,
    [_update_control_state] sets [ac_charge_demand] to the first AC charge
    factor times the configured maximal grid charge rate and
    [dc_charge_demand] to the first DC charge factor times the configured
    maximal PV charge rate; when no override is active the mode becomes
    [CHARGE_FROM_GRID] if the new [ac_charge_demand] is positive,
    otherwise [AVOID_DISCHARGE] if the first entry of [discharge_allowed]
    is false, otherwise [DISCHARGE_ALLOWED]. *)
Theorem update_control_state_sets
    (config : gmap string Q) (data : EOSData.t)
    (a d : Q) (b : bool) (acs dcs : list Q) (das : list bool) :
  OptimizationResult.ac_charge (EOSData.optimization data) = a :: acs →
  OptimizationResult.dc_charge (EOSData.optimization data) = d :: dcs →
  OptimizationResult.discharge_allowed (EOSData.optimization data) = b :: das →
  let control := EOSData.control (_update_control_state config data) in
  ControlState.ac_charge_demand control
    = (a * config_get config CONF_MAX_GRID_CHARGE_RATE DEFAULT_BATTERY_MAX_CHARGE)%Q ∧
  ControlState.dc_charge_demand control
    = (d * config_get config CONF_MAX_PV_CHARGE_RATE DEFAULT_BATTERY_MAX_CHARGE)%Q ∧
  (ControlState.override_active (EOSData.control data) = false →
   ControlState.mode control
     = if Qlt_bool 0 (ControlState.ac_charge_demand control) then CHARGE_FROM_GRID
       else if b then DISCHARGE_ALLOWED else AVOID_DISCHARGE).
Proof.
  intros Hac Hdc Hda control. subst control.
  unfold _update_control_state. rewrite Hac, Hdc, Hda.
  cbn [list_truthy negb orb ControlState.set_ac_charge_demand
       ControlState.set_dc_charge_demand ControlState.set_discharge_allowed
       ControlState.override_active ControlState.ac_charge_demand
       ControlState.discharge_allowed].
  destruct (ControlState.override_active (EOSData.control data)) eqn:Hov;
    cbn [negb].
  - split_and!; [done | done | intros; discriminate].
  - destruct (Qlt_bool 0 _) eqn:Hpos; [|destruct b]; cbn;
      rewrite ?Hpos; split_and!; done.
Qed.

Lemma update_control_state_sets_witness :
  let opt :=
    OptimizationResult.mk [0.5]%Q [1]%Q [false] [] 0 0 [] [] [] None None in
  let data := EOSData.set_optimization opt EOSData.new in
  let control := EOSData.control (_update_control_state ∅ data) in
  ControlState.ac_charge_demand control = (0.5 * 5000)%Q ∧
  ControlState.dc_charge_demand control = (1 * 5000)%Q ∧
  ControlState.mode control = CHARGE_FROM_GRID.
Proof.
  intros opt data control.
  destruct (update_control_state_sets ∅ data 0.5%Q 1%Q false [] [] [])
    as (Hac & Hdc & Hmode); [reflexivity..|].
  fold control in Hac, Hdc, Hmode.
  split_and!; [exact Hac | exact Hdc | by rewrite Hmode].
Defined.

(** C9.  If one of the three schedules of the optimization result is
    empty, [_update_control_state] leaves the whole state as it is, and so
    the mode, both charge demands and the discharge permission of the
    control state. *)
Theorem update_control_state_frame (config : gmap string Q) (data : EOSData.t) :
  OptimizationResult.ac_charge (EOSData.optimization data) = []
  ∨ OptimizationResult.dc_charge (EOSData.optimization data) = []
  ∨ OptimizationResult.discharge_allowed (EOSData.optimization data) = [] →
  _update_control_state config data = data ∧
  let control := EOSData.control data in
  let control' := EOSData.control (_update_control_state config data) in
  ControlState.mode control' = ControlState.mode control ∧
  ControlState.ac_charge_demand control' = ControlState.ac_charge_demand control ∧
  ControlState.dc_charge_demand control' = ControlState.dc_charge_demand control ∧
  ControlState.discharge_allowed control' = ControlState.discharge_allowed control.
Proof.
  intros Hempty.
  assert (_update_control_state config data = data) as Heq.
  { unfold _update_control_state.
    destruct Hempty as [-> | [-> | ->]]; cbn [list_truthy negb orb];
      rewrite ?orb_true_r; done. }
  rewrite Heq. done.
Qed.

Lemma update_control_state_frame_witness :
  let opt :=
    OptimizationResult.mk [0.5]%Q [] [true] [] 0 0 [] [] [] None None in
  let control := ControlState.mk AVOID_DISCHARGE 1200 300 false false None 0 in
  let data := EOSData.set_control control (EOSData.set_optimization opt EOSData.new) in
  EOSData.control (_update_control_state ∅ data) = control.
Proof.
  intros opt control data.
  destruct (update_control_state_frame ∅ data) as [-> _]; [|reflexivity].
  right; left; reflexivity.
Defined.

(** ** [async_run_optimization] *)

Section RunOptimizationFacts.
Variable config : gmap string Q.
Variable charging_curve_enabled : bool.
Variable eos_at_least_0_0_2 : bool.
Variable _update_battery_soc : M unit.
Variable _update_load_data : M unit.
Variable _update_pv_forecast : M unit.
Variable _update_prices : M unit.
Variable _get_session : outcome unit.
Variable now : Q.
Variable current_hour : Z.
Variable post : Request.t → Z → outcome HttpResponse.t.
Variable _fire_control_event : EOSData.t → outcome unit.

Let prepare : M Request.t :=
  run_optimization_prepare config charging_curve_enabled eos_at_least_0_0_2
    _update_battery_soc _update_load_data _update_pv_forecast _update_prices
    _get_session.
Let try_block : M unit :=
  run_optimization_try config charging_curve_enabled eos_at_least_0_0_2
    _update_battery_soc _update_load_data _update_pv_forecast _update_prices
    _get_session now current_hour post _fire_control_event.
Let run : M OptimizationResult.t :=
  async_run_optimization config charging_curve_enabled eos_at_least_0_0_2
    _update_battery_soc _update_load_data _update_pv_forecast _update_prices
    _get_session now current_hour post _fire_control_event.

(** The state in which the method leaves [self._data], and what it
    returns or raises, read off the outcome of the [try] block. *)
Lemma async_run_optimization_unfold (data : EOSData.t) :
  run data =
    match try_block data with
    | (Return _, d) => (Return (EOSData.optimization d), d)
    | (Raise e, d) => raised_in_try e d
    end.
Proof.
  unfold run, async_run_optimization, try_except, run_optimization_except,
    raised_in_try, handled, state_after, modify, gets, lift, mbind, M_bind.
  fold try_block. destruct (try_block data) as [[[]|e] d]; [done|].
  destruct (Exn.is_timeout_error e), (Exn.is_client_error e),
    (Exn.is_exception e); done.
Qed.

Lemma run_optimization_try_unfold (data : EOSData.t) :
  try_block data =
    match prepare data with
    | (Raise e, d) => (Raise e, d)
    | (Return request_data, d) =>
      match post request_data current_hour with
      | Raise e => (Raise e, d)
      | Return resp =>
        if bool_decide (HttpResponse.status resp = 200%Z) then
          match HttpResponse.json resp with
          | Raise e => (Raise e, d)
          | Return response_data =>
            let parsed :=
              _parse_optimization_response now current_hour response_data d in
            let d :=
              EOSData.set_optimization_state "ok"
                (EOSData.set_next_optimization
                   (Some (now + 60 * config_get config CONF_REFRESH_TIME
                                       DEFAULT_REFRESH_TIME)%Q)
                   (EOSData.set_last_optimization (Some now)
                      (_update_control_state config
                         (EOSData.set_optimization parsed.1 parsed.2)))) in
            (_fire_control_event d, d)
          end
        else
          match HttpResponse.text resp with
          | Raise e => (Raise e, d)
          | Return _ => (Return (), EOSData.set_optimization_state "error" d)
          end
      end
    end.
Proof.
  unfold try_block, run_optimization_try, mbind, M_bind, lift, modify, gets.
  fold prepare. destruct (prepare data) as [[request_data|e] d]; [|done].
  destruct (post request_data current_hour) as [resp|e]; [|done].
  case_bool_decide.
  - destruct (HttpResponse.json resp) as [response_data|e]; [|done].
    destruct (_parse_optimization_response now current_hour response_data d)
      as [opt d1]. simpl.
    by destruct (_fire_control_event _).
  - by destruct (HttpResponse.text resp).
Qed.

Lemma optimization_update_control_state (data : EOSData.t) :
  EOSData.optimization (_update_control_state config data) = EOSData.optimization data.
Proof. unfold _update_control_state. by destruct (_ || _). Qed.

(** C2.  What [async_run_optimization] hands to its caller, for every
    state of the client and every behaviour of its surroundings.  An
    exception raised while the request is prepared, by the request itself,
    while the answer is read or by the control event is taken by a handler
    when it is an instance of [Exception]: the method then returns, with
    the state ["timeout"] for a timeout, ["connection_error"] for a
    connection error and ["error"] otherwise.  An exception that is no
    instance of [Exception] reaches the caller, and nothing is written.
    A status other than 200 whose text is read leaves ["error"] and
    nothing else is written: nothing is parsed.  A status of 200 whose body
    is read and whose control event is fired leaves ["ok"], the parsed
    result and the control state made of it.  The method returns with the
    state ["ok"] only after a status of 200. *)
Theorem async_run_optimization_outcome (data : EOSData.t) :
  (∀ e d, prepare data = (Raise e, d) → run data = raised_in_try e d) ∧
  (∀ request_data d, prepare data = (Return request_data, d) →
     (∀ e, post request_data current_hour = Raise e →
           run data = raised_in_try e d) ∧
     (∀ resp, post request_data current_hour = Return resp →
        (HttpResponse.status resp ≠ 200%Z →
           (∀ t, HttpResponse.text resp = Return t →
                 run data = (Return (EOSData.optimization d),
                             EOSData.set_optimization_state "error" d)) ∧
           (∀ e, HttpResponse.text resp = Raise e →
                 run data = raised_in_try e d)) ∧
        (HttpResponse.status resp = 200%Z →
           (∀ e, HttpResponse.json resp = Raise e →
                 run data = raised_in_try e d) ∧
           (∀ response_data, HttpResponse.json resp = Return response_data →
              let parsed :=
                _parse_optimization_response now current_hour response_data d in
              let d_ok :=
                EOSData.set_optimization_state "ok"
                  (EOSData.set_next_optimization
                     (Some (now + 60 * config_get config CONF_REFRESH_TIME
                                         DEFAULT_REFRESH_TIME)%Q)
                     (EOSData.set_last_optimization (Some now)
                        (_update_control_state config
                           (EOSData.set_optimization parsed.1 parsed.2)))) in
              EOSData.optimization d_ok = parsed.1 ∧
              (∀ u, _fire_control_event d_ok = Return u →
                    run data = (Return parsed.1, d_ok)) ∧
              (∀ e, _fire_control_event d_ok = Raise e →
                    run data = raised_in_try e d_ok))))) ∧
  (∀ e data', run data = (Raise e, data') → handled e = false) ∧
  (∀ opt data', run data = (Return opt, data') →
     EOSData.optimization_state data' = "ok" →
     ∃ request_data d resp,
       prepare data = (Return request_data, d) ∧
       post request_data current_hour = Return resp ∧
       HttpResponse.status resp = 200%Z).
Proof.
  rewrite async_run_optimization_unfold, run_optimization_try_unfold.
  assert (∀ e d opt data',
            raised_in_try e d = (Return opt, data') →
            EOSData.optimization_state data' ≠ "ok") as Hnok.
  { intros e d opt data'. unfold raised_in_try, state_after.
    destruct (handled e); [|done]. intros [= _ <-].
    by destruct (Exn.is_timeout_error e), (Exn.is_client_error e). }
  assert (∀ e d e' data',
            raised_in_try e d = (Raise e', data') → handled e' = false) as Hraised.
  { intros e d e' data'. unfold raised_in_try.
    destruct (handled e) eqn:He; [done|]. by intros [= <- _]. }
  destruct (prepare data) as [[request_data|e] d] eqn:Hprep.
  2:{ split_and!; [by intros ?? [= <- <-] | done | apply Hraised |].
      intros opt data' Hrun Hok. by destruct (Hnok _ _ _ _ Hrun). }
  destruct (post request_data current_hour) as [resp|e] eqn:Hpost.
  2:{ split_and!; [done | | apply Hraised |].
      - intros ?? [= <- <-]. rewrite Hpost. split; [by intros ? [= <-]|done].
      - intros opt data' Hrun Hok. by destruct (Hnok _ _ _ _ Hrun). }
  case_bool_decide as Hstatus.
  - destruct (HttpResponse.json resp) as [response_data|e] eqn:Hjson.
    2:{ split_and!; [done | | apply Hraised |].
        - intros ?? [= <- <-]. rewrite Hpost. split; [done|]. intros ? [= <-].
          split; [done|]. intros _. rewrite Hjson.
          split; [by intros ? [= <-]|done].
        - intros opt data' Hrun Hok. by destruct (Hnok _ _ _ _ Hrun). }
    cbv zeta.
    set (parsed := _parse_optimization_response now current_hour response_data d).
    set (d_ok := EOSData.set_optimization_state "ok" _).
    assert (EOSData.optimization d_ok = parsed.1) as Hopt.
    { subst d_ok. cbn. by rewrite optimization_update_control_state. }
    destruct (_fire_control_event d_ok) as [[]|e] eqn:Hfire.
    + rewrite Hopt. split_and!; [done | | done |].
      * intros ?? [= <- <-]. rewrite Hpost. split; [done|]. intros ? [= <-].
        split; [done|]. intros _. rewrite Hjson. split; [done|]. intros ? [= <-].
        fold parsed d_ok. rewrite Hfire. split; [done|]. split; [|done].
        by intros [].
      * intros opt data' _ _. by exists request_data, d, resp.
    + split_and!; [done | | apply Hraised |].
      * intros ?? [= <- <-]. rewrite Hpost. split; [done|]. intros ? [= <-].
        split; [done|]. intros _. rewrite Hjson. split; [done|]. intros ? [= <-].
        fold parsed d_ok. rewrite Hfire. split; [done|].
        split; [done|]. by intros ? [= <-].
      * intros opt data' _ _. by exists request_data, d, resp.
  - destruct (HttpResponse.text resp) as [t|e] eqn:Htext.
    + split_and!; [done | | done |].
      * intros ?? [= <- <-]. rewrite Hpost. split; [done|]. intros ? [= <-].
        split; [|done]. intros _. rewrite Htext. split; [by intros ? [= <-]|done].
      * by intros opt data' [= _ <-].
    + split_and!; [done | | apply Hraised |].
      * intros ?? [= <- <-]. rewrite Hpost. split; [done|]. intros ? [= <-].
        split; [|done]. intros _. rewrite Htext. split; [done|by intros ? [= <-]].
      * intros opt data' Hrun Hok. by destruct (Hnok _ _ _ _ Hrun).
Qed.
End RunOptimizationFacts.

(** A server that does not answer in time: the caller gets a result back
    and the state reads ["timeout"]. *)
Lemma async_run_optimization_outcome_witness :
  let quiet : M unit := mret () in
  let post : Request.t → Z → outcome HttpResponse.t :=
    λ _ _, Raise (Exn.mk true false true) in
  ∃ opt data',
    async_run_optimization ∅ false false quiet quiet quiet quiet (Return ())
      0%Q 7%Z post (λ _, Return ()) EOSData.new = (Return opt, data') ∧
    EOSData.optimization_state data' = "timeout".
Proof.
  intros quiet post.
  destruct (async_run_optimization_outcome ∅ false false quiet quiet quiet quiet
              (Return ()) 0%Q 7%Z post (λ _, Return ()) EOSData.new)
    as (_ & Hsent & _).
  edestruct Hsent as [Hraise _]; [reflexivity|].
  rewrite (Hraise (Exn.mk true false true)) by reflexivity.
  by eexists _, _.
Defined.

(** The task is cancelled while it waits for the answer of the server: the
    [CancelledError] passes the three handlers and reaches the caller, and
    the state reads what it read before. *)
Lemma async_run_optimization_cancelled :
  let quiet : M unit := mret () in
  let post : Request.t → Z → outcome HttpResponse.t :=
    λ _ _, Raise CancelledError in
  ∃ data',
    async_run_optimization ∅ false false quiet quiet quiet quiet (Return ())
      0%Q 7%Z post (λ _, Return ()) EOSData.new = (Raise CancelledError, data') ∧
    EOSData.optimization_state data' = EOSData.optimization_state EOSData.new.
Proof. intros quiet post. by eexists. Qed.

(** ** [_set_evcc_mode_if_changed] *)

Lemma successful_modes_snoc calls mode answer :
  successful_modes (calls ++ [(mode, answer)])
  = successful_modes calls ++ match answer with ApiTrue => [mode] | _ => [] end.
Proof.
  unfold successful_modes. rewrite omap_app. f_equal. by destruct answer.
Qed.

Lemma no_repeat_snoc l m :
  no_repeat l → last l ≠ Some m → no_repeat (l ++ [m]).
Proof.
  intros Hl Hlast i a b Ha Hb.
  destruct (decide (S i < length l)) as [Hlt|Hge].
  - rewrite lookup_app_l in Ha by lia. rewrite lookup_app_l in Hb by lia. eauto.
  - assert (S i = length l) as Hi.
    { apply lookup_lt_Some in Hb. rewrite length_app in Hb. simpl in Hb. lia. }
    rewrite lookup_app_l in Ha by lia.
    rewrite Hi, lookup_app_r in Hb by lia.
    rewrite Nat.sub_diag in Hb. injection Hb as <-.
    intros ->. apply Hlast. rewrite last_lookup, <- Hi. done.
Qed.

Lemma evcc_inv_step evcc_mode answer st :
  evcc_inv st → evcc_inv (_set_evcc_mode_if_changed evcc_mode answer st).
Proof.
  destruct st as [self calls]. intros [Hlast Hrep].
  unfold _set_evcc_mode_if_changed. case_bool_decide as Hsame; [done|].
  unfold evcc_inv. destruct answer; cbn [fst snd] in *;
    rewrite successful_modes_snoc, ?app_nil_r; try done.
  split.
  - by rewrite last_snoc.
  - apply no_repeat_snoc; [done|]. by rewrite <- Hlast.
Qed.

Lemma evcc_inv_cycles cycles st : evcc_inv st → evcc_inv (sync_cycles cycles st).
Proof.
  revert st. induction cycles as [|c cycles IH]; intros st Hst; [done|].
  apply IH. by apply evcc_inv_step.
Qed.

(** C10.  A call of the API is issued exactly when the mode just
    computed differs from the mode that the coordinator remembers, and the
    remembered mode changes only to the mode of a call that succeeded.
    Hence, for a coordinator that starts without a remembered mode and for
    every sequence of sync cycles, the remembered mode is that of the last
    successful call, and two successful calls in a row never carry the
    same mode. *)
Theorem set_evcc_mode_if_changed_idempotent
    (self : Coordinator.t) (cycles : list (string * api_answer)) :
  Coordinator._last_evcc_mode self = None →
  (∀ evcc_mode answer (st : Coordinator.t * list api_call),
     let st' := _set_evcc_mode_if_changed evcc_mode answer st in
     (Coordinator._last_evcc_mode st.1 = Some evcc_mode → st' = st) ∧
     (Coordinator._last_evcc_mode st.1 ≠ Some evcc_mode →
        st'.2 = st.2 ++ [(evcc_mode, answer)]) ∧
     (Coordinator._last_evcc_mode st'.1 ≠ Coordinator._last_evcc_mode st.1 →
        answer = ApiTrue ∧ Coordinator._last_evcc_mode st'.1 = Some evcc_mode ∧
        st'.2 = st.2 ++ [(evcc_mode, ApiTrue)])) ∧
  let st := sync_cycles cycles (self, []) in
  Coordinator._last_evcc_mode st.1 = last (successful_modes st.2) ∧
  no_repeat (successful_modes st.2).
Proof.
  intros Hnone. split.
  - intros evcc_mode answer [self' calls]. cbn [fst snd].
    unfold _set_evcc_mode_if_changed.
    case_bool_decide as Hsame.
    + split_and!; [done | intros Hne; by rewrite <- Hsame in Hne | done].
    + destruct answer; cbn [fst snd]; split_and!;
        try done; intros Heq; by rewrite Heq in Hsame.
  - apply (evcc_inv_cycles cycles (self, [])). split; [done|].
    intros i m m' Hm. by destruct i.
Qed.

Lemma set_evcc_mode_if_changed_idempotent_witness :
  let self := Coordinator.mk None None 10000 0.08 false in
  let cycles :=
    [("hold", ApiTrue); ("hold", ApiTrue); ("charge", ApiFalse);
     ("charge", ApiTrue); ("charge", ApiRaises); ("normal", ApiTrue)] in
  let st := sync_cycles cycles (self, []) in
  st.2 = [("hold", ApiTrue); ("charge", ApiFalse); ("charge", ApiTrue);
          ("normal", ApiTrue)] ∧
  no_repeat (successful_modes st.2).
Proof.
  intros self cycles st. split; [reflexivity|].
  destruct (set_evcc_mode_if_changed_idempotent self cycles) as (_ & _ & Hrep);
    [reflexivity | exact Hrep].
Defined.

(** ** [_update_savings] *)

Lemma Qlt_bool_true a b : Qlt_bool a b = true ↔ (a < b)%Q.
Proof.
  unfold Qlt_bool. rewrite negb_true_iff, <- not_true_iff_false, Qle_bool_iff.
  split; [apply Qnot_le_lt | apply Qlt_not_le].
Qed.

Lemma Qlt_bool_false a b : Qlt_bool a b = false ↔ (b <= a)%Q.
Proof.
  unfold Qlt_bool. rewrite negb_false_iff, Qle_bool_iff. done.
Qed.

(** Where [_update_savings] divides by the total of the charged energy,
    the total differs from zero, so that Python's [/] does not raise: the
    division is reached with [energy_kwh > 0] and [old_total > 0] only,
    and a total of zero would make [old_total] the negative of
    [energy_kwh]. *)
Lemma update_savings_divisor (total_charged_kwh energy_kwh : float) :
  (0 <? energy_kwh)%float = true →
  (0 <? total_charged_kwh - energy_kwh)%float = true →
  (total_charged_kwh =? 0)%float = false.
Proof.
  intros Hcharged Hold. destruct (total_charged_kwh =? 0)%float eqn:Hzero; [|done].
  exfalso.
  rewrite FloatAxioms.ltb_spec in Hcharged, Hold.
  rewrite FloatAxioms.eqb_spec in Hzero. rewrite FloatAxioms.sub_spec in Hold.
  change (Prim2SF 0) with (S754_zero false) in *.
  destruct (Prim2SF total_charged_kwh) as [s|s| |s m x]; try done;
    destruct (Prim2SF energy_kwh) as [s'|s'| |s' m' x']; try done;
    destruct s, s'; done.
Qed.

(** C7, as the code has it, in the floats of the interpreter.  Let the
    price list be non-empty and a previous state of charge be known, and
    let [energy_kwh] be the float that the method computes.  When
    [abs(energy_kwh) < 0.01] holds, nothing is booked, whether the battery
    charged or discharged.  When it does not hold and [energy_kwh > 0]
    does not hold either, and the average charge price is positive, the
    total, the session and today's savings each grow by the current price
    minus the average charge price, times [abs(energy_kwh)] (today's
    savings starting from zero on a new day).  When it does not hold and
    [energy_kwh > 0] holds, the average charge price becomes
    [(avg * old_total + charge_price * energy_kwh) / total], with [total]
    the energy charged before plus [energy_kwh] and [old_total] that sum
    minus [energy_kwh] again, each operation rounded, or the charge price
    itself when [old_total > 0] does not hold; the charge price is the
    current price in mode CHARGE_FROM_GRID and the configured feed-in
    price otherwise. *)
Theorem update_savings_amounts
    (today : string) (self : Float64.Coordinator.t) (data : Float64.EOSData.t)
    (current_price last_soc : float) (rest : list float) :
  Float64.EOSData.prices data = current_price :: rest →
  Float64.Coordinator._last_soc self = Some last_soc →
  let energy_kwh := energy_kwh_float self last_soc (Float64.EOSData.soc data) in
  let before := Float64.EOSData.savings data in
  let after := Float64.EOSData.savings (Float64._update_savings today (self, data)).2 in
  let avg := Float64.SavingsTracker.avg_charge_price before in
  ((PrimFloat.abs energy_kwh <? 0.01)%float = true →
     after = Float64.reset_today today before) ∧
  ((PrimFloat.abs energy_kwh <? 0.01)%float = false →
   (0 <? energy_kwh)%float = false → (0 <? avg)%float = true →
     let amount := ((current_price - avg) * PrimFloat.abs energy_kwh)%float in
     Float64.SavingsTracker.total_savings_eur after
       = (Float64.SavingsTracker.total_savings_eur before + amount)%float ∧
     Float64.SavingsTracker.session_savings_eur after
       = (Float64.SavingsTracker.session_savings_eur before + amount)%float ∧
     Float64.SavingsTracker.today_savings_eur after
       = ((if bool_decide (Float64.SavingsTracker.today_date before = today)
           then Float64.SavingsTracker.today_savings_eur before else 0) + amount)%float) ∧
  ((PrimFloat.abs energy_kwh <? 0.01)%float = false →
   (0 <? energy_kwh)%float = true →
     let total :=
       (Float64.SavingsTracker.total_charged_kwh before + energy_kwh)%float in
     let old_total := (total - energy_kwh)%float in
     let charge_price := charge_price_float self data current_price in
     Float64.SavingsTracker.total_charged_kwh after = total ∧
     Float64.SavingsTracker.avg_charge_price after
       = if (0 <? old_total)%float
         then ((avg * old_total + charge_price * energy_kwh) / total)%float
         else charge_price).
Proof.
  intros Hprices Hlast energy_kwh before after avg.
  assert (Float64.SavingsTracker.avg_charge_price (Float64.reset_today today before) = avg
          ∧ Float64.SavingsTracker.total_savings_eur (Float64.reset_today today before)
            = Float64.SavingsTracker.total_savings_eur before
          ∧ Float64.SavingsTracker.session_savings_eur (Float64.reset_today today before)
            = Float64.SavingsTracker.session_savings_eur before
          ∧ Float64.SavingsTracker.total_charged_kwh (Float64.reset_today today before)
            = Float64.SavingsTracker.total_charged_kwh before
          ∧ Float64.SavingsTracker.today_savings_eur (Float64.reset_today today before)
            = (if bool_decide (Float64.SavingsTracker.today_date before = today)
               then Float64.SavingsTracker.today_savings_eur before else 0%float))
    as (Ravg & Rtotal & Rsession & Rcharged & Rtoday).
  { unfold Float64.reset_today. by case_bool_decide. }
  subst after. unfold Float64._update_savings. rewrite Hprices, Hlast.
  fold before.
  change ((Float64.EOSData.soc data - last_soc) / 100
          * Float64.Coordinator._battery_capacity_wh self / 1000)%float with energy_kwh.
  split_and!.
  - by intros ->.
  - intros -> -> Havg. cbn. rewrite Ravg, Rtotal, Rsession, Rtoday, Havg. done.
  - intros -> ->. cbn. rewrite Ravg, Rcharged. done.
Qed.

(** A rise from 50 % to 60 % is booked: the average of 0.20 and 0.40 EUR/kWh
    over 1 kWh each, which the floats make 0.30000000000000004. *)
Lemma update_savings_amounts_witness :
  let st := savings_example_float 50 60 in
  let after := Float64.EOSData.savings (Float64._update_savings "2024-05-01" st).2 in
  Float64.SavingsTracker.avg_charge_price after = 0.30000000000000004%float.
Proof.
  intros st after.
  destruct (update_savings_amounts "2024-05-01" st.1 st.2 0.4%float 50%float [])
    as (_ & _ & Hcharged); [reflexivity..|].
  destruct Hcharged as [_ Havg]; [reflexivity..|].
  exact (eq_trans Havg eq_refl).
Defined.

(** C7 as it is worded fails for a small charge: a rise of the state of
    charge from 50 % to 50.05 % is a charge of about 0.005 kWh, which the
    method skips, and the average charge price stays at 0.20 EUR/kWh
    instead of moving towards the current price. *)
Lemma update_savings_small_charge :
  let st := savings_example_float 50 50.05 in
  let energy_kwh := energy_kwh_float st.1 50 50.05 in
  let after := Float64.EOSData.savings (Float64._update_savings "2024-05-01" st).2 in
  (0 <? energy_kwh)%float = true ∧
  Float64.SavingsTracker.avg_charge_price after = 0.2%float ∧
  (Float64.SavingsTracker.avg_charge_price after
   <? (0.2 * (1 + energy_kwh - energy_kwh) + 0.4 * energy_kwh) / (1 + energy_kwh))%float
  = true.
Proof. intros st energy_kwh after. by split_and!. Qed.

(** It fails at the threshold, too: a fall of the state of charge from
    1.2 % to 1.1 % of 10 kWh is a discharge of 0.01 kWh, but the floats make
    it 0.009999999999999988, which is below the float 0.01: nothing is
    booked although the average charge price is positive. *)
Lemma update_savings_threshold_rounding :
  let st := savings_example_float 1.2 1.1 in
  let energy_kwh := energy_kwh_float st.1 1.2 1.1 in
  let after := Float64.EOSData.savings (Float64._update_savings "2024-05-01" st).2 in
  energy_kwh = (-0.009999999999999988)%float ∧
  (PrimFloat.abs energy_kwh <? 0.01)%float = true ∧
  after = Float64.EOSData.savings st.2.
Proof. intros st energy_kwh after. by split_and!. Qed.

(** ** From the dictionaries to the series *)

Lemma build_hourly_spec (hourly_prices : gmap Z (list Q)) :
  length (build_hourly hourly_prices) = 48 ∧
  ∀ h, h < 48 → build_hourly hourly_prices !! h = Some (hourly_slot hourly_prices h).
Proof.
  unfold build_hourly.
  apply (map_fold_weak_ind
           (λ r m, length r = 48 ∧ ∀ h, h < 48 → r !! h = Some (hourly_slot m h))).
  - split; [apply length_replicate|]. intros h Hh.
    unfold hourly_slot. rewrite lookup_empty. by apply lookup_replicate_2.
  - intros i x m r Hi [Hlen Hr]. split.
    + destruct (_ && _); [by rewrite length_insert | done].
    + intros h Hh. unfold hourly_slot.
      destruct (decide (i = Z.of_nat h)) as [->|Hne].
      * rewrite lookup_insert_eq.
        rewrite !bool_decide_eq_true_2 by lia. cbn [andb].
        destruct x as [|p l]; cbn [list_truthy].
        -- rewrite Hr by done. unfold hourly_slot. by rewrite Hi.
        -- rewrite Nat2Z.id. apply list_lookup_insert_eq. lia.
      * rewrite lookup_insert_ne by done. fold (hourly_slot m h).
        destruct (_ && _) eqn:Hc; [|by apply Hr].
        rewrite list_lookup_insert_ne; [by apply Hr|].
        apply andb_prop in Hc as [Hc _]. apply andb_prop in Hc as [Hc _].
        apply bool_decide_eq_true in Hc. lia.
Qed.

Lemma build_15min_spec (prices_15min_dict : gmap Z Q) :
  length (build_15min prices_15min_dict) = 192 ∧
  ∀ i, i < 192 →
       build_15min prices_15min_dict !! i
       = Some (default DEFAULT_PRICE (prices_15min_dict !! Z.of_nat i)).
Proof.
  unfold build_15min.
  apply (map_fold_weak_ind
           (λ r m, length r = 192 ∧
                   ∀ i, i < 192 → r !! i = Some (default DEFAULT_PRICE (m !! Z.of_nat i)))).
  - split; [apply length_replicate|]. intros i Hi.
    rewrite lookup_empty. by apply lookup_replicate_2.
  - intros k x m r Hk [Hlen Hr]. split.
    + destruct (_ && _); [by rewrite length_insert | done].
    + intros i Hi.
      destruct (decide (k = Z.of_nat i)) as [->|Hne].
      * rewrite lookup_insert_eq.
        rewrite !bool_decide_eq_true_2 by lia. cbn [andb default].
        rewrite Nat2Z.id. apply list_lookup_insert_eq. lia.
      * rewrite lookup_insert_ne by done.
        destruct (_ && _) eqn:Hc; [|by apply Hr].
        rewrite list_lookup_insert_ne; [by apply Hr|].
        apply andb_prop in Hc as [Hc _].
        apply bool_decide_eq_true in Hc. lia.
Qed.

(** Every element of the hourly series is the default price or the mean
    of a non-empty list that the dictionary holds. *)
Lemma build_hourly_elem (hourly_prices : gmap Z (list Q)) (x : Q) :
  x ∈ build_hourly hourly_prices →
  x = DEFAULT_PRICE ∨
  ∃ k p l, hourly_prices !! k = Some (p :: l) ∧ x = mean (p :: l).
Proof.
  intros Hx. apply list_elem_of_lookup in Hx as [h Hh].
  destruct (build_hourly_spec hourly_prices) as [Hlen Hslot].
  assert (h < 48) as Hlt by (apply lookup_lt_Some in Hh; lia).
  rewrite Hslot in Hh by done. injection Hh as <-.
  unfold hourly_slot.
  destruct (hourly_prices !! Z.of_nat h) as [[|p l]|] eqn:Hk;
    [by left | right; by eexists _, _, _ | by left].
Qed.

Lemma build_15min_elem (prices_15min_dict : gmap Z Q) (x : Q) :
  x ∈ build_15min prices_15min_dict →
  x = DEFAULT_PRICE ∨ ∃ k, prices_15min_dict !! k = Some x.
Proof.
  intros Hx. apply list_elem_of_lookup in Hx as [i Hi].
  destruct (build_15min_spec prices_15min_dict) as [Hlen Hslot].
  assert (i < 192) as Hlt by (apply lookup_lt_Some in Hi; lia).
  rewrite Hslot in Hi by done. injection Hi as <-.
  destruct (prices_15min_dict !! Z.of_nat i) eqn:Hk; [right; by eexists | by left].
Qed.

Lemma expand_hourly_elem (hourly_prices : list Q) (x : Q) :
  x ∈ _expand_hourly_to_15min hourly_prices → x = DEFAULT_PRICE ∨ x ∈ hourly_prices.
Proof.
  rewrite expand_hourly_unfold, elem_of_app, elem_of_replicate.
  intros [Hx | [-> _]]; [|by left]. right.
  apply list_elem_of_lookup in Hx as [i Hi]. rewrite lookup_bind_four in Hi.
  apply list_elem_of_lookup_2 in Hi. by apply (subseteq_take 48).
Qed.

(** ** [_parse_entsoe_prices_dual] *)

Lemma setdefault_empty_lookup hour_idx (hourly_prices : gmap Z (list Q)) k l :
  setdefault_empty hour_idx hourly_prices !! k = Some l →
  l = [] ∨ hourly_prices !! k = Some l.
Proof.
  unfold setdefault_empty. destruct (hourly_prices !! hour_idx) eqn:Hh; [by right|].
  destruct (decide (hour_idx = k)) as [->|Hne].
  - rewrite lookup_insert_eq. intros [= <-]. by left.
  - rewrite lookup_insert_ne by done. by right.
Qed.

Lemma append_price_holds (P : Q → Prop) hour_idx p (hourly_prices : gmap Z (list Q)) :
  P p →
  (∀ k l, hourly_prices !! k = Some l → Forall P l) →
  ∀ k l, alter (λ l, l ++ [p]) hour_idx (setdefault_empty hour_idx hourly_prices) !! k
         = Some l → Forall P l.
Proof.
  intros Hp Hall k l. rewrite lookup_alter. case_decide as Hk.
  - subst k. destruct (setdefault_empty hour_idx hourly_prices !! hour_idx)
      as [l0|] eqn:Hl0; [|done].
    intros [= <-]. apply Forall_app. split; [|by constructor].
    apply setdefault_empty_lookup in Hl0 as [->|Hl0]; [constructor | by eapply Hall].
  - intros [->|Hl]%setdefault_empty_lookup; [constructor | by eapply Hall].
Qed.

Lemma entsoe_price_value_cases v :
  ((1 < v)%Q → entsoe_price_value v = (v / 1000)%Q) ∧
  ((v <= 1)%Q → entsoe_price_value v = v).
Proof.
  unfold entsoe_price_value. split; intros H.
  - by apply Qlt_bool_true in H as ->.
  - by apply Qlt_bool_false in H as ->.
Qed.

Lemma entsoe_entry_holds data now dicts entry :
  entry ∈ data →
  dicts_hold (entsoe_stored data) dicts →
  dicts_hold (entsoe_stored data) (entsoe_entry now dicts entry).
Proof.
  intros Hin Hd. destruct dicts as [hourly_prices prices_15min_dict].
  pose proof Hd as [Hh H15]. cbn [fst snd] in Hh, H15.
  unfold entsoe_entry.
  destruct (negb _ || is_VNone _) eqn:Hskip; [done|].
  destruct (fromisoformat _) as [entry_time|] eqn:Htime; [|done].
  destruct (py_float _) as [v|] eqn:Hv; [|done].
  assert (entsoe_stored data (entsoe_price_value v)) as Hst.
  { exists entry, v. split; [done|]. split; [|apply entsoe_price_value_cases].
    unfold entsoe_parsed. by rewrite Hskip, Htime. }
  set (d15 := if _ && _ then _ else prices_15min_dict).
  assert (∀ k x, d15 !! k = Some x → entsoe_stored data x) as H15'.
  { subst d15. intros k x.
    destruct (_ && _); [|apply H15].
    case_bool_decide; [|apply H15].
    destruct (decide (0 `max` py_int ((entry_time - now) / 60 / 15) = k)%Z) as [<-|Hne].
    - rewrite lookup_insert_eq. by intros [= <-].
    - rewrite lookup_insert_ne by done. apply H15. }
  clearbody d15.
  destruct (Qle_bool _ _ && _); [|by split].
  case_bool_decide; [|by split].
  split; [|done]. cbn [fst]. by apply append_price_holds.
Qed.

Lemma entsoe_loop_holds data now entries dicts :
  entries ⊆ data →
  dicts_hold (entsoe_stored data) dicts →
  dicts_hold (entsoe_stored data) (foldl (entsoe_entry now) dicts entries).
Proof.
  revert dicts. induction entries as [|entry entries IH]; intros dicts Hsub Hd; [done|].
  apply IH.
  - intros e He. apply Hsub. by right.
  - apply entsoe_entry_holds; [|done]. apply Hsub. by left.
Qed.

(** The mean of numbers that are at most 1 is at most 1. *)
Lemma py_sum_bound (l : list Q) (a : Q) :
  Forall (λ x, (x <= 1)%Q) l →
  (foldl Qplus a l <= a + inject_Z (Z.of_nat (length l)))%Q.
Proof.
  intros Hl. revert a. induction Hl as [|x l Hx Hl IH]; intros a.
  - cbn [foldl length]. change (inject_Z (Z.of_nat 0)) with 0%Q. lra.
  - cbn [foldl length]. eapply Qle_trans; [apply IH|].
    rewrite Nat2Z.inj_succ, <- Z.add_1_r, inject_Z_plus.
    change (inject_Z 1) with 1%Q. lra.
Qed.

Lemma mean_bound (p : Q) (l : list Q) :
  Forall (λ x, (x <= 1)%Q) (p :: l) → (mean (p :: l) <= 1)%Q.
Proof.
  intros Hl. unfold mean, py_sum.
  assert (0 < inject_Z (Z.of_nat (length (p :: l))))%Q as Hpos.
  { change 0%Q with (inject_Z 0). rewrite <- Zlt_Qlt. cbn [length]. lia. }
  apply Qle_shift_div_r; [done|].
  pose proof (py_sum_bound (p :: l) 0 Hl). lra.
Qed.

(** C5, as the code has it.  Every number that [_parse_entsoe_prices_dual]
    stores for an entry is the price of the entry over 1000 when that
    price is greater than 1, and the price itself otherwise; a slot of the
    hourly or of the 15-minute series holds the default price, such a
    number or the mean of such numbers.  Consequently no price of the two
    series exceeds 1, provided that no entry carries a price above
    1000. *)
Theorem parse_entsoe_prices_stored (data : list (gmap string value)) (now : Q) :
  let series := _parse_entsoe_prices_dual data now in
  (∀ x, x ∈ series.1 ∨ x ∈ series.2 → entsoe_series_value data x) ∧
  ((∀ entry v, entry ∈ data → entsoe_parsed entry = Some v → (v <= 1000)%Q) →
   ∀ x, x ∈ series.1 ∨ x ∈ series.2 → (x <= 1)%Q).
Proof.
  intros series.
  assert (∀ x, x ∈ series.1 ∨ x ∈ series.2 → entsoe_series_value data x) as Hval.
  { subst series. unfold _parse_entsoe_prices_dual.
    pose proof (entsoe_loop_holds data now data (∅, ∅)) as Hd.
    destruct (foldl (entsoe_entry now) (∅, ∅) data) as [hp d15].
    destruct Hd as [Hh H15]; [done | by split; cbn; intros ?? ?%lookup_empty_Some|].
    cbn [fst snd] in Hh, H15. unfold finish_prices_dual. cbn [fst snd].
    assert (∀ x, x ∈ build_hourly hp → entsoe_series_value data x) as Hhourly.
    { intros x [->|(k & p & l & Hk & ->)]%build_hourly_elem; [by left|].
      right; right. exists p, l. split; [by eapply Hh | done]. }
    intros x [Hx|Hx]; [by apply Hhourly|].
    case_bool_decide.
    - apply expand_hourly_elem in Hx as [->|Hx]; [by left | by apply Hhourly].
    - apply build_15min_elem in Hx as [->|[k Hk]]; [by left|].
      right; left. by eapply H15. }
  split; [done|]. intros Hbound.
  assert (∀ x, entsoe_stored data x → (x <= 1)%Q) as Hstored.
  { intros x (entry & v & Hin & Hv & Hgt & Hle).
    specialize (Hbound entry v Hin Hv).
    destruct (Qlt_le_dec 1 v) as [H1|H1].
    - rewrite (Hgt H1). apply Qle_shift_div_r; lra.
    - by rewrite (Hle H1). }
  intros x Hx. destruct (Hval x Hx) as [->|[Hs|(p & l & Hl & ->)]].
  - done.
  - by apply Hstored.
  - apply mean_bound. eapply Forall_impl; [exact Hl | exact Hstored].
Qed.

Lemma parse_entsoe_prices_stored_witness :
  let series := _parse_entsoe_prices_dual entsoe_example 0 in
  ∃ x y, series.2 !! 2 = Some x ∧ (x == 0.0853)%Q ∧ (x <= 1)%Q ∧
         series.1 !! 1 = Some y ∧ (y == 0.25)%Q ∧ (y <= 1)%Q.
Proof.
  intros series.
  destruct (parse_entsoe_prices_stored entsoe_example 0) as [_ Hbound].
  assert (∀ x, x ∈ series.1 ∨ x ∈ series.2 → (x <= 1)%Q) as Hle.
  { apply Hbound. intros entry v Hin Hv.
    unfold entsoe_example in Hin.
    apply elem_of_cons in Hin as [->|Hin];
      [|apply elem_of_cons in Hin as [->|Hin]; [|by apply elem_of_nil in Hin]];
      vm_compute in Hv; injection Hv as <-; vm_compute; discriminate. }
  assert (series.2 !! 2 = Some (853 # 10000)%Q) as H2 by (vm_compute; reflexivity).
  assert (series.1 !! 1 = Some (25 # 100)%Q) as H1 by (vm_compute; reflexivity).
  exists (853 # 10000)%Q, (25 # 100)%Q. split_and!.
  - exact H2.
  - reflexivity.
  - apply Hle. right. by eapply list_elem_of_lookup_2.
  - exact H1.
  - reflexivity.
  - apply Hle. left. by eapply list_elem_of_lookup_2.
Defined.

(** A price of 2000 EUR/MWh, as markets have seen, is stored as
    2 EUR/kWh. *)
Lemma parse_entsoe_price_above_one :
  ¬ entsoe_prices_at_most_one [ {[ "time" := VTime 0; "price" := VNum 2000 ]} ] 0.
Proof.
  intros Hle.
  assert ((2000 # 1000) <= 1)%Q as Habsurd; [|by vm_compute in Habsurd].
  apply Hle. right. apply (list_elem_of_lookup_2 _ 0).
  vm_compute. reflexivity.
Qed.

(** ** [_parse_tibber_prices_dual] *)

Lemma max0_py_int (x : Q) : Z.max 0 (py_int x) = Z.max 0 (Qfloor x).
Proof.
  destruct x as [n d]. unfold py_int, Qfloor. cbn [Qnum Qden].
  destruct (Z_lt_le_dec n 0) as [Hneg|Hpos].
  - assert (n `div` Z.pos d < 0)%Z by (apply Z.div_lt_upper_bound; lia).
    assert (n `quot` Z.pos d <= 0)%Z; [|lia].
    rewrite <- (Z.opp_involutive n), Z.quot_opp_l by lia.
    assert (0 <= (- n) `quot` Z.pos d)%Z; [|lia].
    apply Z.quot_pos; lia.
  - by rewrite Z.quot_div_nonneg by lia.
Qed.

Lemma fromisoformat_truthy v t : fromisoformat v = Some t → truthy v = true.
Proof. by destruct v. Qed.

Lemma tibber_price_link (entry : gmap string value) :
  price_truthy entry →
  py_float (py_or (entry_get entry "price") (entry_get entry "total"))
  = tibber_price entry.
Proof.
  unfold price_truthy, tibber_price, py_or.
  intros [-> | Htrue]; [done|]. rewrite Htrue.
  by destruct (entry_get entry "price").
Qed.

Lemma hour_list_setdefault i hourly_prices k :
  hour_list (setdefault_empty i hourly_prices) k = hour_list hourly_prices k.
Proof.
  unfold hour_list, setdefault_empty.
  destruct (hourly_prices !! i) eqn:Hi; [done|].
  destruct (decide (i = k)) as [->|Hne].
  - by rewrite lookup_insert_eq, Hi.
  - by rewrite lookup_insert_ne.
Qed.

Lemma hour_list_append i p hourly_prices k :
  hour_list (alter (λ l, l ++ [p]) i (setdefault_empty i hourly_prices)) k
  = if decide (i = k) then hour_list hourly_prices k ++ [p]
    else hour_list hourly_prices k.
Proof.
  case_decide as Hk.
  - subst k. unfold hour_list. rewrite lookup_alter_eq.
    unfold setdefault_empty. destruct (hourly_prices !! i) eqn:Hi.
    + by rewrite Hi.
    + by rewrite lookup_insert_eq.
  - unfold hour_list at 1. rewrite lookup_alter_ne by done.
    apply hour_list_setdefault.
Qed.

Lemma hours_window (now t : Q) :
  let hours_diff := ((t - now) / 60 / 60)%Q in
  Qle_bool (-1) hours_diff && Qlt_bool hours_diff 48
  = Qle_bool (-3600) (t - now) && Qlt_bool (t - now) (48 * 3600).
Proof.
  intros hours_diff.
  assert (hours_diff == (t - now) / 3600)%Q as Hh by (unfold hours_diff; field).
  apply eq_true_iff_eq.
  rewrite !andb_true_iff, !Qle_bool_iff, !Qlt_bool_true, Hh.
  split; intros [H1 H2]; split.
  - apply (Qmult_le_r _ _ 3600) in H1; [|done]. field_simplify in H1. lra.
  - apply (Qmult_lt_r _ _ 3600) in H2; [|done]. field_simplify in H2. lra.
  - apply Qle_shift_div_l; lra.
  - apply Qlt_shift_div_r; lra.
Qed.

Lemma hours_window_upper (now t : Q) :
  Qlt_bool ((t - now) / 60 / 60) 48 = true ↔ Qlt_bool (t - now) (48 * 3600) = true.
Proof.
  assert ((t - now) / 60 / 60 == (t - now) / 3600)%Q as Hh by field.
  rewrite !Qlt_bool_true, Hh. split; intros H.
  - apply (Qmult_lt_r _ _ 3600) in H; [|done]. field_simplify in H. lra.
  - apply Qlt_shift_div_r; lra.
Qed.

Lemma hour_index (now t : Q) :
  let hours_diff := ((t - now) / 60 / 60)%Q in
  (hours_diff < 48)%Q →
  (0 `max` py_int hours_diff < 48)%Z ∧
  (0 `max` py_int hours_diff)%Z = Z.of_nat (Z.to_nat (Qfloor ((t - now) / 3600))).
Proof.
  intros hours_diff Hlt.
  assert (hours_diff == (t - now) / 3600)%Q as Hh by (unfold hours_diff; field).
  rewrite max0_py_int, <- Hh.
  assert (Qfloor hours_diff < 48)%Z; [|lia].
  pose proof (Qfloor_le hours_diff) as Hfl.
  rewrite Zlt_Qlt. change (inject_Z 48) with 48%Q. lra.
Qed.

(** One turn of the loop adds to the list of hour [h] what the entry
    contributes to that hour, and nothing else. *)
Lemma tibber_entry_hour (now : Q) (dicts : price_dicts) (entry : gmap string value) (h : nat) :
  price_truthy entry →
  hour_list (tibber_entry now dicts entry).1 (Z.of_nat h)
  = hour_list dicts.1 (Z.of_nat h) ++ option_list (contributes now h entry).
Proof.
  intros Hprice. destruct dicts as [hourly_prices prices_15min_dict].
  pose proof (tibber_price_link entry Hprice) as Hlink.
  unfold tibber_entry, contributes, tibber_time. cbn [fst].
  set (from_str := py_or (entry_get entry "from") (entry_get entry "startsAt")) in *.
  set (price := py_or (entry_get entry "price") (entry_get entry "total")) in *.
  destruct (fromisoformat from_str) as [from_time|] eqn:Htime.
  2:{ cbn. destruct (negb _ || _); cbn; by rewrite app_nil_r. }
  rewrite (fromisoformat_truthy _ _ Htime). cbn [negb orb mbind option_bind].
  rewrite <- Hlink.
  destruct (py_float price) as [p|] eqn:Hp.
  2:{ cbn [mbind option_bind option_list]. rewrite app_nil_r.
      destruct (is_VNone price); [done|].
      destruct (bool_decide _ && bool_decide _); cbn [mbind option_bind];
        [destruct (bool_decide _); cbn [mbind option_bind]; [done|] |];
        (destruct (Qle_bool _ _ && _); [|done]);
        (destruct (bool_decide _); [|done]);
        cbn [fst]; apply hour_list_setdefault. }
  assert (is_VNone price = false) as -> by by destruct price.
  cbn [mbind option_bind].
  set (slots := if bool_decide _ && bool_decide _ then _ else _).
  assert (∃ d15, slots = Some d15) as [d15 ->].
  { subst slots. destruct (_ && _); [|by eexists].
    destruct (bool_decide _); by eexists. }
  rewrite hours_window. unfold hour_of.
  destruct (Qle_bool (-3600) (from_time - now) && _) eqn:Hwin.
  2:{ cbn. by rewrite app_nil_r. }
  cbn [mbind option_bind].
  apply andb_prop in Hwin as [_ Hlt].
  apply hours_window_upper, Qlt_bool_true in Hlt.
  destruct (hour_index now from_time Hlt) as [Hidx Heq].
  rewrite bool_decide_eq_true_2 by done. cbn [fst].
  rewrite hour_list_append, Heq.
  destruct (decide (Z.to_nat (Qfloor ((from_time - now) / 3600)) = h)) as [->|Hne].
  - by rewrite decide_True.
  - rewrite decide_False by lia. cbn. by rewrite app_nil_r.
Qed.

Lemma tibber_loop_hours (now : Q) (data : list (gmap string value))
    (dicts : price_dicts) (h : nat) :
  Forall price_truthy data →
  hour_list (foldl (tibber_entry now) dicts data).1 (Z.of_nat h)
  = hour_list dicts.1 (Z.of_nat h) ++ hour_prices now data h.
Proof.
  intros Hdata. revert dicts.
  induction Hdata as [|entry data Hentry Hdata IH]; intros dicts.
  - cbn. by rewrite app_nil_r.
  - cbn [foldl]. rewrite IH, tibber_entry_hour by done.
    rewrite <- app_assoc. f_equal. unfold hour_prices. cbn [omap list_omap].
    by destruct (contributes now h entry).
Qed.

(** C6 for price lists without a ['price'] that Python takes for false
    (the number 0, the empty string).
    The hourly series has 48 elements; slot [h] holds the arithmetic mean
    of the prices of the entries that map to hour [h], or 0.30 when there
    is none; the 15-minute series has 192 elements and, when no entry
    produced a 15-minute slot, is the hourly series expanded four-fold. *)
Theorem parse_tibber_prices_hourly (data : list (gmap string value)) (now : Q) :
  Forall price_truthy data →
  let series := _parse_tibber_prices_dual data now in
  length series.1 = 48 ∧
  (∀ h, h < 48 → series.1 !! h = Some (hourly_mean now data h)) ∧
  length series.2 = 192 ∧
  (tibber_slots data now = ∅ → series.2 = _expand_hourly_to_15min series.1).
Proof.
  intros Hdata series. subst series.
  unfold _parse_tibber_prices_dual, tibber_slots.
  pose proof (λ h, tibber_loop_hours now data (∅, ∅) h Hdata) as Hloop.
  destruct (foldl (tibber_entry now) (∅, ∅) data) as [hp d15].
  cbn [fst snd] in *. unfold finish_prices_dual. cbn [fst snd].
  destruct (build_hourly_spec hp) as [Hlen Hslot].
  split_and!.
  - done.
  - intros h Hh. rewrite Hslot by done. f_equal.
    specialize (Hloop h). unfold hour_list in Hloop.
    rewrite lookup_empty in Hloop. cbn in Hloop.
    unfold hourly_slot, hourly_mean. rewrite <- Hloop.
    by destruct (hp !! Z.of_nat h) as [[|p l]|].
  - case_bool_decide.
    + apply expand_hourly_to_15min_length.
    + apply build_15min_spec.
  - intros ->. by rewrite map_size_empty, bool_decide_eq_true_2.
Qed.

Lemma parse_tibber_prices_hourly_witness :
  let series := _parse_tibber_prices_dual tibber_example 0 in
  ∃ x, series.1 !! 0 = Some x ∧ (x == 0.35)%Q ∧
       series.1 !! 2 = Some DEFAULT_PRICE.
Proof.
  intros series.
  destruct (parse_tibber_prices_hourly tibber_example 0) as (_ & Hmean & _).
  { unfold tibber_example. repeat constructor; by left + by right. }
  exists (hourly_mean 0 tibber_example 0). split_and!.
  - apply Hmean. lia.
  - reflexivity.
  - rewrite Hmean by lia. reflexivity.
Defined.

(** C6 at a price of zero.  Of two entries for the current hour, priced
    0.00 and 0.40, the first is dropped: [entry.get("price") or
    entry.get("total")] takes the number 0 for a missing price, although
    the test that follows, [price is None], lets the number 0 pass.  The
    slot of the hour holds 0.40, where the arithmetic mean of the prices
    of the two entries is 0.20. *)
Theorem parse_tibber_zero_price_dropped :
  let series := _parse_tibber_prices_dual tibber_zero_price 0 in
  hour_prices 0 tibber_zero_price 0 = [0; 0.40]%Q ∧
  (hourly_mean 0 tibber_zero_price 0 == 0.20)%Q ∧
  ∃ x, series.1 !! 0 = Some x ∧ (x == 0.40)%Q ∧
       ¬ (x == hourly_mean 0 tibber_zero_price 0)%Q.
Proof.
  intros series. split_and!; [reflexivity..|].
  exists (mean [0.40]%Q). split_and!.
  - vm_compute. reflexivity.
  - reflexivity.
  - vm_compute. discriminate.
Qed.

(** ** The lock *)

Lemma inside_block body : inside ((Await <$> body) ++ [Release]) = true.
Proof. by destruct body. Qed.

Lemma unwind_block body : unwind ((Await <$> body) ++ [Release]) = [Release].
Proof. induction body; [done | by cbn]. Qed.

Lemma task_state_acquire p :
  task_state (Acquire :: p) → ∃ body, p = (Await <$> body) ++ [Release].
Proof.
  inversion 1 as [body Hb | body Hb | ]; [by exists body |].
  destruct body; discriminate.
Qed.

Lemma task_state_await c p :
  task_state (Await c :: p) → ∃ body, p = (Await <$> body) ++ [Release].
Proof.
  inversion 1 as [body Hb | body Hb | ].
  destruct body as [|c' body]; [discriminate|].
  injection Hb as _ <-. by exists body.
Qed.

Lemma task_state_release p : task_state (Release :: p) → p = [].
Proof.
  inversion 1 as [body Hb | body Hb | ].
  destruct body as [|c' body]; [by injection Hb | discriminate].
Qed.

Lemma initial_inv s : initial s → lock_inv s.
Proof.
  intros [Hfree Htasks].
  assert (∀ i p, tasks s !! i = Some p → task_state p ∧ inside p = false) as H.
  { intros i p Hp. destruct (Htasks i p Hp) as [-> | ->];
      (split; [apply task_ready | done]). }
  split.
  - intros i p Hp. by apply (H i p).
  - intros _ i p Hp. by apply (H i p).
  - intros i j p q Hp Hq Hin. apply H in Hp as [_ Hp]. congruence.
Qed.

(** While a task is inside its block, the lock is taken. *)
Lemma inside_locked s i p :
  lock_inv s → tasks s !! i = Some p → inside p = true → locked s = true.
Proof.
  intros Hinv Hp Hin. destruct (locked s) eqn:Hl; [done|].
  pose proof (inv_free s Hinv Hl i p Hp). congruence.
Qed.

(** Only the task that is inside its block can take a step. *)
Lemma step_by_holder s e s' i p :
  lock_inv s → tasks s !! i = Some p → inside p = true → step s e s' → e.1 = i.
Proof.
  intros Hinv Hp Hin Hstep.
  inversion Hstep as [? j q Hq Hfree | ? j c q Hq | ? j c q Hq | ? j q Hq]; subst; cbn.
  - pose proof (inside_locked _ _ _ Hinv Hp Hin). congruence.
  - by apply (inv_one s Hinv j i _ p Hq Hp).
  - by apply (inv_one s Hinv j i _ p Hq Hp).
  - by apply (inv_one s Hinv j i _ p Hq Hp).
Qed.

Lemma lookup_insert_task (l : list (list action)) i j p q :
  <[i := p]> l !! j = Some q → (i = j ∧ q = p) ∨ (i ≠ j ∧ l !! j = Some q).
Proof.
  destruct (decide (i = j)) as [->|Hne].
  - intros Hq. left. split; [done|].
    assert (j < length l).
    { apply lookup_lt_Some in Hq. by rewrite length_insert in Hq. }
    rewrite list_lookup_insert_eq in Hq by done. by injection Hq.
  - rewrite list_lookup_insert_ne by done. by right.
Qed.

(** The tasks other than the one inside its block, or all tasks when the
    lock is free, are outside their blocks. *)
Lemma others_outside s i p :
  lock_inv s → tasks s !! i = Some p → inside p = true ∨ locked s = false →
  ∀ j q, j ≠ i → tasks s !! j = Some q → inside q = false.
Proof.
  intros Hinv Hp [Hin|Hfree] j q Hne Hq.
  - destruct (inside q) eqn:Hq'; [|done].
    by pose proof (inv_one s Hinv j i q p Hq Hp Hq' Hin).
  - by apply (inv_free s Hinv Hfree j q).
Qed.

Lemma update_one (l : list (list action)) i p' :
  (∀ j q, j ≠ i → l !! j = Some q → inside q = false) →
  ∀ j k q r, <[i := p']> l !! j = Some q → <[i := p']> l !! k = Some r →
             inside q = true → inside r = true → j = k.
Proof.
  intros Hout j k q r Hq Hr Hq' Hr'.
  apply lookup_insert_task in Hq as [[Hj _]|[Hj Hq]];
    apply lookup_insert_task in Hr as [[Hk _]|[Hk Hr]].
  - congruence.
  - rewrite (Hout k r) in Hr' by done. discriminate.
  - rewrite (Hout j q) in Hq' by done. discriminate.
  - rewrite (Hout k r) in Hr' by done. discriminate.
Qed.

Lemma update_shape (l : list (list action)) i p' :
  task_state p' →
  (∀ j q, l !! j = Some q → task_state q) →
  ∀ j q, <[i := p']> l !! j = Some q → task_state q.
Proof.
  intros Hp' Hl j q [[_ ->]|[_ Hq]]%lookup_insert_task; [done | by eapply Hl].
Qed.

Lemma step_inv s e s' : lock_inv s → step s e s' → lock_inv s'.
Proof.
  intros Hinv Hstep.
  inversion Hstep as [? i p Hp Hfree | ? i c p Hp | ? i c p Hp | ? i p Hp]; subst.
  - destruct (task_state_acquire p (inv_shape s Hinv i _ Hp)) as [body ->].
    split; cbn [locked tasks].
    + apply update_shape; [apply task_inside | apply (inv_shape s Hinv)].
    + discriminate.
    + apply update_one. eapply others_outside; eauto.
  - destruct (task_state_await c p (inv_shape s Hinv i _ Hp)) as [body ->].
    assert (locked s = true) as Hl by by eapply inside_locked.
    split; cbn [locked tasks].
    + apply update_shape; [apply task_inside | apply (inv_shape s Hinv)].
    + congruence.
    + apply update_one. eapply others_outside; eauto.
  - destruct (task_state_await c p (inv_shape s Hinv i _ Hp)) as [body ->].
    assert (locked s = true) as Hl by by eapply inside_locked.
    rewrite unwind_block.
    split; cbn [locked tasks].
    + apply update_shape; [apply (task_inside []) | apply (inv_shape s Hinv)].
    + congruence.
    + apply update_one. eapply others_outside; eauto.
  - rewrite (task_state_release p (inv_shape s Hinv i _ Hp)).
    assert (∀ j q, <[i := []]> (tasks s) !! j = Some q → inside q = false) as Hout.
    { intros j q [[_ ->]|[Hne Hq]]%lookup_insert_task; [done|].
      apply (others_outside s i _ Hinv Hp (or_introl eq_refl) j q); done. }
    split; cbn [locked tasks].
    + apply update_shape; [apply task_done | apply (inv_shape s Hinv)].
    + intros _. apply Hout.
    + intros j k q r Hq Hr Hq'. apply Hout in Hq. congruence.
Qed.

Lemma run_inv s tr s' : lock_inv s → run s tr s' → lock_inv s'.
Proof. intros Hinv Hrun. induction Hrun; eauto using step_inv. Qed.

(** A task that is inside its block stays there until it releases. *)
Lemma step_stays_inside s e s' i p :
  lock_inv s → tasks s !! i = Some p → inside p = true → step s e s' →
  e = (i, Release) ∨ ∃ p', tasks s' !! i = Some p' ∧ inside p' = true.
Proof.
  intros Hinv Hp Hin Hstep.
  pose proof (step_by_holder s e s' i p Hinv Hp Hin Hstep) as He.
  assert (i < length (tasks s)) as Hlen by by eapply lookup_lt_Some.
  destruct e as [j a]. cbn in He. subst j.
  inversion Hstep as [? j q Hq Hfree | ? j c q Hq | ? j c q Hq | ? j q Hq]; subst.
  - rewrite Hp in Hq. injection Hq as ->. discriminate.
  - right. destruct (task_state_await c q (inv_shape s Hinv i _ Hq)) as [body ->].
    eexists. cbn [tasks]. rewrite list_lookup_insert_eq by done.
    split; [done | apply inside_block].
  - right. destruct (task_state_await c q (inv_shape s Hinv i _ Hq)) as [body ->].
    eexists. cbn [tasks]. rewrite list_lookup_insert_eq by done.
    split; [done|]. by rewrite unwind_block.
  - by left.
Qed.

Lemma run_until_release s tr s' i p :
  lock_inv s → run s tr s' → tasks s !! i = Some p → inside p = true →
  ∀ b j c, tr !! b = Some (j, c) → j ≠ i →
           ∃ k, k < b ∧ tr !! k = Some (i, Release).
Proof.
  intros Hinv Hrun. revert p Hinv.
  induction Hrun as [s | s e s' tr s'' Hstep Hrun IH]; intros p Hinv Hp Hin b j c Hb Hne.
  - by destruct b.
  - pose proof (step_by_holder s e s' i p Hinv Hp Hin Hstep) as He.
    destruct b as [|b].
    + cbn in Hb. injection Hb as ->. cbn in He. congruence.
    + destruct (step_stays_inside s e s' i p Hinv Hp Hin Hstep)
        as [-> | (p' & Hp' & Hin')].
      * exists 0. split; [lia | done].
      * destruct (IH p' (step_inv _ _ _ Hinv Hstep) Hp' Hin' b j c Hb Hne)
          as (k & Hk & Hrel).
        exists (S k). split; [lia | done].
Qed.

Lemma run_serialized s tr s' : lock_inv s → run s tr s' → serialized tr.
Proof.
  intros Hinv Hrun.
  induction Hrun as [s | s e s' tr s'' Hstep Hrun IH]; intros a b i j c Ha Hab Hb Hne.
  - by destruct a.
  - pose proof (step_inv _ _ _ Hinv Hstep) as Hinv'.
    destruct b as [|b]; [lia|]. destruct a as [|a].
    + cbn in Ha. injection Ha as ->.
      inversion Hstep as [? i' p Hp Hfree | | | ]; subst.
      destruct (task_state_acquire p (inv_shape s Hinv i _ Hp)) as [body ->].
      assert (i < length (tasks s)) as Hlen by by eapply lookup_lt_Some.
      destruct (run_until_release _ _ _ i _ Hinv' Hrun
                  (list_lookup_insert_eq _ _ _ Hlen) (inside_block body) b j c Hb Hne)
        as (k & Hk & Hrel).
      exists (S k). split; [lia | done].
    + destruct (IH Hinv' a b i j c Ha ltac:(lia) Hb Hne) as (k & Hk & Hrel).
      exists (S k). split; [lia | done].
Qed.

(** C8.  From a client at rest, whatever the event loop does: at most one
    call of [async_update] or [async_run_optimization] is inside its
    block at any time, a call is inside its block only while the one lock
    of the client is taken, and no two cycles interleave. *)
Theorem lock_serializes_cycles (s0 s : sched) (tr : list (nat * action)) :
  initial s0 → run s0 tr s →
  (∀ i j p q, tasks s !! i = Some p → tasks s !! j = Some q →
              inside p = true → inside q = true → i = j) ∧
  (∀ i p, tasks s !! i = Some p → inside p = true → locked s = true) ∧
  serialized tr.
Proof.
  intros Hinit Hrun. pose proof (initial_inv s0 Hinit) as Hinv0.
  pose proof (run_inv _ _ _ Hinv0 Hrun) as Hinv.
  split_and!.
  - apply (inv_one s Hinv).
  - intros i p. by apply inside_locked.
  - exact (run_serialized s0 tr s Hinv0 Hrun).
Qed.

(** An optimization that fails at its first await and releases the lock,
    followed by an update. *)
Lemma lock_serializes_cycles_witness :
  let s0 := mk_sched false [async_update_program; async_run_optimization_program] in
  let tr := [(1, Acquire); (1, Await "_update_battery_soc"); (1, Release);
             (0, Acquire); (0, Await "_update_battery_soc")] in
  ∃ s, run s0 tr s ∧ locked s = true ∧ serialized tr.
Proof.
  intros s0 tr.
  assert (initial s0) as Hinit.
  { split; [done|]. intros [|[|i]] p [= <-]; [by left | by right]. }
  assert (∃ s, run s0 tr s ∧ locked s = true) as (s & Hrun & Hlocked).
  { eexists. split.
    - eapply run_cons; [by apply step_acquire|].
      eapply run_cons; [by eapply step_raise|].
      eapply run_cons; [by apply step_release|].
      eapply run_cons; [by apply step_acquire|].
      eapply run_cons; [by eapply step_await|].
      apply run_nil.
    - reflexivity. }
  exists s. split_and!; [done | done |].
  by destruct (lock_serializes_cycles s0 s tr Hinit Hrun) as (_ & _ & Hser).
Defined.

(** ** [_update_battery_state] and [async_set_soc_limits] *)

(** X1.  The usable energy that [_update_battery_state] computes is zero
    at or below the minimal state of charge and the share of the capacity
    above it otherwise; for a capacity that is not negative it is not
    negative, and it does not exceed the capacity when the state of charge
    is at most 100 and the minimal state of charge at least 0. *)
Theorem update_battery_state_usable_energy
    (config : gmap string Q) (charging_curve_enabled : bool) (data : EOSData.t) :
  let capacity := config_get config CONF_BATTERY_CAPACITY DEFAULT_BATTERY_CAPACITY in
  let min_soc := config_get config CONF_BATTERY_MIN_SOC DEFAULT_BATTERY_MIN_SOC in
  let soc := BatteryState.soc (EOSData.battery data) in
  let usable :=
    BatteryState.usable_energy_wh
      (EOSData.battery (_update_battery_state config charging_curve_enabled data)) in
  ((soc <= min_soc)%Q → usable = 0%Q) ∧
  ((min_soc < soc)%Q → usable = (capacity * ((soc - min_soc) / 100))%Q) ∧
  ((0 <= capacity)%Q → (0 <= usable)%Q) ∧
  ((0 <= capacity)%Q → (soc <= 100)%Q → (0 <= min_soc)%Q → (usable <= capacity)%Q).
Proof.
  intros capacity min_soc soc usable. subst usable.
  unfold _update_battery_state. cbn. fold capacity min_soc soc.
  destruct (Qlt_bool min_soc soc) eqn:Hlt.
  - apply Qlt_bool_true in Hlt. split_and!.
    + intros Hle. lra.
    + done.
    + intros Hcap. apply Qmult_le_0_compat; [done|]. apply Qle_shift_div_l; lra.
    + intros Hcap Hsoc Hmin.
      assert ((soc - min_soc) / 100 <= 1)%Q as Hshare by (apply Qle_shift_div_r; lra).
      assert (capacity * ((soc - min_soc) / 100) <= capacity * 1)%Q; [|lra].
      rewrite !(Qmult_comm capacity). by apply Qmult_le_compat_r.
  - apply Qlt_bool_false in Hlt. split_and!; intros; try done; lra.
Qed.

Lemma update_battery_state_usable_energy_witness :
  let data := set_soc 55 EOSData.new in
  (BatteryState.usable_energy_wh (EOSData.battery (_update_battery_state ∅ false data))
   == 5000)%Q.
Proof.
  intros data.
  destruct (update_battery_state_usable_energy ∅ false data) as (_ & Habove & _).
  rewrite Habove; [reflexivity | vm_compute; reflexivity].
Defined.

(** The power that the charging curve allows at a state of charge. *)
Lemma dynamic_max_charge_power_eq config enabled data :
  BatteryState.dynamic_max_charge_power
    (EOSData.battery (_update_battery_state config enabled data))
  = let max_charge :=
      config_get config CONF_BATTERY_MAX_CHARGE_POWER DEFAULT_BATTERY_MAX_CHARGE in
    let soc := BatteryState.soc (EOSData.battery data) in
    if enabled then
      if Qlt_bool soc 80 then max_charge
      else if Qlt_bool soc 90 then (max_charge * 0.7)%Q
      else if Qlt_bool soc 95 then (max_charge * 0.5)%Q
      else (max_charge * 0.3)%Q
    else max_charge.
Proof. done. Qed.

(** X2.  With the charging curve switched off the dynamic charge power is
    the maximal charge power.  With the curve switched on and a maximal
    charge power that is not negative, the dynamic charge power lies
    between 30 % and 100 % of it, and it does not grow with the state of
    charge. *)
Theorem update_battery_state_charging_curve
    (config : gmap string Q) (enabled : bool) (data1 data2 : EOSData.t) :
  let max_charge :=
    config_get config CONF_BATTERY_MAX_CHARGE_POWER DEFAULT_BATTERY_MAX_CHARGE in
  let dynamic data :=
    BatteryState.dynamic_max_charge_power
      (EOSData.battery (_update_battery_state config enabled data)) in
  (enabled = false → dynamic data1 = max_charge) ∧
  ((0 <= max_charge)%Q →
   (max_charge * 0.3 <= dynamic data1)%Q ∧ (dynamic data1 <= max_charge)%Q ∧
   ((BatteryState.soc (EOSData.battery data1) <= BatteryState.soc (EOSData.battery data2))%Q →
    (dynamic data2 <= dynamic data1)%Q)).
Proof.
  intros max_charge dynamic. subst dynamic. cbv beta.
  rewrite !dynamic_max_charge_power_eq. cbv zeta. fold max_charge.
  split; [by intros ->|]. intros Hmax.
  set (s1 := BatteryState.soc (EOSData.battery data1)).
  set (s2 := BatteryState.soc (EOSData.battery data2)).
  destruct enabled; [|split_and!; intros; lra].
  destruct (Qlt_bool s1 80) eqn:H1; [|destruct (Qlt_bool s1 90) eqn:H2;
    [|destruct (Qlt_bool s1 95) eqn:H3]];
  (split_and!; [lra | lra |]); intros Hle;
  destruct (Qlt_bool s2 80) eqn:G1; try (destruct (Qlt_bool s2 90) eqn:G2);
  try (destruct (Qlt_bool s2 95) eqn:G3);
  rewrite ?Qlt_bool_true, ?Qlt_bool_false in *; lra.
Qed.

Lemma update_battery_state_charging_curve_witness :
  let data1 := set_soc 85 EOSData.new in
  let data2 := set_soc 96 EOSData.new in
  let dynamic data :=
    BatteryState.dynamic_max_charge_power
      (EOSData.battery (_update_battery_state ∅ true data)) in
  (dynamic data2 <= dynamic data1)%Q ∧ (dynamic data1 <= 5000)%Q.
Proof.
  intros data1 data2 dynamic.
  destruct (update_battery_state_charging_curve ∅ true data1 data2) as [_ Hcurve].
  destruct Hcurve as (_ & Hupper & Hmono); [vm_compute; discriminate|].
  split; [apply Hmono; vm_compute; discriminate | exact Hupper].
Defined.

(** X3.  [async_set_soc_limits] writes the two limits where the settings
    are read from afterwards, leaves every other setting and the state of
    charge alone, and shows the limits in the battery state; below or at
    the new minimum no energy is usable. *)
Theorem set_soc_limits_round_trip
    (curve : bool) (min_soc max_soc : Q) (config : gmap string Q) (data : EOSData.t) :
  let st := async_set_soc_limits curve min_soc max_soc (config, data) in
  let battery := EOSData.battery st.2 in
  config_get st.1 CONF_BATTERY_MIN_SOC DEFAULT_BATTERY_MIN_SOC = min_soc ∧
  config_get st.1 CONF_BATTERY_MAX_SOC DEFAULT_BATTERY_MAX_SOC = max_soc ∧
  (∀ key dflt, key ≠ CONF_BATTERY_MIN_SOC → key ≠ CONF_BATTERY_MAX_SOC →
               config_get st.1 key dflt = config_get config key dflt) ∧
  BatteryState.min_soc battery = min_soc ∧
  BatteryState.max_soc battery = max_soc ∧
  BatteryState.soc battery = BatteryState.soc (EOSData.battery data) ∧
  ((BatteryState.soc (EOSData.battery data) <= min_soc)%Q →
   BatteryState.usable_energy_wh battery = 0%Q).
Proof.
  intros st battery. subst battery st. unfold async_set_soc_limits. cbn [fst snd].
  set (config' := <[CONF_BATTERY_MAX_SOC:=max_soc]> (<[CONF_BATTERY_MIN_SOC:=min_soc]> config)).
  assert (config_get config' CONF_BATTERY_MIN_SOC DEFAULT_BATTERY_MIN_SOC = min_soc) as Hmin.
  { unfold config_get, config'. rewrite lookup_insert_ne by done.
    by rewrite lookup_insert_eq. }
  assert (config_get config' CONF_BATTERY_MAX_SOC DEFAULT_BATTERY_MAX_SOC = max_soc) as Hmax.
  { unfold config_get, config'. by rewrite lookup_insert_eq. }
  split; [exact Hmin|]. split; [exact Hmax|]. split.
  { intros key dflt H1 H2. unfold config_get, config'.
    by rewrite !lookup_insert_ne. }
  clearbody config'. unfold _update_battery_state. cbn.
  split; [exact Hmin|]. split; [exact Hmax|]. split; [done|].
  intros Hle. rewrite Hmin. by apply Qlt_bool_false in Hle as ->.
Qed.

Lemma set_soc_limits_round_trip_witness :
  let st := async_set_soc_limits false 20 90 (∅, set_soc 15 EOSData.new) in
  BatteryState.usable_energy_wh (EOSData.battery st.2) = 0%Q ∧
  config_get st.1 CONF_BATTERY_CAPACITY DEFAULT_BATTERY_CAPACITY = 10000%Q.
Proof.
  intros st.
  destruct (set_soc_limits_round_trip false 20 90 ∅ (set_soc 15 EOSData.new))
    as (_ & _ & Hother & _ & _ & _ & Hzero).
  split.
  - apply Hzero. vm_compute. discriminate.
  - rewrite Hother; [reflexivity | done | done].
Defined.

(** ** Overrides, manual modes and the optimizer's answer *)

(** X4.  After [async_set_override], [_update_control_state] keeps the
    mode of the override, its end time and its power, whatever the
    schedules say; yet with non-empty schedules it overwrites
    [ac_charge_demand], and with it the charge power that the override
    asked for. *)
Theorem override_keeps_mode
    (config : gmap string Q) (now : Q) (mode : InverterMode) (duration power : Q)
    (data : EOSData.t) :
  let control :=
    EOSData.control (_update_control_state config
                       (async_set_override now mode duration power data)) in
  ControlState.mode control = mode ∧
  ControlState.override_active control = true ∧
  ControlState.override_end_time control = Some (now + 60 * duration)%Q ∧
  ControlState.override_power control = power ∧
  ∀ a acs d dcs b das,
    OptimizationResult.ac_charge (EOSData.optimization data) = a :: acs →
    OptimizationResult.dc_charge (EOSData.optimization data) = d :: dcs →
    OptimizationResult.discharge_allowed (EOSData.optimization data) = b :: das →
    ControlState.ac_charge_demand control
    = (a * config_get config CONF_MAX_GRID_CHARGE_RATE DEFAULT_BATTERY_MAX_CHARGE)%Q.
Proof.
  intros control. subst control. unfold _update_control_state, async_set_override.
  cbn [EOSData.optimization EOSData.set_control EOSData.control].
  destruct (OptimizationResult.ac_charge (EOSData.optimization data)) as [|a' acs'];
    [cbn; split_and!; try done; intros; discriminate|].
  destruct (OptimizationResult.dc_charge (EOSData.optimization data)) as [|d' dcs'];
    [cbn; split_and!; try done; intros; discriminate|].
  destruct (OptimizationResult.discharge_allowed (EOSData.optimization data)) as [|b' das'];
    [cbn; split_and!; try done; intros; discriminate|].
  cbn. split_and!; try done. by intros ?????? [= <- <-] _ _.
Qed.

Lemma override_keeps_mode_witness :
  let opt := OptimizationResult.mk [0.5]%Q [1]%Q [true] [] 0 0 [] [] [] None None in
  let data := EOSData.set_optimization opt EOSData.new in
  let control :=
    EOSData.control (_update_control_state ∅
                       (async_set_override 0 CHARGE_FROM_GRID 60 3000 data)) in
  ControlState.mode control = CHARGE_FROM_GRID ∧
  ControlState.ac_charge_demand control = (0.5 * 5000)%Q.
Proof.
  intros opt data control.
  destruct (override_keeps_mode ∅ 0 CHARGE_FROM_GRID 60 3000 data)
    as (Hmode & _ & _ & _ & Hdemand).
  split; [exact Hmode|]. by apply (Hdemand 0.5%Q [] 1%Q [] true []).
Defined.

(** X5.  Without an override and with non-empty schedules, the state that
    [_update_control_state] leaves does not depend on the mode before: a
    mode chosen with [async_set_mode] is gone after the next result.  The
    mode left is CHARGE_FROM_GRID exactly when the AC charge demand is
    positive, AVOID_DISCHARGE only when discharging is not allowed, and
    never AUTO or STARTUP. *)
Theorem manual_mode_overwritten
    (config : gmap string Q) (mode : InverterMode) (data : EOSData.t) :
  ControlState.override_active (EOSData.control data) = false →
  OptimizationResult.ac_charge (EOSData.optimization data) ≠ [] →
  OptimizationResult.dc_charge (EOSData.optimization data) ≠ [] →
  OptimizationResult.discharge_allowed (EOSData.optimization data) ≠ [] →
  _update_control_state config (async_set_mode mode data)
  = _update_control_state config data ∧
  let control := EOSData.control (_update_control_state config data) in
  (ControlState.mode control = CHARGE_FROM_GRID
   ↔ (0 < ControlState.ac_charge_demand control)%Q) ∧
  (ControlState.mode control = AVOID_DISCHARGE →
   ControlState.discharge_allowed control = false) ∧
  (ControlState.mode control = DISCHARGE_ALLOWED →
   ControlState.discharge_allowed control = true) ∧
  ControlState.mode control ≠ AUTO ∧ ControlState.mode control ≠ STARTUP.
Proof.
  intros Hov Hac Hdc Hda. unfold _update_control_state, async_set_mode.
  cbn [EOSData.optimization EOSData.set_control EOSData.control].
  destruct (OptimizationResult.ac_charge (EOSData.optimization data)) as [|a acs]; [done|].
  destruct (OptimizationResult.dc_charge (EOSData.optimization data)) as [|d dcs]; [done|].
  destruct (OptimizationResult.discharge_allowed (EOSData.optimization data)) as [|b das];
    [done|].
  cbn. rewrite Hov. cbn.
  destruct (Qlt_bool 0 _) eqn:Hpos.
  - cbn. split; [done|].
    apply Qlt_bool_true in Hpos. by split_and!.
  - destruct b; cbn; (split; [done|]);
      apply Qlt_bool_false in Hpos; split_and!; try done;
      split; try done; intros; lra.
Qed.

Lemma manual_mode_overwritten_witness :
  let opt := OptimizationResult.mk [0]%Q [1]%Q [false] [] 0 0 [] [] [] None None in
  let data := EOSData.set_optimization opt EOSData.new in
  ControlState.mode
    (EOSData.control (_update_control_state ∅ (async_set_mode CHARGE_FROM_GRID data)))
  = AVOID_DISCHARGE.
Proof.
  intros opt data.
  destruct (manual_mode_overwritten ∅ CHARGE_FROM_GRID data) as [-> _];
    [reflexivity | done..|reflexivity].
Defined.

Lemma update_control_state_frame_eq (config : gmap string Q) (data : EOSData.t) :
  OptimizationResult.ac_charge (EOSData.optimization data) = []
  ∨ OptimizationResult.dc_charge (EOSData.optimization data) = []
  ∨ OptimizationResult.discharge_allowed (EOSData.optimization data) = [] →
  _update_control_state config data = data.
Proof.
  intros Hempty. unfold _update_control_state.
  destruct Hempty as [-> | [-> | ->]]; cbn [list_truthy negb orb];
    rewrite ?orb_true_r; done.
Qed.

(** X6.  [_update_control_state] is idempotent: a second call on the same
    result changes nothing. *)
Theorem update_control_state_idempotent (config : gmap string Q) (data : EOSData.t) :
  _update_control_state config (_update_control_state config data)
  = _update_control_state config data.
Proof.
  destruct (OptimizationResult.ac_charge (EOSData.optimization data))
    as [|a acs] eqn:Hac;
    [by rewrite !(update_control_state_frame_eq config data) by auto|].
  destruct (OptimizationResult.dc_charge (EOSData.optimization data))
    as [|d dcs] eqn:Hdc;
    [by rewrite !(update_control_state_frame_eq config data) by auto|].
  destruct (OptimizationResult.discharge_allowed (EOSData.optimization data))
    as [|b das] eqn:Hda;
    [by rewrite !(update_control_state_frame_eq config data) by auto|].
  unfold _update_control_state.
  cbn [EOSData.optimization EOSData.set_control EOSData.control].
  rewrite Hac, Hdc, Hda. cbn.
  destruct (ControlState.override_active (EOSData.control data)) eqn:Hov; cbn.
  - rewrite !Hac, !Hdc, !Hda. cbn. by rewrite Hov.
  - destruct (Qlt_bool 0 _) eqn:Hpos; [|destruct b]; cbn;
      rewrite !Hac, !Hdc, !Hda; cbn; rewrite Hov; cbn; by rewrite ?Hpos.
Qed.

(** The control state that [_update_control_state] leaves when the three
    schedules have a first entry. *)
Lemma update_control_state_heads
    (config : gmap string Q) (data : EOSData.t)
    (a : Q) (acs : list Q) (d : Q) (dcs : list Q) (b : bool) (das : list bool) :
  OptimizationResult.ac_charge (EOSData.optimization data) = a :: acs →
  OptimizationResult.dc_charge (EOSData.optimization data) = d :: dcs →
  OptimizationResult.discharge_allowed (EOSData.optimization data) = b :: das →
  EOSData.control (_update_control_state config data)
  = let control :=
      ControlState.set_discharge_allowed b
        (ControlState.set_dc_charge_demand
           (d * config_get config CONF_MAX_PV_CHARGE_RATE DEFAULT_BATTERY_MAX_CHARGE)%Q
           (ControlState.set_ac_charge_demand
              (a * config_get config CONF_MAX_GRID_CHARGE_RATE DEFAULT_BATTERY_MAX_CHARGE)%Q
              (EOSData.control data))) in
    if ControlState.override_active (EOSData.control data) then control
    else if Qlt_bool 0 (a * config_get config CONF_MAX_GRID_CHARGE_RATE
                              DEFAULT_BATTERY_MAX_CHARGE)
    then ControlState.set_mode CHARGE_FROM_GRID control
    else if b then ControlState.set_mode DISCHARGE_ALLOWED control
    else ControlState.set_mode AVOID_DISCHARGE control.
Proof.
  intros Hac Hdc Hda. unfold _update_control_state. rewrite Hac, Hdc, Hda.
  cbn [list_truthy negb orb ControlState.set_ac_charge_demand
       ControlState.set_dc_charge_demand ControlState.set_discharge_allowed
       ControlState.override_active ControlState.ac_charge_demand
       ControlState.discharge_allowed EOSData.set_control EOSData.control].
  destruct (ControlState.override_active (EOSData.control data)); cbn [negb]; [done|].
  destruct (Qlt_bool 0 _); [done|]. by destruct b.
Qed.

(** Reading the answer leaves the control state alone, and takes the
    schedules from the answer or from their defaults. *)
Lemma parse_response_control now current_hour response data :
  EOSData.control (_parse_optimization_response now current_hour response data).2
  = EOSData.control data.
Proof.
  unfold _parse_optimization_response.
  destruct (Response.error response); [done|]. cbn [snd].
  destruct (Response.washingstart response);
    destruct (Response.start_solution response) as [s|]; try done;
    cbn; by destruct (decide _).
Qed.

Lemma parse_response_schedules now current_hour response data :
  Response.error response = None →
  let opt := (_parse_optimization_response now current_hour response data).1 in
  OptimizationResult.ac_charge opt
  = default (replicate 48 0%Q) (Response.ac_charge response) ∧
  OptimizationResult.dc_charge opt
  = default (replicate 48 1%Q) (Response.dc_charge response) ∧
  OptimizationResult.discharge_allowed opt
  = py_bool <$> default (replicate 48 1%Q) (Response.discharge_allowed response).
Proof. intros Herr. unfold _parse_optimization_response. by rewrite Herr. Qed.

(** X7.  An answer without ["error"] and without any of the three
    schedules is read as 48 hours of no grid charging, full PV charging
    and discharging allowed: without an override the mode becomes
    DISCHARGE_ALLOWED, the AC charge demand is zero and the DC charge
    demand is the configured maximal PV charge rate. *)
Theorem schedules_default
    (config : gmap string Q) (now : Q) (current_hour : Z)
    (response : Response.t) (data : EOSData.t) :
  Response.error response = None →
  Response.ac_charge response = None →
  Response.dc_charge response = None →
  Response.discharge_allowed response = None →
  let parsed := _parse_optimization_response now current_hour response data in
  OptimizationResult.ac_charge parsed.1 = replicate 48 0%Q ∧
  OptimizationResult.dc_charge parsed.1 = replicate 48 1%Q ∧
  OptimizationResult.discharge_allowed parsed.1 = replicate 48 true ∧
  let control :=
    EOSData.control (_update_control_state config
                       (EOSData.set_optimization parsed.1 parsed.2)) in
  (ControlState.ac_charge_demand control == 0)%Q ∧
  (ControlState.dc_charge_demand control
   == config_get config CONF_MAX_PV_CHARGE_RATE DEFAULT_BATTERY_MAX_CHARGE)%Q ∧
  ControlState.discharge_allowed control = true ∧
  (ControlState.override_active (EOSData.control data) = false →
   ControlState.mode control = DISCHARGE_ALLOWED).
Proof.
  intros Herr Hac Hdc Hda parsed.
  destruct (parse_response_schedules now current_hour response data Herr)
    as (Hac' & Hdc' & Hda').
  pose proof (parse_response_control now current_hour response data) as Hctl.
  fold parsed in Hac', Hdc', Hda', Hctl. clearbody parsed.
  rewrite Hac in Hac'. rewrite Hdc in Hdc'. rewrite Hda in Hda'.
  cbn [default] in Hac', Hdc', Hda'.
  split; [done|]. split; [done|]. split; [done|]. cbv zeta.
  rewrite (update_control_state_heads config
             (EOSData.set_optimization parsed.1 parsed.2)
             0 (replicate 47 0%Q) 1 (replicate 47 1%Q) true (replicate 47 true))
    by done.
  cbn [EOSData.set_optimization EOSData.control]. rewrite Hctl.
  assert (Qlt_bool 0 (0 * config_get config CONF_MAX_GRID_CHARGE_RATE
                            DEFAULT_BATTERY_MAX_CHARGE) = false) as Hzero.
  { apply Qlt_bool_false. lra. }
  destruct (ControlState.override_active (EOSData.control data)) eqn:Hov;
    cbn [ControlState.ac_charge_demand ControlState.dc_charge_demand
         ControlState.discharge_allowed ControlState.set_discharge_allowed
         ControlState.set_dc_charge_demand ControlState.set_ac_charge_demand
         ControlState.set_mode ControlState.mode];
    rewrite ?Hzero;
    cbn [ControlState.ac_charge_demand ControlState.dc_charge_demand
         ControlState.discharge_allowed ControlState.set_discharge_allowed
         ControlState.set_dc_charge_demand ControlState.set_ac_charge_demand
         ControlState.set_mode ControlState.mode];
    (split; [ring|]); (split; [ring|]); (split; [done|]); done.
Qed.

Lemma schedules_default_witness :
  let response := Response.mk None None None None None None None in
  let parsed := _parse_optimization_response 0 7 response EOSData.new in
  ControlState.mode
    (EOSData.control (_update_control_state ∅
                        (EOSData.set_optimization parsed.1 parsed.2)))
  = DISCHARGE_ALLOWED.
Proof.
  intros response parsed.
  destruct (schedules_default ∅ 0 7 response EOSData.new)
    as (_ & _ & _ & _ & _ & _ & Hmode); [reflexivity..|].
  by apply Hmode.
Defined.

(** X8.  The start solution makes the round trip: one of more than one
    element that the optimizer returns is stored and sent with the next
    request; a shorter one, or none, leaves the stored one in place, and
    so does an answer with ["error"]. *)
Theorem start_solution_round_trip
    (config : gmap string Q) (eos : bool) (now : Q) (current_hour : Z)
    (response : Response.t) (data : EOSData.t) :
  let data' := (_parse_optimization_response now current_hour response data).2 in
  let sent d := Request.start_solution (_build_optimization_request config eos d) in
  sent data' =
    match Response.error response, Response.start_solution response with
    | None, Some s => if decide (1 < length s) then Some s else sent data
    | _, _ => sent data
    end.
Proof.
  intros data' sent. subst data' sent. cbv beta.
  unfold _parse_optimization_response.
  destruct (Response.error response); [done|].
  cbn [snd]. unfold _build_optimization_request. cbn [Request.start_solution].
  destruct (Response.start_solution response) as [s|],
           (Response.washingstart response); cbn; try done;
  destruct (decide (1 < length s)) as [Hlen|Hlen]; cbn; try done;
  destruct s as [|x s]; cbn in Hlen; try lia; done.
Qed.

(** ** The forecast parsers *)

Lemma to_nat_py_int (x : Q) : (0 <= x)%Q → Z.to_nat (py_int x) = Z.to_nat (Qfloor x).
Proof.
  intros Hx. pose proof (max0_py_int x) as Hmax.
  assert (0 <= Qfloor x)%Z.
  { change 0%Z with (Qfloor 0). by apply Qfloor_resp_le. }
  lia.
Qed.

Lemma Qfloor_unique (x : Q) (z : Z) :
  (inject_Z z <= x)%Q → (x < inject_Z (z + 1))%Q → Qfloor x = z.
Proof.
  intros Hle Hlt.
  assert (z <= Qfloor x)%Z.
  { rewrite <- (Qfloor_Z z). by apply Qfloor_resp_le. }
  assert (Qfloor x < z + 1)%Z; [|lia].
  rewrite Zlt_Qlt. eapply Qle_lt_trans; [apply Qfloor_le | done].
Qed.

(** [forecast_hour] gives hour [h] exactly for the times of hour [h], for
    the 48 hours from [now] on. *)
Lemma forecast_hour_spec (now t : Q) (h : nat) :
  forecast_hour now t = Some h ↔ h < 48 ∧ in_hour now h t.
Proof.
  unfold forecast_hour, in_hour.
  set (hd := ((t - now) / 3600)%Q).
  assert (t - now == 3600 * hd)%Q as Hd by (unfold hd; field).
  rewrite Hd. rewrite Nat2Z.inj_succ, <- Z.add_1_r.
  destruct (Qle_bool 0 hd && Qlt_bool hd 48) eqn:Hwin.
  - apply andb_prop in Hwin as [H0 H48].
    apply Qle_bool_iff in H0. apply Qlt_bool_true in H48.
    pose proof (Qfloor_le hd) as Hfl. pose proof (Qlt_floor hd) as Hfu.
    assert (0 <= Qfloor hd)%Z as Hnn.
    { change 0%Z with (Qfloor 0). by apply Qfloor_resp_le. }
    rewrite to_nat_py_int by done. split.
    + intros Heq%(inj Some). subst h. rewrite Z2Nat.id by done. split_and!.
      * assert (Qfloor hd < 48)%Z; [|lia].
        rewrite Zlt_Qlt. change (inject_Z 48) with 48%Q. lra.
      * lra.
      * lra.
    + intros (Hh & Hlo & Hhi). f_equal.
      rewrite (Qfloor_unique hd (Z.of_nat h)); [lia | lra | lra].
  - split; [done|]. intros (Hh & Hlo & Hhi). exfalso.
    apply andb_false_iff in Hwin as [H0 | H48].
    + apply not_true_iff_false in H0. apply H0, Qle_bool_iff.
      assert (0 <= inject_Z (Z.of_nat h))%Q.
      { change 0%Q with (inject_Z 0). rewrite <- Zle_Qle. lia. }
      lra.
    + apply Qlt_bool_false in H48.
      assert (inject_Z (Z.of_nat h + 1) <= 48)%Q.
      { change 48%Q with (inject_Z 48). rewrite <- Zle_Qle. lia. }
      lra.
Qed.

(** The loop that all three parsers run: the slots keep their number, and
    each slot grows by the powers given for it, added in order. *)
Lemma add_power_loop {A} (f : A → option (nat * Q)) (l : list A) (forecast : list Q) :
  let result := foldl (λ forecast x, add_power forecast (f x)) forecast l in
  length result = length forecast ∧
  ∀ h, result !! h = (λ x, foldl Qplus x (slot_powers f h l)) <$> forecast !! h.
Proof.
  revert forecast. induction l as [|x l IH]; intros forecast result.
  - split; [done|]. intros h. subst result. cbn. by destruct (forecast !! h).
  - subst result. cbn [foldl].
    destruct (IH (add_power forecast (f x))) as [Hlen Hslot]. split.
    + rewrite Hlen. unfold add_power. destruct (f x) as [[h p]|]; [|done].
      apply length_alter.
    + intros h. rewrite Hslot. unfold slot_powers, add_power. cbn [omap list_omap].
      destruct (f x) as [[h' p]|]; cbn; [|done].
      destruct (decide (h' = h)) as [->|Hne].
      * rewrite list_lookup_alter_eq. by destruct (forecast !! h).
      * by rewrite list_lookup_alter_ne.
Qed.

Lemma forecast_slots {A} (f : A → option (nat * Q)) (l : list A) :
  let result := foldl (λ forecast x, add_power forecast (f x)) (replicate 48 0%Q) l in
  length result = 48 ∧
  ∀ h, h < 48 → result !! h = Some (py_sum (slot_powers f h l)).
Proof.
  intros result. destruct (add_power_loop f l (replicate 48 0%Q)) as [Hlen Hslot].
  fold result in Hlen, Hslot. rewrite length_replicate in Hlen. split; [done|].
  intros h Hh. rewrite Hslot, lookup_replicate_2 by done. done.
Qed.

Lemma py_or_either (a b : value) : py_or a b = a ∨ py_or a b = b.
Proof. unfold py_or. destruct (truthy a); auto. Qed.

(** X9.  [_parse_solcast_forecast] returns 48 slots whatever the list
    holds.  Slot [h] holds the sum, in the order of the list, of the
    powers of the periods that count for it, and a period counts for slot
    [h] only if it is a dict whose ["period_start"] lies in hour [h] after
    [now] and whose estimate is a number other than zero. *)
Theorem parse_solcast_forecast_slots (detailed : list elem) (now : Q) :
  let forecast := _parse_solcast_forecast detailed now in
  length forecast = 48 ∧
  (∀ h, h < 48 →
        forecast !! h = Some (py_sum (slot_powers (solcast_period now) h detailed))) ∧
  (∀ period h p, solcast_period now period = Some (h, p) →
     ∃ d t, period = EDict d ∧
            fromisoformat (entry_get d "period_start") = Some t ∧
            h < 48 ∧ in_hour now h t ∧ ¬ (p == 0)%Q).
Proof.
  intros forecast. destruct (forecast_slots (solcast_period now) detailed) as [Hlen Hslot].
  split; [done|]. split; [done|].
  intros [d|v] h p Hp; [|done]. cbn in Hp.
  destruct (truthy (entry_get d "period_start")); [|done]. cbn in Hp.
  destruct (fromisoformat (entry_get d "period_start")) as [t|] eqn:Ht; [|done].
  cbn in Hp. destruct (forecast_hour now t) as [h'|] eqn:Hh; [|done]. cbn in Hp.
  set (power := py_or _ _) in Hp.
  destruct (truthy power) eqn:Htruthy; [|done].
  destruct power as [|x| |]; try done. cbn in Hp.
  destruct (float_overflows x); [done|]. cbn in Hp. injection Hp as <- <-.
  apply forecast_hour_spec in Hh as [Hh Hin].
  exists d, t. split_and!; try done.
  cbn in Htruthy. apply negb_true_iff in Htruthy.
  intros Hx. apply Qeq_bool_iff in Hx. congruence.
Qed.

(** X10.  [_parse_generic_forecast] returns 48 slots whatever the list
    holds.  Slot [h] holds the sum of the powers of the periods that count
    for it, and a period counts for slot [h] only if it is a dict whose
    start (under ["period_start"], ["datetime"], ["start"] or ["time"])
    lies in hour [h] after [now]. *)
Theorem parse_generic_forecast_slots (forecast_data : list elem) (now : Q) :
  let forecast := _parse_generic_forecast forecast_data now in
  length forecast = 48 ∧
  (∀ h, h < 48 →
        forecast !! h = Some (py_sum (slot_powers (generic_period now) h forecast_data))) ∧
  (∀ period h p, generic_period now period = Some (h, p) →
     ∃ d t key, period = EDict d ∧
                key ∈ ["period_start"; "datetime"; "start"; "time"] ∧
                fromisoformat (entry_get d key) = Some t ∧
                h < 48 ∧ in_hour now h t).
Proof.
  intros forecast.
  destruct (forecast_slots (generic_period now) forecast_data) as [Hlen Hslot].
  split; [done|]. split; [done|].
  intros [d|v] h p Hp; [|done]. cbn in Hp.
  set (start := py_or _ _) in Hp.
  assert (∃ key, key ∈ ["period_start"; "datetime"; "start"; "time"]
                 ∧ start = entry_get d key) as (key & Hkey & Hstart).
  { subst start.
    destruct (py_or_either (py_or (py_or (entry_get d "period_start")
                                         (entry_get d "datetime"))
                                  (entry_get d "start"))
                           (entry_get d "time")) as [-> | ->];
      [|exists "time"; split; [set_solver | done]].
    destruct (py_or_either (py_or (entry_get d "period_start") (entry_get d "datetime"))
                           (entry_get d "start")) as [-> | ->];
      [|exists "start"; split; [set_solver | done]].
    destruct (py_or_either (entry_get d "period_start") (entry_get d "datetime"))
      as [-> | ->].
    - exists "period_start". split; [set_solver | done].
    - exists "datetime". split; [set_solver | done]. }
  clearbody start. subst start.
  destruct (truthy (entry_get d key)); [|done]. cbn in Hp.
  destruct (fromisoformat (entry_get d key)) as [t|] eqn:Ht; [|done].
  cbn in Hp. destruct (forecast_hour now t) as [h'|] eqn:Hh; [|done]. cbn in Hp.
  destruct (py_float _) as [x|]; [|done]. cbn in Hp. injection Hp as <- <-.
  apply forecast_hour_spec in Hh as [Hh Hin].
  by exists d, t, key.
Qed.

(** X11.  [_parse_watt_hours_forecast] returns 48 slots whatever the dict
    holds.  Slot [h] holds the sum of the values of the items that count
    for it, and an item counts for slot [h] exactly when its key is a
    timestamp in hour [h] after [now] and its value is a number. *)
Theorem parse_watt_hours_forecast_slots (wh_data : list (value * value)) (now : Q) :
  let forecast := _parse_watt_hours_forecast wh_data now in
  length forecast = 48 ∧
  (∀ h, h < 48 →
        forecast !! h = Some (py_sum (slot_powers (watt_hours_item now) h wh_data))) ∧
  (∀ item h p, watt_hours_item now item = Some (h, p) ↔
     ∃ t, fromisoformat item.1 = Some t ∧ py_float item.2 = Some p ∧
          h < 48 ∧ in_hour now h t).
Proof.
  intros forecast.
  destruct (forecast_slots (watt_hours_item now) wh_data) as [Hlen Hslot].
  split; [done|]. split; [done|].
  intros [k v] h p. unfold watt_hours_item. cbn [fst snd]. split.
  - destruct (fromisoformat k) as [t|]; [|done]. cbn.
    destruct (forecast_hour now t) as [h'|] eqn:Hh; [|done]. cbn.
    destruct (py_float v) as [x|]; [|done]. cbn. intros [= <- <-].
    apply forecast_hour_spec in Hh as [Hh Hin]. by exists t.
  - intros (t & -> & -> & Hh & Hin). cbn.
    by rewrite (proj2 (forecast_hour_spec now t h)).
Qed.

Lemma parse_watt_hours_forecast_slots_witness :
  let wh_data := [(VTime 1800, VNum 120); (VTime 3000, VNum 80); (VTime 7200, VNum 50);
                  (VStr "soon", VNum 999)]%Q in
  ∃ x, _parse_watt_hours_forecast wh_data 0 !! 0 = Some x ∧ (x == 200)%Q.
Proof.
  intros wh_data.
  destruct (parse_watt_hours_forecast_slots wh_data 0) as (_ & Hslot & _).
  eexists. split; [apply Hslot; lia | reflexivity].
Defined.

(** ** Nordpool prices *)

Lemma nordpool_day_snoc (first_hour : Z) (l : list elem) (x : elem) (prices : list Q) :
  nordpool_day first_hour (AList (l ++ [x])) prices
  = nordpool_day first_hour (AList l) prices
    ≫= nordpool_set (first_hour + Z.of_nat (length l)) x.
Proof.
  unfold nordpool_day. rewrite imap_app, foldl_app. cbn. by rewrite Nat.add_0_r.
Qed.

Lemma nordpool_set_spec hour_idx price prices :
  (nordpool_set hour_idx price prices = None
   ↔ (0 ≤ hour_idx < 48)%Z ∧ nordpool_float price = Overflow) ∧
  ∀ r, nordpool_set hour_idx price prices = Some r → length r = length prices.
Proof.
  unfold nordpool_set.
  destruct (bool_decide (0 ≤ hour_idx)%Z && bool_decide (hour_idx < 48)%Z) eqn:Hwin.
  - apply andb_prop in Hwin as [H0 H48].
    apply bool_decide_eq_true in H0. apply bool_decide_eq_true in H48.
    destruct (nordpool_float price) as [x| |]; (split; [split|]); try done.
    + by intros [_ ?].
    + intros r [= <-]. apply length_insert.
    + by intros [_ ?].
    + by intros r [= <-].
  - split; [split; [done|]|by intros r [= <-]].
    intros [Hin _]. apply andb_false_iff in Hwin as [H|H];
      apply bool_decide_eq_false in H; lia.
Qed.

Lemma nordpool_day_spec (first_hour : Z) (day : attr) (prices : list Q) :
  (nordpool_day first_hour day prices = None ↔ nordpool_overflow first_hour day) ∧
  ∀ r, nordpool_day first_hour day prices = Some r →
       length r = length prices ∧
       ∀ h, h < 48 → h < length prices →
            r !! h
            = Some (default (default 0%Q (prices !! h)) (nordpool_entry first_hour day h)).
Proof.
  assert (∀ h, h < length prices →
               prices !! h = Some (default 0%Q (prices !! h))) as Hsame.
  { intros h Hh. by destruct (lookup_lt_is_Some_2 prices h Hh) as [p ->]. }
  destruct day as [l|items|v]; cbn [nordpool_entry nordpool_day];
    try (split; [split; [done | by intros (? & ? & ? & ? & _)]|];
         intros r [= <-]; split; [done|]; intros h _ Hh; by apply Hsame).
  induction l as [|x l IH] using rev_ind.
  - split; [split; [done|]|].
    + intros (l & i & price & [= <-] & Hl & _). by rewrite lookup_nil in Hl.
    + intros r [= <-]. split; [done|]. intros h _ Hh. rewrite lookup_nil. cbn.
      rewrite (Hsame h Hh). by destruct (bool_decide _).
  - destruct IH as [Hnone IH].
    pose proof (nordpool_day_snoc first_hour l x prices) as Hsnoc.
    cbn [nordpool_day] in Hsnoc, Hnone, IH. rewrite Hsnoc. clear Hsnoc.
    destruct (foldl _ (Some prices) (imap pair l)) as [r|] eqn:Hday.
    + specialize (IH r eq_refl) as [Hlen IH]. cbn [mbind option_bind].
      destruct (nordpool_set_spec (first_hour + Z.of_nat (length l)) x r)
        as [Hset_none Hset_len].
      split; [split|].
      * intros Hset. apply Hset_none in Hset as [Hwin Hover].
        exists (l ++ [x]), (length l), x. split; [done|].
        split; [by rewrite lookup_app_r, Nat.sub_diag by lia | done].
      * intros (l' & i & price & [= <-] & Hl & Hwin & Hover).
        apply Hset_none.
        destruct (decide (i < length l)) as [Hlt|Hge].
        { rewrite lookup_app_l in Hl by done.
          assert (@None (list Q) = Some r) as Habs; [|done].
          rewrite <- (proj2 Hnone); [done|]. by exists l, i, price. }
        assert (i = length l) as ->.
        { apply lookup_lt_Some in Hl. rewrite length_app in Hl. cbn in Hl. lia. }
        rewrite lookup_app_r, Nat.sub_diag in Hl by lia. by injection Hl as <-.
      * intros r' Hset. split; [by rewrite (Hset_len r' Hset)|].
        intros h H48 Hh. specialize (IH h H48 Hh).
        unfold nordpool_set in Hset.
        destruct (decide (first_hour + Z.of_nat (length l) = Z.of_nat h)%Z) as [Heq|Hne].
        -- rewrite Heq in Hset. rewrite !bool_decide_eq_true_2 in Hset by lia.
           cbn [andb] in Hset.
           rewrite bool_decide_eq_true_2 in IH |- * by lia.
           replace (Z.to_nat (Z.of_nat h - first_hour)) with (length l) in IH |- * by lia.
           rewrite (lookup_ge_None_2 l (length l)) in IH by lia.
           rewrite (lookup_app_r l [x]), Nat.sub_diag by lia. cbn.
           destruct (nordpool_float x) as [p| |]; [| |done].
           ++ injection Hset as <-. rewrite Nat2Z.id.
              apply list_lookup_insert_eq. lia.
           ++ by injection Hset as <-.
        -- assert ((if bool_decide (first_hour ≤ Z.of_nat h)%Z
                    then price ← (l ++ [x]) !! Z.to_nat (Z.of_nat h - first_hour);
                         match nordpool_float price with
                         | Number x => Some x
                         | _ => None
                         end
                    else None)
                   = (if bool_decide (first_hour ≤ Z.of_nat h)%Z
                      then price ← l !! Z.to_nat (Z.of_nat h - first_hour);
                           match nordpool_float price with
                           | Number x => Some x
                           | _ => None
                           end
                      else None)) as ->.
           { destruct (bool_decide (first_hour ≤ Z.of_nat h)%Z) eqn:Hfirst; [|done].
             apply bool_decide_eq_true in Hfirst.
             destruct (decide (Z.to_nat (Z.of_nat h - first_hour) < length l)) as [Hlt|Hge].
             - by rewrite lookup_app_l.
             - rewrite !lookup_ge_None_2; [done | lia |].
               rewrite length_app. cbn. lia. }
           rewrite <- IH.
           destruct (_ && _) eqn:Hwin; [|by injection Hset as <-].
           destruct (nordpool_float x); [| |done].
           ++ injection Hset as <-.
              apply list_lookup_insert_ne. apply andb_prop in Hwin as [H0 _].
              apply bool_decide_eq_true in H0. lia.
           ++ by injection Hset as <-.
    + cbn [mbind option_bind]. split; [split; [|done]|done].
      intros _. destruct (proj1 Hnone eq_refl) as (l' & i & price & [= <-] & Hl & Hrest).
      exists (l ++ [x]), i, price. split; [done|].
      split; [by apply lookup_app_l_Some | done].
Qed.

Lemma parse_nordpool_slots_length today tomorrow current_hour prices :
  _parse_nordpool_prices today tomorrow current_hour = Some prices →
  length prices = 48.
Proof.
  unfold _parse_nordpool_prices.
  destruct (nordpool_day (- current_hour) today _) as [r|] eqn:Hday1; [|done].
  cbn [mbind option_bind]. intros Hday2.
  apply nordpool_day_spec in Hday1 as [Hlen1 _].
  apply nordpool_day_spec in Hday2 as [Hlen2 _].
  by rewrite Hlen2, Hlen1, length_replicate.
Qed.

(** X12.  [_parse_nordpool_prices] raises exactly when today's or
    tomorrow's list holds, at an entry that falls into the 48 hours, an int
    beyond the floats: the [OverflowError] of [float] is none of the two
    exceptions that the loops pass over.  Otherwise it returns 48 prices.
    Slot [h] holds tomorrow's entry [h - (24 - current_hour)] when
    tomorrow is a list that has this entry and it reads as a number;
    otherwise today's entry [h + current_hour] under the same conditions;
    otherwise 0.30. *)
Theorem parse_nordpool_prices_slots (today tomorrow : attr) (current_hour : Z) :
  let parsed := _parse_nordpool_prices today tomorrow current_hour in
  (parsed = None
   ↔ nordpool_overflow (- current_hour) today
     ∨ nordpool_overflow (24 - current_hour) tomorrow) ∧
  ∀ prices, parsed = Some prices →
    length prices = 48 ∧
    ∀ h, h < 48 →
         prices !! h
         = Some (default (default DEFAULT_PRICE (nordpool_entry (- current_hour) today h))
                         (nordpool_entry (24 - current_hour) tomorrow h)).
Proof.
  intros parsed. subst parsed. unfold _parse_nordpool_prices.
  destruct (nordpool_day_spec (- current_hour) today (replicate 48 DEFAULT_PRICE))
    as [Hnone1 Hday1].
  destruct (nordpool_day (- current_hour) today _) as [r|]; cbn [mbind option_bind].
  - specialize (Hday1 r eq_refl) as [Hlen1 Hday1].
    rewrite length_replicate in Hlen1, Hday1.
    destruct (nordpool_day_spec (24 - current_hour) tomorrow r) as [Hnone2 Hday2].
    split.
    + rewrite Hnone2. split; [by right|]. intros [Hover|Hover]; [|done].
      by apply Hnone1 in Hover.
    + intros prices Hprices. specialize (Hday2 prices Hprices) as [Hlen2 Hday2].
      rewrite Hlen1 in Hlen2, Hday2. split; [done|].
      intros h Hh. rewrite Hday2, Hday1 by done. cbn [default].
      by rewrite lookup_replicate_2.
  - split; [|done]. split; [|done]. intros _. left. by apply Hnone1.
Qed.

(** At midnight, a list whose second hour holds an int beyond the floats
    makes the method raise; the same list read at two o'clock, when that
    hour is over, gives 48 prices. *)
Lemma parse_nordpool_prices_slots_witness :
  let today := AList [EVal (VNum 0.25); EVal (VNum (inject_Z (2 ^ 1024)))] in
  _parse_nordpool_prices today (AVal VNone) 0 = None ∧
  ∃ prices, _parse_nordpool_prices today (AVal VNone) 2 = Some prices ∧
            length prices = 48.
Proof.
  intros today. split.
  - apply (parse_nordpool_prices_slots today (AVal VNone) 0). left.
    exists [EVal (VNum 0.25); EVal (VNum (inject_Z (2 ^ 1024)))], 1,
      (EVal (VNum (inject_Z (2 ^ 1024)))).
    split_and!; [done | done | lia | lia | by vm_compute].
  - eexists. split; [by vm_compute|].
    by apply (parse_nordpool_prices_slots today (AVal VNone) 2).
Defined.

(** ** The horizons of the sensor updates *)

Lemma finish_prices_dual_length (dicts : price_dicts) :
  length (finish_prices_dual dicts).1 = 48 ∧ length (finish_prices_dual dicts).2 = 192.
Proof.
  destruct dicts as [hourly_prices prices_15min_dict]. cbn.
  split; [apply build_hourly_spec|].
  case_bool_decide; [apply expand_hourly_to_15min_length | apply build_15min_spec].
Qed.

Lemma update_pv_forecast_length states config_str now data :
  length (EOSData.pv_forecast (_update_pv_forecast states config_str now data)) = 48.
Proof.
  unfold _update_pv_forecast.
  destruct (config_entity _ _) as [entity_id|]; [|done].
  destruct (states !! entity_id) as [state|]; [|done].
  cbn [set_pv_forecast EOSData.pv_forecast].
  destruct (attr_or _ _) as [[|p l]|items|v];
    try apply (forecast_slots (solcast_period now)).
  all: case_bool_decide.
  all: try (destruct (attr_get_default _ _ _); try done;
            apply (forecast_slots (generic_period now))).
  all: destruct (_ || _);
    [ destruct (attr_or _ _); try done; apply (forecast_slots (watt_hours_item now))
    | destruct (state_float _); [by rewrite length_insert | done] ].
Qed.

Lemma update_prices_length states config_str config now current_hour data :
  let data' := _update_prices states config_str config now current_hour data in
  length (EOSData.prices data') = 48 ∧ length (EOSData.prices_15min data') = 192.
Proof.
  unfold _update_prices.
  destruct (String.eqb _ _); [split; reflexivity|].
  destruct (config_entity _ _) as [entity_id|]; [|done].
  destruct (states !! entity_id) as [state|]; [|done].
  match goal with
  | |- context [let '(a, b) := ?p in _] =>
      assert (length p.1 = 48 ∧ length p.2 = 192) as Hp; [|by destruct p]
  end.
  case_bool_decide.
  { destruct (attr_get_default _ _ _) as [[|e l]|items|v]; try done.
    apply finish_prices_dual_length. }
  destruct (_ || _).
  { destruct (_parse_nordpool_prices _ _ _) as [prices|] eqn:Hparsed; [|done].
    cbn [fst snd]. split; [|apply expand_hourly_to_15min_length].
    by apply parse_nordpool_slots_length in Hparsed. }
  case_bool_decide.
  { destruct (attr_get_default _ _ _) as [l|items|v]; try done.
    apply finish_prices_dual_length. }
  by destruct (state_float _).
Qed.

Lemma sensor_horizons_load states config_str data :
  length (EOSData.load_profile (_update_load_data states config_str data)) = 48.
Proof.
  unfold _update_load_data.
  destruct (config_entity _ _) as [sensor_id|]; [|done].
  destruct (states !! sensor_id) as [state|]; [|done].
  destruct (state_known _); [|done]. by destruct (state_float _).
Qed.

(** X13.  Whatever the sensors hold, the updates leave series of the
    length the optimizer works with: 48 values of load, 48 of PV forecast,
    48 hourly prices and 192 quarter-hourly prices. *)
Theorem sensor_updates_horizons
    (states : gmap string State.t) (config_str : gmap string string)
    (config : gmap string Q) (now : Q) (current_hour : Z) (data : EOSData.t) :
  length (EOSData.load_profile (_update_load_data states config_str data)) = 48 ∧
  length (EOSData.pv_forecast (_update_pv_forecast states config_str now data)) = 48 ∧
  length (EOSData.prices
            (_update_prices states config_str config now current_hour data)) = 48 ∧
  length (EOSData.prices_15min
            (_update_prices states config_str config now current_hour data)) = 192.
Proof.
  split; [apply sensor_horizons_load|].
  split; [apply update_pv_forecast_length | apply update_prices_length].
Qed.

(** ** The cycle over the sensors *)

(** The handlers write the state of the optimization and nothing else. *)
Lemma raised_in_try_frame (e : Exn.t) (d : EOSData.t) :
  EOSData.control (raised_in_try e d).2 = EOSData.control d ∧
  EOSData.prices (raised_in_try e d).2 = EOSData.prices d ∧
  EOSData.battery (raised_in_try e d).2 = EOSData.battery d.
Proof. unfold raised_in_try. by destruct (handled e). Qed.

Lemma update_battery_soc_frame states config_str data :
  let data' := _update_battery_soc states config_str data in
  EOSData.control data' = EOSData.control data ∧
  EOSData.pv_forecast data' = EOSData.pv_forecast data ∧
  EOSData.prices data' = EOSData.prices data ∧
  EOSData.prices_15min data' = EOSData.prices_15min data ∧
  EOSData.load_profile data' = EOSData.load_profile data.
Proof.
  unfold _update_battery_soc.
  destruct (config_entity _ _) as [sensor_id|]; [|done].
  destruct (states !! sensor_id) as [state|]; [|done].
  destruct (state_known _); [|done]. by destruct (state_float _).
Qed.

Lemma update_load_data_set states config_str data :
  ∃ l, _update_load_data states config_str data = set_load_profile l data.
Proof.
  unfold _update_load_data.
  destruct (config_entity _ _) as [sensor_id|]; [|by eexists].
  destruct (states !! sensor_id) as [state|]; [|by eexists].
  destruct (state_known _); [|by eexists]. destruct (state_float _); by eexists.
Qed.

Lemma update_pv_forecast_set states config_str now data :
  ∃ l, _update_pv_forecast states config_str now data = set_pv_forecast l data.
Proof.
  unfold _update_pv_forecast.
  destruct (config_entity _ _) as [entity_id|]; [|by eexists].
  destruct (states !! entity_id) as [state|]; by eexists.
Qed.

Lemma update_prices_set states config_str config now current_hour data :
  ∃ p q, _update_prices states config_str config now current_hour data
         = set_prices p q data.
Proof.
  unfold _update_prices.
  destruct (String.eqb _ _); [by eexists _, _|].
  destruct (config_entity _ _) as [entity_id|]; [|by eexists _, _].
  destruct (states !! entity_id) as [state|]; [|by eexists _, _].
  match goal with
  | |- context [let '(a, b) := ?parsed in _] => destruct parsed as [p q]
  end.
  by exists p, q.
Qed.

Section ClientFacts.
Variable states : gmap string State.t.
Variable config_str : gmap string string.
Variable config : gmap string Q.
Variable charging_curve_enabled : bool.
Variable eos_at_least_0_0_2 : bool.
Variable now_pv : Q.
Variable now_prices : Q.
Variable hour_prices : Z.
Variable _get_session : outcome unit.
Variable now : Q.
Variable current_hour : Z.
Variable post : Request.t → Z → outcome HttpResponse.t.
Variable _fire_control_event : EOSData.t → outcome unit.

(** [self._data] after the four updates and [_update_battery_state]. *)
Let sensors (data : EOSData.t) : EOSData.t :=
  _update_battery_state config charging_curve_enabled
    (_update_prices states config_str config now_prices hour_prices
       (_update_pv_forecast states config_str now_pv
          (_update_load_data states config_str
             (_update_battery_soc states config_str data)))).

Lemma client_prepare_unfold (data : EOSData.t) :
  EOSClient.run_optimization_prepare states config_str config charging_curve_enabled
    eos_at_least_0_0_2 now_pv now_prices hour_prices _get_session data
  = (match _get_session with
     | Return _ =>
         Return (_build_optimization_request config eos_at_least_0_0_2 (sensors data))
     | Raise e => Raise e
     end, sensors data).
Proof.
  unfold EOSClient.run_optimization_prepare, run_optimization_prepare, modify, gets,
    lift, mbind, M_bind, mret, M_ret, sensors.
  by destruct _get_session as [[]|e].
Qed.

Lemma sensors_frame (data : EOSData.t) :
  EOSData.control (sensors data) = EOSData.control data ∧
  length (EOSData.pv_forecast (sensors data)) = 48 ∧
  length (EOSData.prices (sensors data)) = 48 ∧
  length (EOSData.prices_15min (sensors data)) = 192 ∧
  length (EOSData.load_profile (sensors data)) = 48.
Proof.
  unfold sensors.
  set (d1 := _update_battery_soc states config_str data).
  destruct (update_battery_soc_frame states config_str data) as (Hc1 & _).
  fold d1 in Hc1.
  pose proof (sensor_horizons_load states config_str d1) as Hload.
  destruct (update_load_data_set states config_str d1) as [l Hd2].
  set (d2 := _update_load_data states config_str d1) in *.
  pose proof (update_pv_forecast_length states config_str now_pv d2) as Hpv.
  destruct (update_pv_forecast_set states config_str now_pv d2) as [f Hd3].
  set (d3 := _update_pv_forecast states config_str now_pv d2) in *.
  destruct (update_prices_length states config_str config now_prices hour_prices d3)
    as [Hp Hq].
  destruct (update_prices_set states config_str config now_prices hour_prices d3)
    as (p & q & Hd4).
  set (d4 := _update_prices states config_str config now_prices hour_prices d3) in *.
  clearbody d4 d3 d2 d1. subst d4 d3 d2.
  unfold _update_battery_state. cbn in *. by rewrite Hc1.
Qed.
End ClientFacts.

(** A request built from full series carries them as they are. *)
Lemma build_optimization_request_full config eos_at_least_0_0_2 data :
  length (EOSData.pv_forecast data) = 48 →
  length (EOSData.prices data) = 48 →
  length (EOSData.load_profile data) = 48 →
  Request.ems (_build_optimization_request config eos_at_least_0_0_2 data)
  = Ems.mk (EOSData.pv_forecast data)
           ((λ p, p / 1000)%Q <$> EOSData.prices data)
           (replicate 48 (config_get config CONF_FEED_IN_PRICE DEFAULT_FEED_IN_PRICE
                          / 1000)%Q)
           (EOSData.load_profile data).
Proof.
  intros Hpv Hprices Hload. unfold _build_optimization_request, EOS_TGT_DURATION.
  cbn [Request.ems].
  destruct (EOSData.pv_forecast data) as [|x l] eqn:Epv; [done|].
  destruct (EOSData.prices data) as [|y m] eqn:Eprices; [done|].
  destruct (EOSData.load_profile data) as [|z n] eqn:Eload; [done|].
  cbn [list_truthy].
  rewrite !take_ge by lia. rewrite !append_while_ge by lia. done.
Qed.

(** X14.  When [async_run_optimization] has prepared its request,
    [self._data] holds full series whatever the sensors said, and the
    request carries them as they are: the PV forecast and the load
    unchanged, the prices divided by 1000, nothing cut and nothing
    padded. *)
Theorem request_carries_sensor_series
    (states : gmap string State.t) (config_str : gmap string string)
    (config : gmap string Q) (charging_curve_enabled eos_at_least_0_0_2 : bool)
    (now_pv now_prices : Q) (hour_prices : Z) (_get_session : outcome unit)
    (data : EOSData.t) :
  let prepared :=
    EOSClient.run_optimization_prepare states config_str config charging_curve_enabled
      eos_at_least_0_0_2 now_pv now_prices hour_prices _get_session data in
  length (EOSData.pv_forecast prepared.2) = 48 ∧
  length (EOSData.prices prepared.2) = 48 ∧
  length (EOSData.prices_15min prepared.2) = 192 ∧
  length (EOSData.load_profile prepared.2) = 48 ∧
  ∀ request_data, prepared.1 = Return request_data →
    Ems.pv_prognose_wh (Request.ems request_data) = EOSData.pv_forecast prepared.2 ∧
    Ems.strompreis_euro_pro_wh (Request.ems request_data)
    = (λ p, p / 1000)%Q <$> EOSData.prices prepared.2 ∧
    Ems.gesamtlast (Request.ems request_data) = EOSData.load_profile prepared.2.
Proof.
  intros prepared. subst prepared. rewrite client_prepare_unfold. cbn [fst snd].
  destruct (sensors_frame states config_str config charging_curve_enabled
              now_pv now_prices hour_prices data) as (_ & Hpv & Hp & Hq & Hload).
  split_and!; try done.
  intros request_data Hreq. destruct _get_session as [[]|e]; [|done].
  injection Hreq as <-.
  by rewrite build_optimization_request_full.
Qed.

Lemma update_control_state_override (config : gmap string Q) (data : EOSData.t) :
  ControlState.override_active (EOSData.control data) = true →
  override_of (EOSData.control (_update_control_state config data))
  = override_of (EOSData.control data).
Proof.
  intros Hov. unfold _update_control_state.
  destruct (_ || _); [done|].
  destruct (OptimizationResult.ac_charge _), (OptimizationResult.dc_charge _),
    (OptimizationResult.discharge_allowed _); cbn; by rewrite Hov.
Qed.

(** X15.  An override never ends by itself.  Whatever the time is, whatever
    the sensors say and however the optimizer answers or fails, a cycle of
    [async_run_optimization] that starts under an override leaves the
    override active, with its mode, its end time and its power; and
    [async_update] leaves the whole control state as it was. *)
Theorem override_outlives_cycle
    (states : gmap string State.t) (config_str : gmap string string)
    (config : gmap string Q) (charging_curve_enabled eos_at_least_0_0_2 : bool)
    (now_pv now_prices : Q) (hour_prices : Z) (_get_session : outcome unit)
    (now : Q) (current_hour : Z) (post : Request.t → Z → outcome HttpResponse.t)
    (_fire_control_event : EOSData.t → outcome unit) (data : EOSData.t) :
  ControlState.override_active (EOSData.control data) = true →
  override_of
    (EOSData.control
       (EOSClient.async_run_optimization states config_str config
          charging_curve_enabled eos_at_least_0_0_2 now_pv now_prices hour_prices
          _get_session now current_hour post _fire_control_event data).2)
  = override_of (EOSData.control data) ∧
  EOSData.control
    (EOSClient.async_update states config_str config charging_curve_enabled
       now_pv now_prices hour_prices data).2
  = EOSData.control data.
Proof.
  intros Hov.
  destruct (sensors_frame states config_str config charging_curve_enabled
              now_pv now_prices hour_prices data) as (Hc & _).
  split.
  - unfold EOSClient.async_run_optimization.
    rewrite async_run_optimization_unfold, run_optimization_try_unfold.
    pose proof (client_prepare_unfold states config_str config charging_curve_enabled
                  eos_at_least_0_0_2 now_pv now_prices hour_prices _get_session data)
      as Hprep.
    unfold EOSClient.run_optimization_prepare in Hprep. rewrite Hprep. clear Hprep.
    set (d := _update_battery_state _ _ _) in *. clearbody d.
    assert (∀ e, override_of (EOSData.control (raised_in_try e d).2)
                 = override_of (EOSData.control data)) as Hraised.
    { intros e. destruct (raised_in_try_frame e d) as (-> & _). by rewrite Hc. }
    destruct _get_session as [[]|e]; [|done].
    destruct (post _ current_hour) as [resp|e]; [|done].
    case_bool_decide.
    + destruct (HttpResponse.json resp) as [response|e]; [|done].
      cbv zeta.
      assert (override_of
                (EOSData.control
                   (_update_control_state config
                      (EOSData.set_optimization
                         (_parse_optimization_response now current_hour response d).1
                         (_parse_optimization_response now current_hour response d).2)))
              = override_of (EOSData.control data)) as Hkept.
      { rewrite update_control_state_override; cbn [EOSData.set_optimization
          EOSData.control]; rewrite parse_response_control, Hc; done. }
      destruct (_fire_control_event _) as [[]|e]; [done|].
      by destruct (raised_in_try_frame e (EOSData.set_optimization_state "ok"
        (EOSData.set_next_optimization
           (Some (now + 60 * config_get config CONF_REFRESH_TIME DEFAULT_REFRESH_TIME)%Q)
           (EOSData.set_last_optimization (Some now)
              (_update_control_state config
                 (EOSData.set_optimization
                    (_parse_optimization_response now current_hour response d).1
                    (_parse_optimization_response now current_hour response d).2))))))
        as (-> & _).
    + destruct (HttpResponse.text resp); [by cbn; rewrite Hc | done].
  - unfold EOSClient.async_update, async_update, try_except, modify, gets, mbind,
      M_bind. cbn. exact Hc.
Qed.

Lemma override_outlives_cycle_witness :
  let data := async_set_override 0 AVOID_DISCHARGE 60 0 EOSData.new in
  let post := λ (_ : Request.t) (_ : Z),
    Return (HttpResponse.mk 200
              (Return (Response.mk None (Some [1]%Q) (Some [1]%Q) (Some [1]%Q)
                         None None None))
              (Return "")) in
  ControlState.override_active (EOSData.control data) = true ∧
  override_of
    (EOSData.control
       (EOSClient.async_run_optimization ∅ ∅ ∅ false true 0 0 0 (Return ())
          86400 0 post (λ _, Return ()) data).2)
  = (AVOID_DISCHARGE, true, Some 3600%Q, 0%Q).
Proof.
  intros data post. split; [reflexivity|].
  destruct (override_outlives_cycle ∅ ∅ ∅ false true 0 0 0 (Return ()) 86400 0
              post (λ _, Return ()) data) as [-> _]; reflexivity.
Defined.

(** X16.  An answer with status 200 whose body carries the key ["error"]
    is taken as a success: when the session is there and the control event
    is fired, the cycle ends in the state ["ok"], the result before is
    replaced by the empty one, and the control state stays as it was. *)
Theorem error_answer_reads_ok
    (states : gmap string State.t) (config_str : gmap string string)
    (config : gmap string Q) (charging_curve_enabled eos_at_least_0_0_2 : bool)
    (now_pv now_prices : Q) (hour_prices : Z)
    (now : Q) (current_hour : Z) (post : Request.t → Z → outcome HttpResponse.t)
    (_fire_control_event : EOSData.t → outcome unit)
    (response : Response.t) (text : outcome string) (data : EOSData.t) :
  (∀ request_data hour,
     post request_data hour = Return (HttpResponse.mk 200 (Return response) text)) →
  is_Some (Response.error response) →
  (∀ d, _fire_control_event d = Return ()) →
  let cycle :=
    EOSClient.async_run_optimization states config_str config
      charging_curve_enabled eos_at_least_0_0_2 now_pv now_prices hour_prices
      (Return ()) now current_hour post _fire_control_event data in
  cycle.1 = Return OptimizationResult.new ∧
  EOSData.optimization_state cycle.2 = "ok" ∧
  EOSData.optimization cycle.2 = OptimizationResult.new ∧
  EOSData.last_optimization cycle.2 = Some now ∧
  EOSData.control cycle.2 = EOSData.control data.
Proof.
  intros Hpost [msg Hmsg] Hfire cycle. subst cycle.
  destruct (sensors_frame states config_str config charging_curve_enabled
              now_pv now_prices hour_prices data) as (Hc & _).
  unfold EOSClient.async_run_optimization.
  rewrite async_run_optimization_unfold, run_optimization_try_unfold.
  pose proof (client_prepare_unfold states config_str config charging_curve_enabled
                eos_at_least_0_0_2 now_pv now_prices hour_prices (Return ()) data)
    as Hprep.
  unfold EOSClient.run_optimization_prepare in Hprep. rewrite Hprep. clear Hprep.
  set (d := _update_battery_state _ _ _) in *. clearbody d.
  rewrite Hpost. cbn [HttpResponse.status HttpResponse.json].
  rewrite bool_decide_eq_true_2 by done. cbv zeta. rewrite Hfire.
  unfold _parse_optimization_response. rewrite Hmsg. cbn. done.
Qed.

Lemma error_answer_reads_ok_witness :
  let response :=
    Response.mk (Some "no solution") None None None None None None in
  let post := λ (_ : Request.t) (_ : Z),
    Return (HttpResponse.mk 200 (Return response) (Return "")) in
  EOSData.optimization_state
    (EOSClient.async_run_optimization ∅ ∅ ∅ false true 0 0 0 (Return ())
       0 0 post (λ _, Return ()) EOSData.new).2
  = "ok".
Proof.
  intros response post.
  destruct (error_answer_reads_ok ∅ ∅ ∅ false true 0 0 0 0 0 post (λ _, Return ())
              response (Return "") EOSData.new) as (_ & Hstate & _);
    [done | by eexists | done | exact Hstate].
Defined.

(** ** The books of the savings tracker *)

(** X17.  What the floats leave of the books of the savings tracker.  The
    grid import and the energy charged from the grid receive the same
    additions: equal before [_update_savings], they are equal after it.
    The feed-in revenue and the grid export are never written.  But the
    three counters of the charged energy are summed up one by one, each sum
    rounded for itself: in the tracker in which nothing is booked yet the
    charged energy is the sum of the energy from PV and the energy from the
    grid, and there is a run of updates from it after which it is not. *)
Theorem update_savings_ledger :
  (∀ (today : string) (self : Float64.Coordinator.t) (data : Float64.EOSData.t),
     let before := Float64.EOSData.savings data in
     let after := Float64.EOSData.savings (Float64._update_savings today (self, data)).2 in
     (Float64.SavingsTracker.total_grid_import_kwh before
      = Float64.SavingsTracker.total_grid_charged_kwh before →
      Float64.SavingsTracker.total_grid_import_kwh after
      = Float64.SavingsTracker.total_grid_charged_kwh after) ∧
     Float64.SavingsTracker.total_feed_in_revenue_eur after
     = Float64.SavingsTracker.total_feed_in_revenue_eur before ∧
     Float64.SavingsTracker.total_grid_export_kwh after
     = Float64.SavingsTracker.total_grid_export_kwh before) ∧
  books_balance (Float64.EOSData.savings fresh_start.2) ∧
  (∃ (today : string) (readings : list (float * InverterMode)),
     ¬ books_balance
         (Float64.EOSData.savings (savings_readings today readings fresh_start).2)).
Proof.
  split_and!.
  - intros today self data before after. subst after.
    assert ((Float64.SavingsTracker.total_grid_import_kwh before
             = Float64.SavingsTracker.total_grid_charged_kwh before →
             Float64.SavingsTracker.total_grid_import_kwh
               (Float64.reset_today today before)
             = Float64.SavingsTracker.total_grid_charged_kwh
                 (Float64.reset_today today before)) ∧
            Float64.SavingsTracker.total_feed_in_revenue_eur
              (Float64.reset_today today before)
            = Float64.SavingsTracker.total_feed_in_revenue_eur before ∧
            Float64.SavingsTracker.total_grid_export_kwh
              (Float64.reset_today today before)
            = Float64.SavingsTracker.total_grid_export_kwh before) as Hreset.
    { unfold Float64.reset_today. by case_bool_decide. }
    unfold Float64._update_savings. fold before.
    destruct (Float64.EOSData.prices data) as [|current_price ?]; [done|].
    set (s := Float64.reset_today today before) in *. clearbody s.
    destruct (Float64.Coordinator._last_soc self) as [last_soc|]; [|done].
    destruct (PrimFloat.abs _ <? _)%float; [done|].
    destruct Hreset as (Hgrid & <- & <-).
    destruct (0 <? _)%float; cbn; [|done].
    split; [|done]. intros Heq. rewrite (Hgrid Heq). done.
  - reflexivity.
  - (* 0.1 kWh from PV, 0.1 kWh from the grid, 0.4 kWh from PV: the total
       reads 0.6000000000000001, the two parts add up to 0.6. *)
    exists "2024-05-01", [(51, AUTO); (52, CHARGE_FROM_GRID); (56, AUTO)]%float.
    unfold books_balance. intros Heq.
    apply (f_equal (λ x, (0.6 <? x)%float)) in Heq.
    by vm_compute in Heq.
Qed.







(** ** The EV charging controller *)

Lemma evcc_loop_spec (vehicles : gmap string (option string))
    (loadpoints : list LoadpointJson.t) :
  let acc := foldl (evcc_loadpoint vehicles) (mk_evcc_loop [] false "off" 0) loadpoints in
  (λ l, (EVCCLoadpoint.mode l, EVCCLoadpoint.charging l)) <$> loop_loadpoints acc
  = (λ lp, (lp_mode lp, lp_charging lp)) <$> loadpoints ∧
  (loop_charging_state acc = true ↔ ∃ lp, lp ∈ loadpoints ∧ lp_charging lp = true) ∧
  loop_highest_mode_priority acc = mode_priority (loop_charging_mode acc) ∧
  (∀ lp, lp ∈ loadpoints → lp_charging lp = true →
         mode_priority (lp_mode lp) ≤ loop_highest_mode_priority acc) ∧
  (loop_charging_mode acc = "off" ∨
   ∃ lp, lp ∈ loadpoints ∧ lp_charging lp = true ∧ loop_charging_mode acc = lp_mode lp).
Proof.
  induction loadpoints as [|x l IH] using rev_ind.
  - cbn. split_and!; try done.
    + split; [done|]. intros (lp & Hlp & _). by apply elem_of_nil in Hlp.
    + intros lp Hlp. by apply elem_of_nil in Hlp.
    + by left.
  - cbv zeta in *. rewrite foldl_app. cbn [foldl].
    set (acc := foldl (evcc_loadpoint vehicles) _ l) in *. clearbody acc.
    destruct IH as (Hlps & Hstate & Hprio & Hmax & Hmode).
    unfold evcc_loadpoint.
    cbn [loop_loadpoints loop_charging_state loop_charging_mode
         loop_highest_mode_priority].
    fold (lp_mode x). fold (lp_charging x).
    split_and!.
    + rewrite !fmap_app, Hlps. done.
    + rewrite orb_true_iff, Hstate. split.
      * intros [(lp & Hlp & Hc) | Hc].
        -- exists lp. split; [|done]. apply elem_of_app. by left.
        -- exists x. split; [|done]. apply elem_of_app. right. by apply list_elem_of_singleton.
      * intros (lp & Hlp & Hc). apply elem_of_app in Hlp as [Hlp | Hlp].
        -- left. by exists lp.
        -- apply list_elem_of_singleton in Hlp as ->. by right.
    + by destruct (lp_charging x && _).
    + intros lp Hlp Hc. apply elem_of_app in Hlp as [Hlp | Hlp].
      * specialize (Hmax lp Hlp Hc).
        destruct (lp_charging x && _) eqn:Hraised; [|done].
        apply andb_prop in Hraised as [_ Hlt]. apply bool_decide_eq_true in Hlt. lia.
      * apply list_elem_of_singleton in Hlp as ->. rewrite Hc. cbn [andb].
        case_bool_decide; lia.
    + destruct (lp_charging x && _) eqn:Hraised.
      * right. exists x. apply andb_prop in Hraised as [Hc _].
        split_and!; try done. apply elem_of_app. right. by apply list_elem_of_singleton.
      * destruct Hmode as [Hoff | (lp & Hlp & Hc & Hm)]; [by left|].
        right. exists lp. split_and!; try done. apply elem_of_app. by left.
Qed.

(** X19.  [_parse_evcc_state] reports the loadpoints in their order, each
    with its mode (["off"] when it has none) and its charging flag.  The
    charging state is on exactly when some loadpoint charges.  Then the
    charging mode is ["off"] or the mode of a charging loadpoint, and no
    charging loadpoint has a mode of higher priority; otherwise it is the
    mode of the first loadpoint, or ["off"] without loadpoints.  The
    battery mode is left alone. *)
Theorem parse_evcc_state_charging
    (loadpoints : list LoadpointJson.t) (vehicles : gmap string (option string))
    (evcc : EVCCState.t) :
  let evcc' := _parse_evcc_state loadpoints vehicles evcc in
  (λ l, (EVCCLoadpoint.mode l, EVCCLoadpoint.charging l)) <$> EVCCState.loadpoints evcc'
  = (λ lp, (lp_mode lp, lp_charging lp)) <$> loadpoints ∧
  (EVCCState.charging_state evcc' = true
   ↔ ∃ lp, lp ∈ loadpoints ∧ lp_charging lp = true) ∧
  (EVCCState.charging_state evcc' = true →
   (∀ lp, lp ∈ loadpoints → lp_charging lp = true →
          mode_priority (lp_mode lp) ≤ mode_priority (EVCCState.charging_mode evcc')) ∧
   (EVCCState.charging_mode evcc' = "off" ∨
    ∃ lp, lp ∈ loadpoints ∧ lp_charging lp = true ∧
          EVCCState.charging_mode evcc' = lp_mode lp)) ∧
  (EVCCState.charging_state evcc' = false →
   EVCCState.charging_mode evcc' = default "off" (lp_mode <$> head loadpoints)) ∧
  EVCCState.battery_mode evcc' = EVCCState.battery_mode evcc.
Proof.
  intros evcc'. subst evcc'. unfold _parse_evcc_state.
  destruct (evcc_loop_spec vehicles loadpoints) as (Hlps & Hstate & Hprio & Hmax & Hmode).
  cbv zeta in *.
  set (acc := foldl (evcc_loadpoint vehicles) _ loadpoints) in *. clearbody acc.
  cbn [EVCCState.loadpoints EVCCState.charging_state EVCCState.charging_mode
       EVCCState.battery_mode].
  split_and!; try done.
  - intros Hc. rewrite Hc. rewrite <- Hprio. done.
  - intros Hc. rewrite Hc. by destruct loadpoints.
Qed.

(** X20.  [async_set_evcc_battery_mode] answers [True] exactly when the
    controller is enabled, its address is set, the mode is one of the
    three it knows, the session is there, and the post to the endpoint of
    that mode is answered with status 200; only then does the remembered
    battery mode change.  It tries one post, to that endpoint, when the
    first three conditions hold and the session is there, and none
    otherwise: an exception of [_get_session] ends the method before any
    post.  It raises exactly when the session or the post raises what is
    no instance of [Exception]. *)
Theorem set_evcc_battery_mode_posts
    (evcc_enabled : bool) (evcc_url : string) (_get_session : outcome unit)
    (post : string → outcome Z) (mode : string) (evcc : EVCCState.t) :
  let result :=
    async_set_evcc_battery_mode evcc_enabled evcc_url _get_session post mode evcc in
  let url := (evcc_url ++ "/api/batterymode/" ++ mode)%string in
  let ready := evcc_enabled = true ∧ evcc_url ≠ "" ∧ mode ∈ evcc_battery_modes in
  (result.1.1 = Return true
   ↔ ready ∧ _get_session = Return () ∧ post url = Return 200%Z) ∧
  (result.1.1 = Return true → EVCCState.battery_mode result.1.2 = mode) ∧
  (result.1.1 ≠ Return true → result.1.2 = evcc) ∧
  (ready ∧ _get_session = Return () → result.2 = [url]) ∧
  (¬ (ready ∧ _get_session = Return ()) → result.2 = []) ∧
  (∀ e, result.1.1 = Raise e
        ↔ Exn.is_exception e = false ∧ ready ∧
          (_get_session = Raise e
           ∨ _get_session = Return () ∧ post url = Raise e)).
Proof.
  intros result url ready. subst result url ready.
  unfold async_set_evcc_battery_mode.
  destruct evcc_enabled; cbn [negb orb]; [|cbn [fst snd]; finish_cases].
  destruct (String.eqb_spec evcc_url "") as [->|Hurl]; [cbn [fst snd]; finish_cases|].
  set (endpoint := if String.eqb mode EVCC_BATTERY_HOLD then _ else _).
  assert (endpoint = if bool_decide (mode ∈ evcc_battery_modes)
                     then Some (evcc_url ++ "/api/batterymode/" ++ mode)%string
                     else None) as ->.
  { subst endpoint. unfold evcc_battery_modes.
    destruct (String.eqb_spec mode EVCC_BATTERY_HOLD) as [->|Hhold].
    { rewrite bool_decide_eq_true_2; [done | by left]. }
    destruct (String.eqb_spec mode EVCC_BATTERY_NORMAL) as [->|Hnormal].
    { rewrite bool_decide_eq_true_2; [done | right; by left]. }
    destruct (String.eqb_spec mode EVCC_BATTERY_CHARGE) as [->|Hcharge].
    { rewrite bool_decide_eq_true_2; [done | right; right; by left]. }
    rewrite bool_decide_eq_false_2; [done|].
    rewrite !elem_of_cons, elem_of_nil. tauto. }
  case_bool_decide as Hmode; [|cbn [fst snd]; finish_cases].
  cbv zeta.
  destruct _get_session as [[]|e'].
  2:{ destruct (Exn.is_exception e') eqn:He'; cbn [fst snd]; finish_cases. }
  destruct (post _) as [status|e'].
  2:{ destruct (Exn.is_exception e') eqn:He'; cbn [fst snd]; finish_cases. }
  case_bool_decide as Hstatus; cbn [fst snd]; [subst status|]; finish_cases.
Qed.

Lemma set_evcc_battery_mode_posts_witness :
  (async_set_evcc_battery_mode true "http://evcc.local:7070" (Return ())
     (λ _, Return 200%Z) "hold" EVCCState.new).2
  = ["http://evcc.local:7070/api/batterymode/hold"].
Proof.
  destruct (set_evcc_battery_mode_posts true "http://evcc.local:7070" (Return ())
              (λ _, Return 200%Z) "hold" EVCCState.new) as (_ & _ & _ & Hposts & _).
  apply Hposts. split_and!; [done | done | by left | done].
Defined.

(** ** The refinement by quarters of an hour *)

Lemma py_min_in (x : Q) (l : list Q) : py_min x l ∈ x :: l.
Proof.
  unfold py_min. revert x. induction l as [|y l IH]; intros x; cbn [foldl].
  - by left.
  - specialize (IH (if Qlt_bool y x then y else x)).
    destruct (Qlt_bool y x); [by right|].
    apply elem_of_cons in IH as [-> | IH]; [by left | by do 2 right].
Qed.

Lemma py_max_in (x : Q) (l : list Q) : py_max x l ∈ x :: l.
Proof.
  unfold py_max. revert x. induction l as [|y l IH]; intros x; cbn [foldl].
  - by left.
  - specialize (IH (if Qlt_bool x y then y else x)).
    destruct (Qlt_bool x y); [by right|].
    apply elem_of_cons in IH as [-> | IH]; [by left | by do 2 right].
Qed.

(** The four prices of an hour, when the series reaches that far. *)
Lemma hour_slice (hour : nat) (prices_15min : list Q) :
  4 * hour + 4 ≤ length prices_15min →
  ∃ p0 p1 p2 p3,
    py_slice (hour * 4) (hour * 4 + 4) prices_15min = [p0; p1; p2; p3] ∧
    ∀ i, i < 4 → prices_15min !! (hour * 4 + i) = [p0; p1; p2; p3] !! i.
Proof.
  intros Hlen. unfold py_slice.
  replace (hour * 4 + 4 - hour * 4) with 4 by lia.
  assert (4 ≤ length (drop (hour * 4) prices_15min)) as Hdrop
    by (rewrite length_drop; lia).
  assert (∀ i, prices_15min !! (hour * 4 + i) = drop (hour * 4) prices_15min !! i) as Hi
    by (intros i; by rewrite lookup_drop).
  destruct (drop (hour * 4) prices_15min) as [|p0 [|p1 [|p2 [|p3 q]]]];
    cbn in Hdrop; try lia.
  exists p0, p1, p2, p3. split; [done|].
  intros i Hlt. rewrite Hi. by destruct i as [|[|[|[|i]]]]; [..|lia].
Qed.

(** X21.  With the four quarter-hour prices of the current hour at hand,
    [_sync_evcc_battery_mode_15min] finds a mode in every quarter, and it
    is one the controller knows: always "hold" under AVOID_DISCHARGE,
    never "normal" under CHARGE_FROM_GRID, never "charge" under
    DISCHARGE_ALLOWED.  Under CHARGE_FROM_GRID at least one quarter of the
    hour gets "charge", and under DISCHARGE_ALLOWED at least one gets
    "normal". *)
Theorem refined_evcc_mode_quarters (hour : nat) (data : EOSData.t) :
  4 * hour + 4 ≤ length (EOSData.prices_15min data) →
  let eos_mode := ControlState.mode (EOSData.control data) in
  (∀ minute, minute < 60 →
     ∃ evcc_mode,
       refined_evcc_mode hour minute data = Some evcc_mode ∧
       evcc_mode ∈ evcc_battery_modes ∧
       (eos_mode = AVOID_DISCHARGE → evcc_mode = EVCC_BATTERY_HOLD) ∧
       (eos_mode = CHARGE_FROM_GRID → evcc_mode ≠ EVCC_BATTERY_NORMAL) ∧
       (eos_mode = DISCHARGE_ALLOWED → evcc_mode ≠ EVCC_BATTERY_CHARGE)) ∧
  (eos_mode = CHARGE_FROM_GRID →
   ∃ minute, minute < 60 ∧ refined_evcc_mode hour minute data = Some EVCC_BATTERY_CHARGE) ∧
  (eos_mode = DISCHARGE_ALLOWED →
   ∃ minute, minute < 60 ∧ refined_evcc_mode hour minute data = Some EVCC_BATTERY_NORMAL).
Proof.
  intros Hlen eos_mode. subst eos_mode.
  destruct (hour_slice hour (EOSData.prices_15min data)) as (p0 & p1 & p2 & p3 & Hslice & Hq);
    [done|].
  assert (∀ i, i < 4 →
            ∃ p, [p0; p1; p2; p3] !! i = Some p ∧
                 refined_evcc_mode hour (15 * i) data
                 = Some (match ControlState.mode (EOSData.control data) with
                         | AVOID_DISCHARGE => EVCC_BATTERY_HOLD
                         | CHARGE_FROM_GRID =>
                             if Qle_bool p (default p (EOSData.prices data !! hour))
                                || Qeq_bool p (py_min p0 [p1; p2; p3])
                             then EVCC_BATTERY_CHARGE else EVCC_BATTERY_HOLD
                         | DISCHARGE_ALLOWED =>
                             if Qle_bool (default p (EOSData.prices data !! hour)) p
                                || Qeq_bool p (py_max p0 [p1; p2; p3])
                             then EVCC_BATTERY_NORMAL else EVCC_BATTERY_HOLD
                         | _ =>
                             if Qle_bool p (py_min p0 [p1; p2; p3] * 1.1)%Q
                             then EVCC_BATTERY_CHARGE
                             else if Qle_bool (py_max p0 [p1; p2; p3] * 0.9)%Q p
                             then EVCC_BATTERY_NORMAL
                             else EVCC_BATTERY_HOLD
                         end)) as Hquarter.
  { intros i Hi. unfold refined_evcc_mode.
    replace ((15 * i) `div` 15) with i
      by (symmetry; rewrite Nat.mul_comm; by apply Nat.div_mul).
    rewrite (Hq i Hi).
    destruct (lookup_lt_is_Some_2 [p0; p1; p2; p3] i) as [p Hp]; [cbn; lia|].
    exists p. split; [done|]. rewrite Hp.
    rewrite bool_decide_eq_true_2 by lia. rewrite Hslice. done. }
  split_and!.
  - intros minute Hminute.
    assert (minute `div` 15 < 4) as Hi by (apply Nat.Div0.div_lt_upper_bound; lia).
    destruct (Hquarter (minute `div` 15) Hi) as (p & _ & Hmode).
    assert (refined_evcc_mode hour minute data
            = refined_evcc_mode hour (15 * (minute `div` 15)) data) as ->.
    { unfold refined_evcc_mode. f_equal.
      rewrite (Nat.mul_comm 15), Nat.div_mul by done. done. }
    eexists. split; [exact Hmode|]. unfold evcc_battery_modes.
    destruct (ControlState.mode (EOSData.control data));
      repeat match goal with |- context [if ?b then _ else _] => destruct b end;
      split_and!; try done; rewrite !elem_of_cons; auto.
  - intros Hmode.
    pose proof (py_min_in p0 [p1; p2; p3]) as Hin.
    apply list_elem_of_lookup in Hin as [i Hi].
    assert (i < 4) as Hlt by (apply lookup_lt_Some in Hi; cbn in Hi; lia).
    destruct (Hquarter i Hlt) as (p & Hp & Hrefined).
    exists (15 * i). split; [lia|]. rewrite Hrefined, Hmode.
    rewrite Hi in Hp. injection Hp as <-.
    by rewrite (proj2 (Qeq_bool_iff _ _) (Qeq_refl _)), orb_true_r.
  - intros Hmode.
    pose proof (py_max_in p0 [p1; p2; p3]) as Hin.
    apply list_elem_of_lookup in Hin as [i Hi].
    assert (i < 4) as Hlt by (apply lookup_lt_Some in Hi; cbn in Hi; lia).
    destruct (Hquarter i Hlt) as (p & Hp & Hrefined).
    exists (15 * i). split; [lia|]. rewrite Hrefined, Hmode.
    rewrite Hi in Hp. injection Hp as <-.
    by rewrite (proj2 (Qeq_bool_iff _ _) (Qeq_refl _)), orb_true_r.
Qed.

Lemma refined_evcc_mode_quarters_witness :
  let data :=
    set_prices [0.2]%Q [0.3; 0.25; 0.35; 0.4]%Q
      (async_set_mode CHARGE_FROM_GRID EOSData.new) in
  refined_evcc_mode 0 50 data ≠ Some EVCC_BATTERY_NORMAL.
Proof.
  intros data.
  destruct (refined_evcc_mode_quarters 0 data) as (Hall & _); [cbn; lia|].
  destruct (Hall 50) as (evcc_mode & -> & _ & _ & Hcharge & _); [lia|].
  intros [= Heq]. by apply Hcharge.
Defined.

(** ** The coordinator and its timer *)

Lemma evcc_inv_set_refinement v self calls :
  evcc_inv (self, calls) → evcc_inv (set_refinement_15min_enabled v self, calls).
Proof. done. Qed.

Lemma evcc_inv_15min_update evcc_enabled hour minute data answer st :
  evcc_inv st → evcc_inv (_async_15min_update evcc_enabled hour minute data answer st).
Proof.
  intros Hinv. unfold _async_15min_update, _sync_evcc_battery_mode_15min.
  destruct (negb _); [done|]. destruct (negb _); [done|].
  destruct (refined_evcc_mode _ _ _); [by apply evcc_inv_step | done].
Qed.

Lemma coordinator_step_inv st e :
  evcc_inv st.1 ∧ timer_inv st.2 →
  evcc_inv (coordinator_step st e).1 ∧ timer_inv (coordinator_step st e).2.
Proof.
  destruct st as [[self calls] timer]. cbn [fst snd]. intros [Hinv Htimer].
  destruct e as [mode answer | evcc_enabled hour minute data answer
                | evcc_enabled hour minute data answer enabled]; cbn [coordinator_step fst snd].
  - split; [|done]. unfold _sync_evcc_battery_mode.
    destruct (Coordinator._refinement_15min_enabled _); [done | by apply evcc_inv_step].
  - case_bool_decide; [done|]. split; [|done]. by apply evcc_inv_15min_update.
  - unfold async_set_15min_refinement, timer_inv in *.
    destruct timer as [unsub live]. cbn [_15min_unsub live_timers] in *.
    destruct enabled, unsub; cbn [negb fst snd _15min_unsub live_timers]; try done.
    + split; [|lia]. by apply evcc_inv_15min_update.
    + split; [done|]. lia.
Qed.

(** X22.  Through every sequence of syncs, timer ticks and switches of
    the refinement, from a coordinator as it is created: the mode that the
    coordinator remembers is that of the last call that succeeded, two
    successful calls in a row never carry the same mode, and at most one
    timer runs, namely the one whose handle the coordinator holds. *)
Theorem coordinator_events_keep_order
    (self : Coordinator.t) (events : list coordinator_event) :
  Coordinator._last_evcc_mode self = None →
  let st := foldl coordinator_step (self, [], mk_refinement_timer false 0) events in
  Coordinator._last_evcc_mode st.1.1 = last (successful_modes st.1.2) ∧
  no_repeat (successful_modes st.1.2) ∧
  live_timers st.2 ≤ 1 ∧
  (live_timers st.2 = 1 ↔ _15min_unsub st.2 = true).
Proof.
  intros Hnone st.
  assert (evcc_inv st.1 ∧ timer_inv st.2) as [[Hlast Hrep] Htimer].
  { subst st.
    assert (∀ st0, evcc_inv st0.1 ∧ timer_inv st0.2 →
                   evcc_inv (foldl coordinator_step st0 events).1 ∧
                   timer_inv (foldl coordinator_step st0 events).2) as Hall.
    { induction events as [|e events IH]; intros st0 Hst0; [exact Hst0|].
      cbn [foldl]. apply IH. by apply coordinator_step_inv. }
    apply Hall. split; [|done]. split; [done|].
    intros i m m' Hm. cbn in Hm. by rewrite lookup_nil in Hm. }
  unfold timer_inv in Htimer. split_and!; try done.
  - destruct (_15min_unsub st.2); lia.
  - destruct (_15min_unsub st.2); split; intros; try done; lia.
Qed.

Lemma coordinator_events_keep_order_witness :
  let self := Coordinator.mk None None 10000 0.08 false in
  let data :=
    set_prices [0.2]%Q [0.3; 0.25; 0.35; 0.4]%Q
      (async_set_mode CHARGE_FROM_GRID EOSData.new) in
  let events :=
    [HourlySync CHARGE_FROM_GRID ApiTrue;
     SetRefinement true 0 0 data ApiTrue true;
     SetRefinement true 0 0 data ApiTrue true;
     TimerTick true 0 50 data ApiTrue] in
  live_timers (foldl coordinator_step (self, [], mk_refinement_timer false 0) events).2
  ≤ 1.
Proof.
  intros self data events.
  destruct (coordinator_events_keep_order self events) as (_ & _ & Hone & _);
    [reflexivity | exact Hone].
Defined.

(** X23.  A coordinator created with the refinement switched on starts
    no timer for it.  Until the switch is used, the sync at the end of a
    cycle is skipped and no tick comes: the controller is never told a
    battery mode. *)
Theorem refinement_on_at_start_never_syncs
    (self : Coordinator.t) (calls : list api_call) (events : list coordinator_event) :
  Coordinator._refinement_15min_enabled self = true →
  forallb (λ e, negb (is_switch e)) events = true →
  foldl coordinator_step (self, calls, mk_refinement_timer false 0) events
  = (self, calls, mk_refinement_timer false 0).
Proof.
  intros Hon. induction events as [|e events IH]; [done|].
  cbn [forallb]. intros [He Hevents]%andb_prop. cbn [foldl].
  destruct e as [mode answer | evcc_enabled hour minute data answer
                | evcc_enabled hour minute data answer enabled]; [| |done].
  - cbn [coordinator_step fst snd]. unfold _sync_evcc_battery_mode. cbn [fst].
    rewrite Hon. by apply IH.
  - cbn [coordinator_step snd live_timers]. rewrite bool_decide_eq_true_2 by done.
    by apply IH.
Qed.

Lemma refinement_on_at_start_never_syncs_witness :
  let self := Coordinator.mk None None 10000 0.08 true in
  (foldl coordinator_step (self, [], mk_refinement_timer false 0)
     [HourlySync CHARGE_FROM_GRID ApiTrue; HourlySync AVOID_DISCHARGE ApiTrue]).1.2
  = [].
Proof.
  intros self.
  by rewrite (refinement_on_at_start_never_syncs self []
                [HourlySync CHARGE_FROM_GRID ApiTrue; HourlySync AVOID_DISCHARGE ApiTrue]).
Defined.

(** ** The quarter-hourly series of [_parse_tibber_prices_dual] *)

Lemma quarter_price_range now i entry p :
  quarter_price now i entry = Some p → (0 ≤ i < 192)%Z.
Proof.
  unfold quarter_price, slot_of.
  destruct (tibber_time entry) as [t|]; [|done]. cbn [mbind option_bind].
  destruct (py_float _) as [q|]; [|done]. cbn [mbind option_bind].
  set (slot_15min := py_int _).
  destruct (bool_decide _ && bool_decide _) eqn:Hwin; [|done]. cbn [mbind option_bind].
  destruct (decide (_ = i)) as [Hi|]; [|done]. intros _.
  apply andb_prop in Hwin as [H1 H2].
  apply bool_decide_eq_true in H1. apply bool_decide_eq_true in H2. lia.
Qed.

(** One turn of the loop writes to slot [i] what the entry has for it, and
    to no other slot. *)
Lemma tibber_entry_quarter (now : Q) (dicts : price_dicts) (entry : gmap string value)
    (i : Z) :
  (tibber_entry now dicts entry).2 !! i
  = match quarter_price now i entry with
    | Some p => Some p
    | None => dicts.2 !! i
    end.
Proof.
  destruct dicts as [hourly_prices prices_15min_dict].
  unfold tibber_entry, quarter_price, tibber_time, slot_of. cbn [snd].
  set (from_str := py_or (entry_get entry "from") (entry_get entry "startsAt")).
  set (price := py_or (entry_get entry "price") (entry_get entry "total")).
  destruct (fromisoformat from_str) as [from_time|] eqn:Htime.
  2:{ cbn. by destruct (negb _ || _). }
  rewrite (fromisoformat_truthy _ _ Htime). cbn [negb orb mbind option_bind].
  destruct (py_float price) as [p|] eqn:Hp.
  2:{ cbn [mbind option_bind].
      destruct (is_VNone price); [done|].
      destruct (bool_decide _ && bool_decide _); cbn [mbind option_bind];
        [destruct (bool_decide _); cbn [mbind option_bind]; [done|] |];
        (destruct (Qle_bool _ _ && _); [|done]);
        by (destruct (bool_decide _)). }
  assert (is_VNone price = false) as -> by by destruct price.
  cbn [mbind option_bind].
  set (slot_15min := py_int (_ / 15)).
  assert (∀ d15 : gmap Z Q,
            (if Qle_bool (-1) ((from_time - now) / 60 / 60)
                && Qlt_bool ((from_time - now) / 60 / 60) 48
             then
               if bool_decide (0 `max` py_int ((from_time - now) / 60 / 60) < 48)%Z
               then
                 (alter (λ l, l ++ [p])
                    (0 `max` py_int ((from_time - now) / 60 / 60))%Z
                    (setdefault_empty (0 `max` py_int ((from_time - now) / 60 / 60))%Z
                       hourly_prices), d15)
               else (hourly_prices, d15)
             else (hourly_prices, d15)).2 = d15) as Hsnd.
  { intros d15. destruct (_ && _); [|done]. by destruct (bool_decide _). }
  destruct (bool_decide (-4 ≤ slot_15min)%Z && bool_decide (slot_15min < 192)%Z) eqn:Hwin.
  - apply andb_prop in Hwin as [H1 H2].
    apply bool_decide_eq_true in H1. apply bool_decide_eq_true in H2.
    rewrite bool_decide_eq_true_2 by lia. cbn [mbind option_bind].
    rewrite Hsnd. destruct (decide (_ = i)) as [Hi|Hi].
    + subst i. by rewrite lookup_insert_eq.
    + by rewrite lookup_insert_ne.
  - cbn [mbind option_bind]. by rewrite Hsnd.
Qed.

Lemma tibber_loop_quarters (now : Q) (data : list (gmap string value))
    (dicts : price_dicts) (i : Z) :
  (foldl (tibber_entry now) dicts data).2 !! i
  = match last (omap (quarter_price now i) data) with
    | Some p => Some p
    | None => dicts.2 !! i
    end.
Proof.
  induction data as [|entry data IH] using rev_ind; [done|].
  rewrite foldl_app, omap_app. cbn [foldl omap list_omap].
  rewrite tibber_entry_quarter, IH.
  destruct (quarter_price now i entry) as [p|].
  - by rewrite last_snoc.
  - by rewrite app_nil_r.
Qed.

(** X24.  The quarter-hourly series of [_parse_tibber_prices_dual] has 192
    slots.  When no entry maps to any slot, it is the hourly series
    expanded four-fold.  As soon as one entry maps to a slot, each slot
    holds the price of the last entry that maps to it, and a slot to which
    no entry maps holds 0.30, whatever the hourly series holds for its
    hour. *)
Theorem parse_tibber_quarter_hours (data : list (gmap string value)) (now : Q) :
  let series := _parse_tibber_prices_dual data now in
  length series.2 = 192 ∧
  ((∀ i, i < 192 → quarter_of now data i = None) →
   series.2 = _expand_hourly_to_15min series.1) ∧
  ((∃ i, i < 192 ∧ is_Some (quarter_of now data i)) →
   ∀ i, i < 192 → series.2 !! i = Some (default DEFAULT_PRICE (quarter_of now data i))).
Proof.
  intros series. subst series. unfold _parse_tibber_prices_dual, quarter_of.
  pose proof (λ i, tibber_loop_quarters now data (∅, ∅) i) as Hloop.
  destruct (foldl (tibber_entry now) (∅, ∅) data) as [hp d15].
  cbn [fst snd] in Hloop. unfold finish_prices_dual. cbn [fst snd].
  destruct (build_15min_spec d15) as [Hlen Hslot].
  split_and!.
  - case_bool_decide; [apply expand_hourly_to_15min_length | done].
  - intros Hnone. rewrite bool_decide_eq_true_2; [done|].
    apply map_size_empty_iff, map_empty. intros k. rewrite Hloop.
    destruct (last (omap (quarter_price now k) data)) as [p|] eqn:Hlast;
      [|by rewrite lookup_empty].
    assert (0 ≤ k < 192)%Z as Hk.
    { apply last_Some in Hlast as [l Hl].
      assert (p ∈ omap (quarter_price now k) data) as Hin
        by (rewrite Hl; apply elem_of_app; right; by left).
      apply list_elem_of_omap in Hin as (entry & _ & Hentry).
      by apply (quarter_price_range now k entry p). }
    assert (Z.to_nat k < 192) as Hlt by lia.
    specialize (Hnone (Z.to_nat k) Hlt). rewrite Z2Nat.id in Hnone by lia.
    congruence.
  - intros (i0 & Hi0 & [p Hp]) i Hi.
    rewrite bool_decide_eq_false_2.
    + rewrite Hslot, Hloop by done. rewrite lookup_empty.
      by destruct (last (omap (quarter_price now (Z.of_nat i)) data)).
    + intros Hsize. apply map_size_empty_iff in Hsize. subst d15.
      specialize (Hloop (Z.of_nat i0)). rewrite Hp, lookup_empty in Hloop. done.
Qed.

Lemma parse_tibber_quarter_hours_witness :
  let series := _parse_tibber_prices_dual tibber_by_the_hour 0 in
  series.2 !! 0 = Some 0.20%Q ∧ series.2 !! 1 = Some DEFAULT_PRICE ∧
  series.2 !! 4 = Some 0.10%Q ∧ series.2 !! 5 = Some DEFAULT_PRICE.
Proof.
  intros series.
  destruct (parse_tibber_quarter_hours tibber_by_the_hour 0) as (_ & _ & Hslots).
  assert (∃ i, i < 192 ∧ is_Some (quarter_of 0 tibber_by_the_hour i)) as Hsome.
  { exists 0. split; [lia|]. by eexists. }
  split_and!; (rewrite (Hslots Hsome) by lia); reflexivity.
Defined.

(** ** Clearing an override, and the savings after a cycle *)

Lemma update_control_state_override_fields (config : gmap string Q) (data : EOSData.t) :
  override_fields (EOSData.control (_update_control_state config data))
  = override_fields (EOSData.control data).
Proof.
  unfold _update_control_state.
  destruct (_ || _); [done|].
  destruct (OptimizationResult.ac_charge _), (OptimizationResult.dc_charge _),
    (OptimizationResult.discharge_allowed _); cbn;
    repeat match goal with |- context [if ?b then _ else _] => destruct b end; done.
Qed.

Lemma parse_response_series now current_hour response data :
  let data' := (_parse_optimization_response now current_hour response data).2 in
  EOSData.prices data' = EOSData.prices data ∧
  EOSData.battery data' = EOSData.battery data.
Proof.
  unfold _parse_optimization_response.
  destruct (Response.error response); [done|]. cbn [snd].
  destruct (Response.washingstart response);
    destruct (Response.start_solution response) as [s|]; try done;
    cbn; by destruct (decide _).
Qed.

Lemma update_control_state_series (config : gmap string Q) (data : EOSData.t) :
  EOSData.prices (_update_control_state config data) = EOSData.prices data ∧
  EOSData.battery (_update_control_state config data) = EOSData.battery data.
Proof. unfold _update_control_state. by destruct (_ || _). Qed.

Section CycleFacts.
Variable states : gmap string State.t.
Variable config_str : gmap string string.
Variable config : gmap string Q.
Variable charging_curve_enabled : bool.
Variable eos_at_least_0_0_2 : bool.
Variable now_pv : Q.
Variable now_prices : Q.
Variable hour_prices : Z.
Variable _get_session : outcome unit.
Variable now : Q.
Variable current_hour : Z.
Variable post : Request.t → Z → outcome HttpResponse.t.
Variable _fire_control_event : EOSData.t → outcome unit.

Let run : M OptimizationResult.t :=
  EOSClient.async_run_optimization states config_str config charging_curve_enabled
    eos_at_least_0_0_2 now_pv now_prices hour_prices _get_session now current_hour
    post _fire_control_event.

(** What a cycle leaves of the control state, of the prices and of the
    battery state, told from what the request met with. *)
Lemma client_cycle_cases (data : EOSData.t) :
  ∃ d, EOSData.control d = EOSData.control data ∧
       length (EOSData.prices d) = 48 ∧
       EOSData.prices (run data).2 = EOSData.prices d ∧
       EOSData.battery (run data).2 = EOSData.battery d ∧
       (EOSData.control (run data).2 = EOSData.control data ∨
        ∃ resp response,
          post (_build_optimization_request config eos_at_least_0_0_2 d) current_hour
          = Return resp ∧
          HttpResponse.status resp = 200%Z ∧
          HttpResponse.json resp = Return response ∧
          EOSData.control (run data).2
          = EOSData.control
              (_update_control_state config
                 (EOSData.set_optimization
                    (_parse_optimization_response now current_hour response d).1
                    (_parse_optimization_response now current_hour response d).2))).
Proof.
  destruct (sensors_frame states config_str config charging_curve_enabled
              now_pv now_prices hour_prices data) as (Hc & _ & Hp & _).
  unfold run, EOSClient.async_run_optimization.
  rewrite async_run_optimization_unfold, run_optimization_try_unfold.
  pose proof (client_prepare_unfold states config_str config charging_curve_enabled
                eos_at_least_0_0_2 now_pv now_prices hour_prices _get_session data)
    as Hprep.
  unfold EOSClient.run_optimization_prepare in Hprep. rewrite Hprep. clear Hprep.
  set (d := _update_battery_state _ _ _) in *. clearbody d.
  exists d. split; [done|]. split; [done|].
  assert (∀ e, EOSData.prices (raised_in_try e d).2 = EOSData.prices d ∧
               EOSData.battery (raised_in_try e d).2 = EOSData.battery d ∧
               (EOSData.control (raised_in_try e d).2 = EOSData.control data ∨
                ∃ resp response,
                  post (_build_optimization_request config eos_at_least_0_0_2 d)
                    current_hour = Return resp ∧
                  HttpResponse.status resp = 200%Z ∧
                  HttpResponse.json resp = Return response ∧
                  EOSData.control (raised_in_try e d).2
                  = EOSData.control
                      (_update_control_state config
                         (EOSData.set_optimization
                            (_parse_optimization_response now current_hour response d).1
                            (_parse_optimization_response now current_hour response d).2))))
    as Hraised.
  { intros e. destruct (raised_in_try_frame e d) as (-> & -> & ->). by split_and!; try left. }
  destruct _get_session as [[]|e]; [|apply Hraised].
  destruct (post _ current_hour) as [resp|e] eqn:Hpost; [|apply Hraised].
  case_bool_decide as Hstatus.
  - destruct (HttpResponse.json resp) as [response|e] eqn:Hjson; [|apply Hraised].
    cbv zeta.
    destruct (parse_response_series now current_hour response d) as [Hpp Hpb].
    set (parsed := _parse_optimization_response now current_hour response d) in *.
    destruct (update_control_state_series config
                (EOSData.set_optimization parsed.1 parsed.2)) as [Hup Hub].
    cbn [EOSData.set_optimization EOSData.prices EOSData.battery] in Hup, Hub.
    match goal with
    | |- context [_fire_control_event ?d_ok] =>
        destruct (_fire_control_event d_ok) as [[]|e];
        [|destruct (raised_in_try_frame e d_ok) as (-> & -> & ->)]
    end; cbn; rewrite Hup, Hub, Hpp, Hpb;
      (split; [done|]); (split; [done|]); right; by exists resp, response.
  - destruct (HttpResponse.text resp); [by split_and!; try left | apply Hraised].
Qed.
End CycleFacts.

(** X25.  [async_clear_override] returns [True] or lets through an
    exception of the cycle that it runs which no handler of the cycle
    takes, such as a [CancelledError]: when the session is there and the
    request raises, it returns [True] if a handler takes the exception and
    raises the exception if none does.  In every case no override is
    active afterwards.  It does not reset the mode: when the request to the
    optimizer raises, the mode and the demands that the override left stay
    in force. *)
Theorem clear_override_keeps_mode_on_failure
    (states : gmap string State.t) (config_str : gmap string string)
    (config : gmap string Q) (charging_curve_enabled eos_at_least_0_0_2 : bool)
    (now_pv now_prices : Q) (hour_prices : Z) (_get_session : outcome unit)
    (now : Q) (current_hour : Z) (post : Request.t → Z → outcome HttpResponse.t)
    (_fire_control_event : EOSData.t → outcome unit) (data : EOSData.t) :
  let cleared :=
    EOSClient.async_clear_override states config_str config charging_curve_enabled
      eos_at_least_0_0_2 now_pv now_prices hour_prices _get_session now current_hour
      post _fire_control_event data in
  (cleared.1 = Return true ∨ ∃ e, handled e = false ∧ cleared.1 = Raise e) ∧
  (∀ e, _get_session = Return () →
        (∀ request_data hour, post request_data hour = Raise e) →
        cleared.1 = if handled e then Return true else Raise e) ∧
  override_fields (EOSData.control cleared.2) = (false, None, 0%Q) ∧
  ((∀ request_data hour, ∃ e, post request_data hour = Raise e) →
   EOSData.control cleared.2 = EOSData.control (clear_override_fields data)).
Proof.
  intros cleared. subst cleared.
  unfold EOSClient.async_clear_override, async_clear_override, modify, mbind, M_bind,
    mret, M_ret.
  pose proof (async_run_optimization_unfold config charging_curve_enabled
                eos_at_least_0_0_2
                (modify (_update_battery_soc states config_str))
                (modify (_update_load_data states config_str))
                (modify (_update_pv_forecast states config_str now_pv))
                (modify (_update_prices states config_str config now_prices hour_prices))
                _get_session now current_hour post _fire_control_event
                (clear_override_fields data)) as Hrun.
  pose proof (run_optimization_try_unfold config charging_curve_enabled
                eos_at_least_0_0_2
                (modify (_update_battery_soc states config_str))
                (modify (_update_load_data states config_str))
                (modify (_update_pv_forecast states config_str now_pv))
                (modify (_update_prices states config_str config now_prices hour_prices))
                _get_session now current_hour post _fire_control_event
                (clear_override_fields data)) as Htry.
  pose proof (client_prepare_unfold states config_str config charging_curve_enabled
                eos_at_least_0_0_2 now_pv now_prices hour_prices _get_session
                (clear_override_fields data)) as Hprep.
  unfold EOSClient.run_optimization_prepare in Hprep. rewrite Hprep in Htry. clear Hprep.
  destruct (client_cycle_cases states config_str config charging_curve_enabled
              eos_at_least_0_0_2 now_pv now_prices hour_prices _get_session now
              current_hour post _fire_control_event (clear_override_fields data))
    as (d & Hd & _ & _ & _ & Hcases).
  unfold EOSClient.async_run_optimization in Hcases.
  set (run := async_run_optimization _ _ _ _ _ _ _ _ _ _ _ _) in *.
  set (try_block := run_optimization_try _ _ _ _ _ _ _ _ _ _ _ _) in *.
  set (cleared := match run (clear_override_fields data) with
                  | (Return _, d') => (Return true, d')
                  | (Raise e, d') => (Raise e, d')
                  end).
  assert (cleared.2 = (run (clear_override_fields data)).2) as Hstate.
  { subst cleared. by destruct (run (clear_override_fields data)) as [[?|?] ?]. }
  split_and!.
  - subst cleared. rewrite Hrun.
    destruct (try_block (clear_override_fields data)) as [[[]|e] d']; [by left|].
    unfold raised_in_try. destruct (handled e) eqn:He; [by left|].
    right. by exists e.
  - intros e Hsession Hpost. subst cleared. rewrite Hrun, Htry, Hsession, Hpost.
    unfold raised_in_try. by destruct (handled e).
  - rewrite Hstate.
    destruct Hcases as [-> | (resp & response & _ & _ & _ & ->)].
    + done.
    + rewrite update_control_state_override_fields.
      cbn [EOSData.set_optimization EOSData.control].
      by rewrite parse_response_control, Hd.
  - intros Hpost. rewrite Hstate.
    destruct Hcases as [-> | (resp & response & Hresp & _)]; [done|].
    destruct (Hpost (_build_optimization_request config eos_at_least_0_0_2 d)
                current_hour) as [e He].
    congruence.
Qed.

Lemma clear_override_keeps_mode_on_failure_witness :
  let data := async_set_override 0 CHARGE_FROM_GRID 60 3000 EOSData.new in
  let post := λ (_ : Request.t) (_ : Z), @Raise HttpResponse.t CancelledError in
  let cleared :=
    EOSClient.async_clear_override ∅ ∅ ∅ false true 0 0 0 (Return ()) 7200 2
      post (λ _, Return ()) data in
  cleared.1 = Raise CancelledError ∧
  ControlState.mode (EOSData.control cleared.2) = CHARGE_FROM_GRID ∧
  ControlState.ac_charge_demand (EOSData.control cleared.2) = 3000%Q ∧
  ControlState.override_active (EOSData.control cleared.2) = false.
Proof.
  intros data post cleared.
  destruct (clear_override_keeps_mode_on_failure ∅ ∅ ∅ false true 0 0 0 (Return ())
              7200 2 post (λ _, Return ()) data) as (_ & Hraise & _ & Hkept).
  subst cleared. split; [by apply (Hraise CancelledError)|].
  rewrite Hkept; [by split_and! | by eexists].
Defined.

(** X26.  After a cycle of [async_run_optimization] the test for a
    missing price list in [_update_savings] never holds: whatever the
    sensors and the optimizer did, the update goes through, and the
    coordinator remembers the state of charge that the cycle left. *)
Theorem update_savings_after_cycle
    (states : gmap string State.t) (config_str : gmap string string)
    (config : gmap string Q) (charging_curve_enabled eos_at_least_0_0_2 : bool)
    (now_pv now_prices : Q) (hour_prices : Z) (_get_session : outcome unit)
    (now : Q) (current_hour : Z) (post : Request.t → Z → outcome HttpResponse.t)
    (_fire_control_event : EOSData.t → outcome unit)
    (today : string) (self : Coordinator.t) (data : EOSData.t) :
  let data' :=
    (EOSClient.async_run_optimization states config_str config charging_curve_enabled
       eos_at_least_0_0_2 now_pv now_prices hour_prices _get_session now current_hour
       post _fire_control_event data).2 in
  length (EOSData.prices data') = 48 ∧
  Coordinator._last_soc (_update_savings today (self, data')).1
  = Some (BatteryState.soc (EOSData.battery data')) ∧
  SavingsTracker.today_date (EOSData.savings (_update_savings today (self, data')).2)
  = today.
Proof.
  intros data'. subst data'.
  destruct (client_cycle_cases states config_str config charging_curve_enabled
              eos_at_least_0_0_2 now_pv now_prices hour_prices _get_session now
              current_hour post _fire_control_event data)
    as (d & _ & Hlen & Hprices & _ & _).
  set (data' := (EOSClient.async_run_optimization _ _ _ _ _ _ _ _ _ _ _ _ _ data).2) in *.
  clearbody data'. rewrite Hprices. split; [done|].
  assert (SavingsTracker.today_date (reset_today today (EOSData.savings data')) = today)
    as Hday.
  { unfold reset_today. by case_bool_decide. }
  unfold _update_savings. rewrite Hprices.
  destruct (EOSData.prices d) as [|current_price ?]; [done|].
  destruct (Coordinator._last_soc self) as [last_soc|]; [|done].
  destruct (Qlt_bool (Qabs _) _); [done|].
  destruct (Qlt_bool 0 _); done.
Qed.
